(** * quant-board-core: the ingestion and reconciliation core

    A shallow embedding of [app/services/stock_service.py] (with the
    tables of [app/models/stock_model.py], the request schemas of
    [app/schemas/stock_schema.py] and the routes of
    [app/routers/stocks.py]) and the properties of the value sanitizer,
    the security upsert, the price merge, the statement merge, the
    bulk job, the queries and the routes.

    Conventions
    - a [datetime.date] is its proleptic Gregorian ordinal
      ([date.toordinal()]); Python orders dates as it orders ordinals;
    - a Python [float] is an IEEE binary64 value, carried as a
      [spec_float] with its validity proof;
    - a Python [int] is an unbounded [Z];
    - the database is the three tables, as lists of rows in insertion
      order; [created_at] / [updated_at] are clock readings and are left
      out; a [BigInteger] column holds the integers of 64 bits, and a
      write of any other integer is refused with [DataError], nothing
      of its transaction being stored;
    - a [Session] one of whose flushes was refused raises
      [PendingRollbackError] on every later use; the routes get a
      session per request, the bulk job uses one for all its symbols
      and never rolls it back;
    - [print] appends a message to the console. *)

From Stdlib Require Import ZArith List String Bool Lia Arith PeanoNat.
From Stdlib Require Import Floats.SpecFloat.
From Stdlib Require Import Sorting.Sorted Sorting.Permutation.
Import ListNotations.

Local Open Scope string_scope.
Local Open Scope Z_scope.

(* ================================================================== *)
(** * Python values and exceptions *)
(* ================================================================== *)

(** Exceptions the modelled code can meet.  [ValidationError] is a
    schema refusing a value for one of its fields; [IntegrityError] is
    the database refusing a second row with a [unique] code or a NULL
    in a [nullable=False] column; [DataError] is the database (or its
    driver) refusing an integer outside the 64 bits of a [BigInteger]
    column; [PendingRollbackError] is what a [Session] raises when it
    is used after one of its flushes failed and before a rollback;
    [ProviderError] stands for whatever the market-data client raises
    (network, timeout, shape); [HTTPException] is raised by the routes. *)
Inductive exn : Type :=
| OverflowError
| ValueError
| TypeError
| ValidationError
| IntegrityError
| DataError
| PendingRollbackError
| ProviderError (msg : string)
| HTTPException (status_code : Z) (detail : string).

Inductive result (A : Type) : Type :=
| Ok (a : A)
| Raise (e : exn).
Arguments Ok {A} a.
Arguments Raise {A} e.

Definition prec : Z := 53.
Definition emax : Z := 1024.

(** A Python float: a binary64 datum. *)
Record float64 : Type := mkFloat {
  f_val : spec_float;
  f_valid : valid_binary prec emax f_val = true
}.

(** What a cell of a provider frame, or a numeric entry of the [info]
    dictionary, can hold: [None], an [int], a [float], or an object
    that is no number ([pd.NA], [pd.NaT], a [str] that spells none),
    which neither [float()] nor [int()] nor a numeric schema field
    accepts. *)
Inductive pyval : Type :=
| VNone
| VInt (z : Z)
| VFloat (f : float64)
| VOther.

Definition float_is_finite (f : float64) : bool :=
  match f_val f with
  | S754_zero _ | S754_finite _ _ _ => true
  | S754_infinity _ | S754_nan => false
  end.

(** The least magnitude of an [int] whose conversion to a double rounds
    (to nearest, ties to even) to [2^1024]: halfway between the largest
    double [2^1024 - 2^971] and [2^1024]. *)
Definition float_overflow_bound : Z := 2 ^ 1024 - 2 ^ 970.

(** [float(z)] for an [int]: CPython raises [OverflowError] when the
    rounded magnitude leaves the double range. *)
Definition int_fits_double (z : Z) : bool := Z.abs z <? float_overflow_bound.

(** [math.isfinite(value)]: the argument is converted to a double first. *)
Definition math_isfinite (value : pyval) : result bool :=
  match value with
  | VNone => Raise TypeError
  | VInt z => if int_fits_double z then Ok true else Raise OverflowError
  | VFloat f => Ok (float_is_finite f)
  | VOther => Raise TypeError
  end.

(** The magnitude [m * 2^e] truncated to an integer. *)
Definition trunc_mag (m : positive) (e : Z) : Z :=
  if 0 <=? e then Z.pos m * 2 ^ e else Z.pos m / 2 ^ (- e).

(** [int(value)]: identity on an [int], truncation toward zero on a
    finite float. *)
Definition py_int (value : pyval) : result Z :=
  match value with
  | VNone => Raise TypeError
  | VInt z => Ok z
  | VFloat f =>
      match f_val f with
      | S754_zero _ => Ok 0
      | S754_finite s m e =>
          Ok (if s then - trunc_mag m e else trunc_mag m e)
      | S754_infinity _ => Raise OverflowError
      | S754_nan => Raise ValueError
      end
  | VOther => Raise TypeError
  end.

(** [stock_service._clean_financial_value]

<<
    if value is None or not math.isfinite(value):
        return None
    try:
        return int(value)
    except (ValueError, TypeError):
        return None
>> *)
Definition _clean_financial_value (value : pyval) : result (option Z) :=
  match value with
  | VNone => Ok None
  | _ =>
      match math_isfinite value with
      | Raise e => Raise e
      | Ok false => Ok None
      | Ok true =>
          match py_int value with
          | Ok z => Ok (Some z)
          | Raise ValueError | Raise TypeError => Ok None
          | Raise e => Raise e
          end
      end
  end.

(** The sanitizer's result read back as a value (for re-sanitizing). *)
Definition of_clean (r : option Z) : pyval :=
  match r with
  | None => VNone
  | Some z => VInt z
  end.

(** The inputs on which the sanitizer is defined: [None] and
    everything [math.isfinite] accepts. *)
Definition in_sanitizer_domain (value : pyval) : Prop :=
  match value with
  | VInt z => Z.abs z < float_overflow_bound
  | VNone | VFloat _ => True
  | VOther => False
  end.

(** ** Concrete floats used in examples *)

Definition float_nan : float64 := mkFloat S754_nan eq_refl.
Definition float_inf (s : bool) : float64 := mkFloat (S754_infinity s) eq_refl.
Definition float_zero : float64 := mkFloat (S754_zero false) eq_refl.
(** 101.0 = 101 * 2^46 * 2^-46 *)
Definition float_101 : float64 :=
  mkFloat (S754_finite false 7107243161944064 (-46)) eq_refl.
(** -2.5 *)
Definition float_m2_5 : float64 :=
  mkFloat (S754_finite true 5629499534213120 (-51)) eq_refl.
(** The largest double, [2^1024 - 2^971]. *)
Definition float_max : float64 :=
  mkFloat (S754_finite false 9007199254740991 971) eq_refl.

(* ================================================================== *)
(** * Frames of the market-data client *)
(* ================================================================== *)

Definition date : Type := Z.

(** A pandas [Timestamp]: a calendar day and a time within it. *)
Record Timestamp : Type := mkTimestamp {
  ts_day : date;
  ts_time_ns : N
}.

(** [Timestamp.date()] *)
Definition Timestamp_date (t : Timestamp) : date := ts_day t.

(** A [DataFrame]: row labels, column labels and the cell at each
    crossing. *)
Record DataFrame (R C : Type) : Type := mkDataFrame {
  df_index : list R;
  df_columns : list C;
  df_at : R -> C -> pyval
}.
Arguments mkDataFrame {R C} _ _ _.
Arguments df_index {R C} _.
Arguments df_columns {R C} _.
Arguments df_at {R C} _ _ _.

(** A [Series] labelled by strings: one row of a frame. *)
Record Series : Type := mkSeries {
  s_labels : list string;
  s_at : string -> pyval
}.

Definition is_nil {A : Type} (l : list A) : bool :=
  match l with
  | [] => true
  | _ :: _ => false
  end.

(** [df.empty]: an axis of length zero. *)
Definition df_empty {R C : Type} (df : DataFrame R C) : bool :=
  is_nil (df_index df) || is_nil (df_columns df).

(** [df.T] *)
Definition df_T {R C : Type} (df : DataFrame R C) : DataFrame C R :=
  mkDataFrame (df_columns df) (df_index df) (fun c r => df_at df r c).

(** [df.iterrows()] *)
Definition iterrows {R : Type} (df : DataFrame R string) : list (R * Series) :=
  map (fun r => (r, mkSeries (df_columns df) (df_at df r))) (df_index df).

(** [row.get(label, default)] *)
Definition Series_get (row : Series) (label : string) (default : pyval) : pyval :=
  if existsb (String.eqb label) (s_labels row) then s_at row label else default.

(** An entry of the [info] dictionary that the service reads with a
    default: the key may be absent, or present with [None] or with a
    text. *)
Inductive info_entry : Type :=
| key_absent
| null
| text (s : string).

(** The [info] dictionary of a ticker, by the keys the service reads.
    [None] in an [option string] field is an absent key or a null (the
    service reads both as [None]); [VNone] in [marketCap] is an absent
    key or a null. *)
Record Info : Type := mkInfo {
  info_symbol : option string;
  info_longName : info_entry;
  info_shortName : info_entry;
  info_industry : option string;
  info_sector : option string;
  info_country : option string;
  info_exchange : option string;
  info_currency : option string;
  info_marketCap : pyval;
  info_website : option string
}.

(** [yf.Ticker(symbol)]: each attribute is fetched on access and may
    raise.  [ticker_info = Ok None] is a missing or empty dictionary. *)
Record Ticker : Type := mkTicker {
  ticker_info : result (option Info);
  ticker_history : result (DataFrame Timestamp string);
  ticker_financials : result (DataFrame string Timestamp);
  ticker_quarterly_financials : result (DataFrame string Timestamp)
}.

(* ================================================================== *)
(** * Schemas ([stock_schema]) and tables ([stock_model]) *)
(* ================================================================== *)

Record StockCreate : Type := mkStockCreate {
  code : string;
  name : string;
  industry : option string;
  sector : option string;
  country : option string;
  exchange : option string;
  currency : option string;
  market_cap : option Z;
  website : option string
}.

(** [stock_data_dict] of the ingestion: the keys of [StockCreate], with
    the values [info] gave; the name may be [None]. *)
Record StockData : Type := mkStockData {
  sd_code : string;
  sd_name : option string;
  sd_industry : option string;
  sd_sector : option string;
  sd_country : option string;
  sd_exchange : option string;
  sd_currency : option string;
  sd_market_cap : option Z;
  sd_website : option string
}.

(** The value of a validated [float] field: the float the schema was
    given, or [float(z)] of the [int] it was given. *)
Inductive float_field : Type :=
| given (f : float64)
| float_of_int (z : Z).

Record DailyStockPriceCreate : Type := mkDailyStockPriceCreate {
  price_date : date;
  open : option float_field;
  high : option float_field;
  low : option float_field;
  close : option float_field;
  adj_close : option float_field;
  volume : option Z;
  dividends : option float_field;
  stock_splits : option float_field
}.

Record FinancialStatementCreate : Type := mkFinancialStatementCreate {
  period_type : string;
  period_end_date : date;
  total_revenue : option Z;
  cost_of_revenue : option Z;
  gross_profit : option Z;
  operating_income : option Z;
  net_income : option Z;
  total_assets : option Z;
  total_liabilities : option Z;
  shareholder_equity : option Z;
  free_cash_flow : option Z
}.

(** A row of [stocks]: the primary key and the columns of the schema
    (the row is built from the schema's [model_dump]). *)
Record Stock : Type := mkStock {
  Stock_id : nat;
  Stock_fields : StockCreate
}.

(** A row of [daily_stock_prices]. *)
Record DailyStockPrice : Type := mkDailyStockPrice {
  Price_id : nat;
  Price_stock_id : nat;
  Price_fields : DailyStockPriceCreate
}.

(** A row of [financial_statements]. *)
Record FinancialStatement : Type := mkFinancialStatement {
  Stmt_id : nat;
  Stmt_stock_id : nat;
  Stmt_fields : FinancialStatementCreate
}.

Record database : Type := mkDatabase {
  stocks : list Stock;
  daily_stock_prices : list DailyStockPrice;
  financial_statements : list FinancialStatement
}.

Definition empty_database : database := mkDatabase [] [] [].

(** What the service prints. *)
Inductive message : Type :=
| Saved_statements (period_type : string)
| Debug_fetch_called (ticker : string)
| Could_not_fetch_info (ticker : string)
| Saved_daily_prices (n : nat)
| Debug_bulk_received (tickers : list string)
| Starting_bulk (n : nat)
| Fetching (ticker : string)
| Successfully_saved (ticker : string)
| Failed_to_fetch (ticker : string)
| Error_occurred (ticker : string) (e : exn)
| Bulk_finished
| Summary (success failure : nat).

Record world : Type := mkWorld {
  db : database;
  console : list message
}.

Definition initial_world : world := mkWorld empty_database [].

(* ================================================================== *)
(** * The effect monad: committed state, console, exceptions *)
(* ================================================================== *)

Definition M (A : Type) : Type := world -> world * result A.

Definition ret {A : Type} (a : A) : M A := fun w => (w, Ok a).

Definition raise {A : Type} (e : exn) : M A := fun w => (w, Raise e).

Definition bind {A B : Type} (m : M A) (k : A -> M B) : M B :=
  fun w =>
    match m w with
    | (w', Ok a) => k a w'
    | (w', Raise e) => (w', Raise e)
    end.

Definition lift {A : Type} (r : result A) : M A := fun w => (w, r).

Definition print (msg : message) : M unit :=
  fun w => (mkWorld (db w) (console w ++ [msg]), Ok tt).

Definition query {A : Type} (q : database -> A) : M A :=
  fun w => (w, Ok (q (db w))).

Definition commit (f : database -> database) : M unit :=
  fun w => (mkWorld (f (db w)) (console w), Ok tt).

(** [try: body  except Exception as e: handler(e)] *)
Definition try_except {A : Type} (body : M A) (handler : exn -> M A) : M A :=
  fun w =>
    match body w with
    | (w', Ok a) => (w', Ok a)
    | (w', Raise e) => handler e w'
    end.

Declare Scope monad_scope.
Delimit Scope monad_scope with monad.
Notation "x <- m ;; k" := (bind m (fun x => k))
  (at level 61, m at next level, right associativity) : monad_scope.
Notation "m ;;; k" := (bind m (fun _ => k))
  (at level 61, right associativity) : monad_scope.
Local Open Scope monad_scope.

Definition rbind {A B : Type} (r : result A) (k : A -> result B) : result B :=
  match r with
  | Ok a => k a
  | Raise e => Raise e
  end.

Notation "x <~ r ;; k" := (rbind r (fun x => k))
  (at level 61, r at next level, right associativity) : monad_scope.

(** [for x in l: body(x)] *)
Fixpoint for_each {A : Type} (l : list A) (body : A -> M unit) : M unit :=
  match l with
  | [] => ret tt
  | x :: rest => body x ;;; for_each rest body
  end.

(* ================================================================== *)
(** * Queries *)
(* ================================================================== *)

(** [ORDER BY]: a stable insertion sort; [before x y] says that [x] may
    stand before [y]. *)
Fixpoint insert_by {A : Type} (before : A -> A -> bool) (x : A) (l : list A)
  : list A :=
  match l with
  | [] => [x]
  | y :: rest => if before x y then x :: l else y :: insert_by before x rest
  end.

Fixpoint order_by {A : Type} (before : A -> A -> bool) (l : list A) : list A :=
  match l with
  | [] => []
  | x :: rest => insert_by before x (order_by before rest)
  end.

Definition asc {A : Type} (key : A -> Z) (x y : A) : bool := key x <=? key y.
Definition desc {A : Type} (key : A -> Z) (x y : A) : bool := key y <=? key x.

(** The primary key the database gives the next inserted row. *)
Definition next_id (ids : list nat) : nat := S (list_max ids).

(** Truth value of an [Optional[str]] argument. *)
Definition truthy_str (o : option string) : bool :=
  match o with
  | Some s => negb (String.eqb s "")
  | None => false
  end.

(** Truth value of an [Optional[date]] argument: a date is never falsy. *)
Definition truthy_date (o : option date) : bool :=
  match o with
  | Some _ => true
  | None => false
  end.

(** [StockService.get_stock_by_code] *)
Definition get_stock_by_code (c : string) (d : database) : option Stock :=
  find (fun s => String.eqb (code (Stock_fields s)) c) (stocks d).

Definition Price_date (p : DailyStockPrice) : date := price_date (Price_fields p).

(** [StockService.get_daily_prices] *)
Definition get_daily_prices (stock_id : nat) (start_date end_date : option date)
  (d : database) : list DailyStockPrice :=
  let q := filter (fun p => Nat.eqb (Price_stock_id p) stock_id)
                  (daily_stock_prices d) in
  let q := match start_date with
           | Some s => filter (fun p => s <=? Price_date p) q
           | None => q
           end in
  let q := match end_date with
           | Some e => filter (fun p => Price_date p <=? e) q
           | None => q
           end in
  order_by (asc Price_date) q.

(** [StockService.get_all_stocks]: [offset(skip).limit(limit)] on the
    table, for a non-negative [skip] and [limit] (what a negative one
    does depends on the database engine). *)
Definition get_all_stocks (skip limit : nat) (d : database) : list Stock :=
  firstn limit (skipn skip (stocks d)).

Definition Stmt_period_type (s : FinancialStatement) : string :=
  period_type (Stmt_fields s).
Definition Stmt_period_end_date (s : FinancialStatement) : date :=
  period_end_date (Stmt_fields s).

(** [StockService.get_financial_statements] *)
Definition get_financial_statements (stock_id : nat)
  (ptype : option string) (pend : option date) (d : database)
  : list FinancialStatement :=
  let q := filter (fun s => Nat.eqb (Stmt_stock_id s) stock_id)
                  (financial_statements d) in
  let q := if truthy_str ptype
           then filter (fun s => match ptype with
                                 | Some t => String.eqb (Stmt_period_type s) t
                                 | None => true
                                 end) q
           else q in
  let q := if truthy_date pend
           then filter (fun s => match pend with
                                 | Some e => Stmt_period_end_date s =? e
                                 | None => true
                                 end) q
           else q in
  order_by (desc Stmt_period_end_date) q.

(** The query of [fetch_and_save_yfinance_data] for the newest stored
    price of a stock: filter by [stock_id], order by date descending,
    [first()]. *)
Definition latest_price_of (stock_id : nat) (d : database)
  : option DailyStockPrice :=
  hd_error
    (order_by (desc Price_date)
       (filter (fun p => Nat.eqb (Price_stock_id p) stock_id)
               (daily_stock_prices d))).

(* ================================================================== *)
(** * Writes of [StockService] *)
(* ================================================================== *)

Definition code_taken (c : string) (d : database) : bool :=
  existsb (fun s => String.eqb (code (Stock_fields s)) c) (stocks d).

Definition insert_stock (row : Stock) (d : database) : database :=
  mkDatabase (stocks d ++ [row]) (daily_stock_prices d) (financial_statements d).

(** An [Optional[int]] that a [BigInteger] column holds: [None], or an
    integer of 64 bits. *)
Definition fits_bigint (v : option Z) : bool :=
  match v with
  | None => true
  | Some z => (- 2 ^ 63 <=? z) && (z <? 2 ^ 63)
  end.

(** [StockService.create_stock].  The [INSERT] of the commit is refused
    for a market capitalisation outside the [BigInteger] column, and
    the [unique] constraint on [code] refuses a duplicate; a refused
    commit stores nothing. *)
Definition create_stock (stock : StockCreate) : M Stock :=
  if negb (fits_bigint (market_cap stock)) then raise DataError
  else
    taken <- query (code_taken (code stock)) ;;
    if (taken : bool) then raise IntegrityError
    else
      new_id <- query (fun d => next_id (map Stock_id (stocks d))) ;;
      let db_stock := mkStock new_id stock in
      commit (insert_stock db_stock) ;;;
      ret db_stock.

(** The rows of a batch, numbered from [first_id]. *)
Definition number_prices (first_id stock_id : nat)
  (prices : list DailyStockPriceCreate) : list DailyStockPrice :=
  map (fun ip => mkDailyStockPrice (fst ip) stock_id (snd ip))
      (combine (seq first_id (List.length prices)) prices).

Definition insert_prices (stock_id : nat) (prices : list DailyStockPriceCreate)
  (d : database) : database :=
  mkDatabase (stocks d)
    (daily_stock_prices d
       ++ number_prices (next_id (map Price_id (daily_stock_prices d)))
                        stock_id prices)
    (financial_statements d).

(** [StockService.add_daily_prices].  The batch is written in one
    transaction: a volume outside the [BigInteger] column makes the
    database refuse it whole. *)
Definition add_daily_prices (stock_id : nat)
  (prices : list DailyStockPriceCreate) : M unit :=
  if forallb (fun p => fits_bigint (volume p)) prices
  then commit (insert_prices stock_id prices)
  else raise DataError.

Definition insert_statement (row : FinancialStatement) (d : database)
  : database :=
  mkDatabase (stocks d) (daily_stock_prices d) (financial_statements d ++ [row]).

(** The nine metrics of a statement, the [BigInteger] columns of its
    row. *)
Definition statement_metrics (st : FinancialStatementCreate) : list (option Z) :=
  [total_revenue st; cost_of_revenue st; gross_profit st; operating_income st;
   net_income st; total_assets st; total_liabilities st; shareholder_equity st;
   free_cash_flow st].

(** [StockService.create_financial_statement].  The [INSERT] of the
    commit is refused for a metric outside its [BigInteger] column. *)
Definition create_financial_statement (stock_id : nat)
  (statement : FinancialStatementCreate) : M FinancialStatement :=
  if forallb fits_bigint (statement_metrics statement)
  then
    new_id <- query (fun d => next_id (map Stmt_id (financial_statements d))) ;;
    let db_statement := mkFinancialStatement new_id stock_id statement in
    commit (insert_statement db_statement) ;;;
    ret db_statement
  else raise DataError.

(* ================================================================== *)
(** * Statement merge *)
(* ================================================================== *)

(** The [FinancialStatementCreate] built from one transposed row:
    provider labels mapped to columns, every value sanitized, in the
    order the keyword arguments are evaluated. *)
Definition statement_of_row (ptype : string) (period_end : Timestamp)
  (row : Series) : result FinancialStatementCreate :=
  v_total_revenue <~ _clean_financial_value (Series_get row "Total Revenue" VNone) ;;
  v_cost_of_revenue <~ _clean_financial_value (Series_get row "Cost Of Revenue" VNone) ;;
  v_gross_profit <~ _clean_financial_value (Series_get row "Gross Profit" VNone) ;;
  v_operating_income <~ _clean_financial_value (Series_get row "Operating Income" VNone) ;;
  v_net_income <~ _clean_financial_value (Series_get row "Net Income" VNone) ;;
  v_total_assets <~ _clean_financial_value (Series_get row "Total Assets" VNone) ;;
  v_total_liabilities <~ _clean_financial_value (Series_get row "Total Liabilities" VNone) ;;
  v_shareholder_equity <~ _clean_financial_value (Series_get row "Stockholders Equity" VNone) ;;
  v_free_cash_flow <~ _clean_financial_value (Series_get row "Free Cash Flow" VNone) ;;
  Ok (mkFinancialStatementCreate ptype (Timestamp_date period_end)
        v_total_revenue v_cost_of_revenue v_gross_profit v_operating_income
        v_net_income v_total_assets v_total_liabilities v_shareholder_equity
        v_free_cash_flow).

(** The body of the loop of [_save_financials_from_df]. *)
Definition save_statement_row (stock_id : nat) (ptype : string)
  (item : Timestamp * Series) : M unit :=
  let (period_end, row) := item in
  existing_statement <-
    query (get_financial_statements stock_id (Some ptype)
             (Some (Timestamp_date period_end))) ;;
  if negb (is_nil existing_statement) then ret tt
  else
    statement_data <- lift (statement_of_row ptype period_end row) ;;
    create_financial_statement stock_id statement_data ;;;
    ret tt.

(** [StockService._save_financials_from_df] *)
Definition _save_financials_from_df (stock_id : nat)
  (financials_df : DataFrame string Timestamp) (ptype : string) : M unit :=
  if df_empty financials_df then ret tt
  else
    for_each (iterrows (df_T financials_df))
             (save_statement_row stock_id ptype) ;;;
    print (Saved_statements ptype).

(* ================================================================== *)
(** * Security upsert *)
(* ================================================================== *)

(** [info.get(key, default)] *)
Definition info_get (entry : info_entry) (default : option string)
  : option string :=
  match entry with
  | key_absent => default
  | null => None
  | text s => Some s
  end.

(** [stock_data_dict] of [fetch_and_save_yfinance_data]. *)
Definition stock_data_of_info (ticker_symbol : string) (info : Info)
  : result StockData :=
  v_market_cap <~ _clean_financial_value (info_marketCap info) ;;
  Ok (mkStockData
        ticker_symbol
        (info_get (info_longName info)
                  (info_get (info_shortName info) (Some ticker_symbol)))
        (info_industry info)
        (info_sector info)
        (info_country info)
        (info_exchange info)
        (info_currency info)
        v_market_cap
        (info_website info)).

(** The [StockCreate] built from [stock_data_dict]: the schema requires
    a name. *)
Definition validate_stock (d : StockData) : result StockCreate :=
  match sd_name d with
  | Some n =>
      Ok (mkStockCreate (sd_code d) n (sd_industry d) (sd_sector d)
            (sd_country d) (sd_exchange d) (sd_currency d) (sd_market_cap d)
            (sd_website d))
  | None => Raise ValidationError
  end.

(** [setattr(stock, key, value)], one setter per key of the dictionary. *)
Definition set_code (v : string) (s : StockCreate) : StockCreate :=
  mkStockCreate v (name s) (industry s) (sector s) (country s) (exchange s)
    (currency s) (market_cap s) (website s).
Definition set_name (v : string) (s : StockCreate) : StockCreate :=
  mkStockCreate (code s) v (industry s) (sector s) (country s) (exchange s)
    (currency s) (market_cap s) (website s).
Definition set_industry (v : option string) (s : StockCreate) : StockCreate :=
  mkStockCreate (code s) (name s) v (sector s) (country s) (exchange s)
    (currency s) (market_cap s) (website s).
Definition set_sector (v : option string) (s : StockCreate) : StockCreate :=
  mkStockCreate (code s) (name s) (industry s) v (country s) (exchange s)
    (currency s) (market_cap s) (website s).
Definition set_country (v : option string) (s : StockCreate) : StockCreate :=
  mkStockCreate (code s) (name s) (industry s) (sector s) v (exchange s)
    (currency s) (market_cap s) (website s).
Definition set_exchange (v : option string) (s : StockCreate) : StockCreate :=
  mkStockCreate (code s) (name s) (industry s) (sector s) (country s) v
    (currency s) (market_cap s) (website s).
Definition set_currency (v : option string) (s : StockCreate) : StockCreate :=
  mkStockCreate (code s) (name s) (industry s) (sector s) (country s)
    (exchange s) v (market_cap s) (website s).
Definition set_market_cap (v : option Z) (s : StockCreate) : StockCreate :=
  mkStockCreate (code s) (name s) (industry s) (sector s) (country s)
    (exchange s) (currency s) v (website s).
Definition set_website (v : option string) (s : StockCreate) : StockCreate :=
  mkStockCreate (code s) (name s) (industry s) (sector s) (country s)
    (exchange s) (currency s) (market_cap s) v.

(** [for key, value in stock_data_dict.items(): setattr(stock, key, value)];
    the primary key is not among the keys. *)
Definition setattr_items (stock_data_dict : StockCreate) (stock : Stock) : Stock :=
  let f := Stock_fields stock in
  let f := set_code (code stock_data_dict) f in
  let f := set_name (name stock_data_dict) f in
  let f := set_industry (industry stock_data_dict) f in
  let f := set_sector (sector stock_data_dict) f in
  let f := set_country (country stock_data_dict) f in
  let f := set_exchange (exchange stock_data_dict) f in
  let f := set_currency (currency stock_data_dict) f in
  let f := set_market_cap (market_cap stock_data_dict) f in
  let f := set_website (website stock_data_dict) f in
  mkStock (Stock_id stock) f.

(** The [UPDATE] a commit issues for a modified [Stock] object. *)
Definition update_stock_row (row : Stock) (d : database) : database :=
  mkDatabase
    (map (fun s => if Nat.eqb (Stock_id s) (Stock_id row) then row else s)
         (stocks d))
    (daily_stock_prices d)
    (financial_statements d).

(** Lines 194-201 of [fetch_and_save_yfinance_data], for metadata the
    [stocks] table can hold: update the stock the lookup found, or
    create one. *)
Definition upsert_stock (stock : option Stock) (stock_data_dict : StockCreate)
  : M Stock :=
  match stock with
  | Some stock =>
      let stock := setattr_items stock_data_dict stock in
      commit (update_stock_row stock) ;;;
      ret stock
  | None => create_stock stock_data_dict
  end.

(** Lines 194-201 with [stock_data_dict] as [info] gave it.  For a
    stored stock the attributes are set and the commit issues the
    [UPDATE], which the database refuses for a market capitalisation
    outside the [BigInteger] column and for [None] as the name, a
    [nullable=False] column; the row is then as it was.  For a new
    stock the schema is built first, and refuses [None] as the name. *)
Definition upsert_fetched (stock : option Stock) (stock_data_dict : StockData)
  : M Stock :=
  match stock with
  | Some _ =>
      if negb (fits_bigint (sd_market_cap stock_data_dict)) then raise DataError
      else
        match validate_stock stock_data_dict with
        | Ok row => upsert_stock stock row
        | Raise _ => raise IntegrityError
        end
  | None =>
      stock_data <- lift (validate_stock stock_data_dict) ;;
      upsert_stock stock stock_data
  end.

(** The dictionary with the fields of a [StockCreate]. *)
Definition as_dict (metadata : StockCreate) : StockData :=
  mkStockData (code metadata) (Some (name metadata)) (industry metadata)
    (sector metadata) (country metadata) (exchange metadata)
    (currency metadata) (market_cap metadata) (website metadata).

(** The upsert with its lookup, as the spec's [upsert_security]: the
    lookup is by the code the metadata carries ([ticker_symbol] in both
    places of the source). *)
Definition upsert_security (metadata : StockCreate) : M Stock :=
  stock <- query (get_stock_by_code (code metadata)) ;;
  upsert_fetched stock (as_dict metadata).

(* ================================================================== *)
(** * Price merge *)
(* ================================================================== *)

(** What the schema makes of the value given for an [Optional[float]]
    field: [None] and a float are kept, an [int] becomes its float, and
    anything else is refused, as is an [int] beyond the doubles. *)
Definition validate_float (value : pyval) : result (option float_field) :=
  match value with
  | VNone => Ok None
  | VFloat f => Ok (Some (given f))
  | VInt z =>
      if int_fits_double z then Ok (Some (float_of_int z))
      else Raise ValidationError
  | VOther => Raise ValidationError
  end.

(** The [DailyStockPriceCreate] built from one row of the history: the
    arguments are evaluated, the volume sanitized among them, and the
    schema then validates its fields. *)
Definition price_of_row (index : Timestamp) (row : Series)
  : result DailyStockPriceCreate :=
  v_volume <~ _clean_financial_value (Series_get row "Volume" VNone) ;;
  v_open <~ validate_float (Series_get row "Open" VNone) ;;
  v_high <~ validate_float (Series_get row "High" VNone) ;;
  v_low <~ validate_float (Series_get row "Low" VNone) ;;
  v_close <~ validate_float (Series_get row "Close" VNone) ;;
  v_adj_close <~ validate_float (Series_get row "Adj Close" VNone) ;;
  v_dividends <~
    validate_float (Series_get row "Dividends" (VFloat float_zero)) ;;
  v_stock_splits <~
    validate_float (Series_get row "Stock Splits" (VFloat float_zero)) ;;
  Ok (mkDailyStockPriceCreate
        (Timestamp_date index) v_open v_high v_low v_close v_adj_close
        v_volume v_dividends v_stock_splits).

(** [latest_price and index.date() <= latest_price.date] *)
Definition already_stored (latest_price : option DailyStockPrice)
  (index : Timestamp) : bool :=
  match latest_price with
  | Some lp => Timestamp_date index <=? Price_date lp
  | None => false
  end.

(** The loop filling [prices_to_add]. *)
Fixpoint collect_prices (latest_price : option DailyStockPrice)
  (rows : list (Timestamp * Series)) : result (list DailyStockPriceCreate) :=
  match rows with
  | [] => Ok []
  | (index, row) :: rest =>
      if already_stored latest_price index then collect_prices latest_price rest
      else
        p <~ price_of_row index row ;;
        ps <~ collect_prices latest_price rest ;;
        Ok (p :: ps)
  end.

(** Lines 207-236 of [fetch_and_save_yfinance_data], the spec's
    [merge_prices]. *)
Definition merge_prices (stock_id : nat) (hist : DataFrame Timestamp string)
  : M unit :=
  if df_empty hist then ret tt
  else
    latest_price <- query (latest_price_of stock_id) ;;
    prices_to_add <- lift (collect_prices latest_price (iterrows hist)) ;;
    (if is_nil prices_to_add then ret tt
     else add_daily_prices stock_id prices_to_add) ;;;
    print (Saved_daily_prices (List.length prices_to_add)).

(* ================================================================== *)
(** * Ingestion *)
(* ================================================================== *)

(** [not ticker.info or "symbol" not in ticker.info] *)
Definition info_unusable (info : option Info) : bool :=
  match info with
  | None => true
  | Some i => match info_symbol i with
              | Some _ => false
              | None => true
              end
  end.

(** [StockService.fetch_and_save_yfinance_data].  The test
    [if not stock: return None] after the upsert is left out: the upsert
    returns a row object, which is never falsy. *)
Definition fetch_and_save_yfinance_data (yf_Ticker : string -> Ticker)
  (ticker_symbol : string) : M (option Stock) :=
  print (Debug_fetch_called ticker_symbol) ;;;
  let ticker := yf_Ticker ticker_symbol in
  info <- lift (ticker_info ticker) ;;
  if info_unusable info
  then print (Could_not_fetch_info ticker_symbol) ;;; ret None
  else
    match info with
    | None => print (Could_not_fetch_info ticker_symbol) ;;; ret None
    | Some info =>
        stock <- query (get_stock_by_code ticker_symbol) ;;
        stock_data_dict <- lift (stock_data_of_info ticker_symbol info) ;;
        stock <- upsert_fetched stock stock_data_dict ;;
        hist <- lift (ticker_history ticker) ;;
        merge_prices (Stock_id stock) hist ;;;
        annual <- lift (ticker_financials ticker) ;;
        _save_financials_from_df (Stock_id stock) annual "annual" ;;;
        quarterly <- lift (ticker_quarterly_financials ticker) ;;
        _save_financials_from_df (Stock_id stock) quarterly "quarterly" ;;;
        ret (Some stock)
    end.

(** Whether an exception leaves the [Session] it came through unusable:
    it came out of a flush the database refused, after which the
    session raises on every use until it is rolled back, or it is what
    such a session raises. *)
Definition breaks_session (e : exn) : bool :=
  match e with
  | DataError | IntegrityError | PendingRollbackError => true
  | _ => false
  end.

(** [StockService.fetch_and_save_yfinance_data] on a [Session] one of
    whose flushes has failed: everything before the first query runs as
    usual, and the query raises. *)
Definition fetch_and_save_on_failed_session (yf_Ticker : string -> Ticker)
  (ticker_symbol : string) : M (option Stock) :=
  print (Debug_fetch_called ticker_symbol) ;;;
  let ticker := yf_Ticker ticker_symbol in
  info <- lift (ticker_info ticker) ;;
  if info_unusable info
  then print (Could_not_fetch_info ticker_symbol) ;;; ret None
  else raise PendingRollbackError.

(** [service.fetch_and_save_yfinance_data(ticker)] in the bulk job, whose
    one [Session] serves every symbol and is never rolled back. *)
Definition job_ingestion (usable : bool) (yf_Ticker : string -> Ticker)
  (ticker : string) : M (option Stock) :=
  if usable then fetch_and_save_yfinance_data yf_Ticker ticker
  else fetch_and_save_on_failed_session yf_Ticker ticker.

(** The body of the loop of [run_bulk_fetch_job], on the two counters
    and on whether the job's [Session] is usable. *)
Definition bulk_step (yf_Ticker : string -> Ticker) (ticker : string)
  (state : nat * nat * bool) : M (nat * nat * bool) :=
  let '(success_count, failure_count, usable) := state in
  try_except
    (print (Fetching ticker) ;;;
     stock <- job_ingestion usable yf_Ticker ticker ;;
     match stock with
     | Some _ =>
         print (Successfully_saved ticker) ;;;
         ret (S success_count, failure_count, usable)
     | None =>
         print (Failed_to_fetch ticker) ;;;
         ret (success_count, S failure_count, usable)
     end)
    (fun e =>
       print (Error_occurred ticker e) ;;;
       ret (success_count, S failure_count,
            usable && negb (breaks_session e))).

Fixpoint bulk_loop (yf_Ticker : string -> Ticker) (tickers : list string)
  (state : nat * nat * bool) : M (nat * nat * bool) :=
  match tickers with
  | [] => ret state
  | ticker :: rest =>
      state' <- bulk_step yf_Ticker ticker state ;;
      bulk_loop yf_Ticker rest state'
  end.

(** [run_bulk_fetch_job].  The job opens a [Session] of its own.  The
    inner [try] catches every exception of a turn, so the loop always
    reaches the [finally] block, which prints the two counters; nothing
    is returned. *)
Definition run_bulk_fetch_job (yf_Ticker : string -> Ticker)
  (ticker_symbols : list string) : M unit :=
  print (Debug_bulk_received ticker_symbols) ;;;
  print (Starting_bulk (List.length ticker_symbols)) ;;;
  state <- bulk_loop yf_Ticker ticker_symbols (0%nat, 0%nat, true) ;;
  let '(success_count, failure_count, _) := state in
  print Bulk_finished ;;;
  print (Summary success_count failure_count).

(* ================================================================== *)
(** * The routes of [routers/stocks.py] *)
(* ================================================================== *)

Module router.

(** The 404 of the routes by code, with its detail. *)
Definition stock_not_found (c : string) : exn :=
  HTTPException 404 (String.append "Stock with code "
                       (String.append c " not found")).

(** [POST /stocks/] *)
Definition create_stock (stock : StockCreate) : M Stock :=
  existing_stock <- query (get_stock_by_code (code stock)) ;;
  match existing_stock with
  | Some _ =>
      raise (HTTPException 400
               (String.append "Stock with code "
                  (String.append (code stock) " already exists")))
  | None => create_stock stock
  end.

(** [POST /stocks/{code}/financials/] *)
Definition create_financial_statement_for_stock (c : string)
  (statement : FinancialStatementCreate) : M FinancialStatement :=
  stock <- query (get_stock_by_code c) ;;
  match stock with
  | None => raise (stock_not_found c)
  | Some s => create_financial_statement (Stock_id s) statement
  end.

(** [POST /stocks/yfinance/{ticker_symbol}] *)
Definition fetch_and_save_from_yfinance (yf_Ticker : string -> Ticker)
  (ticker_symbol : string)
  : M (Stock * list DailyStockPrice * list FinancialStatement) :=
  stock <- fetch_and_save_yfinance_data yf_Ticker ticker_symbol ;;
  match stock with
  | None =>
      raise (HTTPException 404
               (String.append "Could not fetch data for ticker " ticker_symbol))
  | Some s =>
      prices <- query (get_daily_prices (Stock_id s) None None) ;;
      statements <- query (get_financial_statements (Stock_id s) None None) ;;
      ret (s, prices, statements)
  end.

(** [GET /stocks/] *)
Definition get_all_stocks (skip limit : nat) : M (list Stock) :=
  query (get_all_stocks skip limit).

(** [GET /stocks/{code}]: the stock with its two relationships loaded,
    the rows that bear its primary key. *)
Definition get_stock (c : string)
  : M (Stock * list DailyStockPrice * list FinancialStatement) :=
  stock <- query (get_stock_by_code c) ;;
  match stock with
  | None => raise (stock_not_found c)
  | Some s =>
      daily_prices <-
        query (fun d => filter (fun p => Nat.eqb (Price_stock_id p) (Stock_id s))
                               (daily_stock_prices d)) ;;
      statements <-
        query (fun d => filter (fun f => Nat.eqb (Stmt_stock_id f) (Stock_id s))
                               (financial_statements d)) ;;
      ret (s, daily_prices, statements)
  end.

(** [GET /stocks/{code}/prices] *)
Definition get_prices_for_stock (c : string) (start_date end_date : option date)
  : M (list DailyStockPrice) :=
  stock <- query (get_stock_by_code c) ;;
  match stock with
  | None => raise (stock_not_found c)
  | Some s => query (get_daily_prices (Stock_id s) start_date end_date)
  end.

(** [GET /stocks/{code}/financials/] *)
Definition get_financial_statements_for_stock (c : string)
  (ptype : option string) (pend : option date) : M (list FinancialStatement) :=
  stock <- query (get_stock_by_code c) ;;
  match stock with
  | None => raise (stock_not_found c)
  | Some s => query (get_financial_statements (Stock_id s) ptype pend)
  end.

End router.

(* ================================================================== *)
(** * Specification vocabulary *)
(* ================================================================== *)

(** A finite number: any [int], or a float that is neither NaN nor an
    infinity. *)
Definition is_finite_number (v : pyval) : Prop :=
  match v with
  | VNone => False
  | VInt _ => True
  | VFloat f =>
      match f_val f with
      | S754_zero _ | S754_finite _ _ _ => True
      | S754_infinity _ | S754_nan => False
      end
  | VOther => False
  end.

(** Absent, NaN, or infinite. *)
Definition is_absent_or_nonfinite (v : pyval) : Prop :=
  match v with
  | VNone => True
  | VInt _ => False
  | VFloat f =>
      match f_val f with
      | S754_infinity _ | S754_nan => True
      | S754_zero _ | S754_finite _ _ _ => False
      end
  | VOther => False
  end.

(** [z] is the value of [v] with its fractional part dropped: for the
    float [(-1)^s * m * 2^e], written as the fraction [num / den], the
    integer of the same sign whose magnitude [k] has
    [k <= num / den < k + 1]. *)
Definition truncation_of (v : pyval) (z : Z) : Prop :=
  match v with
  | VNone => False
  | VInt n => z = n
  | VFloat f =>
      match f_val f with
      | S754_zero _ => z = 0
      | S754_finite s m e =>
          let num := Z.pos m * 2 ^ Z.max e 0 in
          let den := 2 ^ Z.max (- e) 0 in
          exists k : Z,
            0 <= k /\ k * den <= num < (k + 1) * den /\
            z = (if s then - k else k)
      | S754_infinity _ | S754_nan => False
      end
  | VOther => False
  end.

(** The world a computation leaves, and what it returns. *)
Definition exec {A : Type} (m : M A) (w : world) : world := fst (m w).
Definition eval {A : Type} (m : M A) (w : world) : result A := snd (m w).

Fixpoint distinct_nat (l : list nat) : bool :=
  match l with
  | [] => true
  | x :: rest => negb (existsb (Nat.eqb x) rest) && distinct_nat rest
  end.

Fixpoint distinct_string (l : list string) : bool :=
  match l with
  | [] => true
  | x :: rest => negb (existsb (String.eqb x) rest) && distinct_string rest
  end.

Definition stock_ids (d : database) : list nat := map Stock_id (stocks d).

Definition stock_codes (d : database) : list string :=
  map (fun s => code (Stock_fields s)) (stocks d).

(** Referential consistency of a database: primary keys and codes of
    [stocks] are unique, and every price and statement row points to a
    stored stock. *)
Definition consistent (d : database) : bool :=
  distinct_nat (stock_ids d)
  && distinct_string (stock_codes d)
  && forallb (fun p => existsb (Nat.eqb (Price_stock_id p)) (stock_ids d))
             (daily_stock_prices d)
  && forallb (fun s => existsb (Nat.eqb (Stmt_stock_id s)) (stock_ids d))
             (financial_statements d).

(** The price history and the statement history of a stock, in table
    order. *)
Definition prices_of (stock_id : nat) (d : database) : list DailyStockPrice :=
  filter (fun p => Nat.eqb (Price_stock_id p) stock_id) (daily_stock_prices d).

Definition statements_of (stock_id : nat) (d : database)
  : list FinancialStatement :=
  filter (fun s => Nat.eqb (Stmt_stock_id s) stock_id) (financial_statements d).

(** The latest persisted price date of a stock in the spec's words: the
    greatest date among its stored price records, or nothing when it has
    none. *)
Fixpoint max_date (l : list date) : option date :=
  match l with
  | [] => None
  | x :: rest =>
      match max_date rest with
      | None => Some x
      | Some m => Some (Z.max x m)
      end
  end.

Definition latest_persisted_date (stock_id : nat) (d : database) : option date :=
  max_date (map Price_date (prices_of stock_id d)).

(** A fetched date that extends the history: strictly after the latest
    persisted date, or any date when nothing is persisted. *)
Definition extends_history (latest : option date) (day : date) : bool :=
  match latest with
  | None => true
  | Some D => D <? day
  end.



(** The float field a price cell turns into: nothing for a missing
    cell, the float of the cell, or the float of its [int]. *)
Definition float_of_cell (v : pyval) (field : option float_field) : Prop :=
  match v with
  | VNone => field = None
  | VFloat f => field = Some (given f)
  | VInt z => field = Some (float_of_int z)
  | VOther => False
  end.

(** The price record a fetched entry turns into, field by field: the
    date of the entry, the float of each price cell, the volume
    sanitized, and a dividend and a split of 0.0 where the entry has
    none. *)
Definition built_from (item : Timestamp * Series) (p : DailyStockPriceCreate)
  : Prop :=
  price_date p = Timestamp_date (fst item) /\
  float_of_cell (Series_get (snd item) "Open" VNone) (open p) /\
  float_of_cell (Series_get (snd item) "High" VNone) (high p) /\
  float_of_cell (Series_get (snd item) "Low" VNone) (low p) /\
  float_of_cell (Series_get (snd item) "Close" VNone) (close p) /\
  float_of_cell (Series_get (snd item) "Adj Close" VNone) (adj_close p) /\
  _clean_financial_value (Series_get (snd item) "Volume" VNone)
    = Ok (volume p) /\
  float_of_cell (Series_get (snd item) "Dividends" (VFloat float_zero))
    (dividends p) /\
  float_of_cell (Series_get (snd item) "Stock Splits" (VFloat float_zero))
    (stock_splits p).


(** A cell that a [BigInteger] column takes once sanitized: the
    sanitizer returns on it, with [None] or an integer of 64 bits. *)
Definition bigint_cell (v : pyval) : bool :=
  match _clean_financial_value v with
  | Ok r => fits_bigint r
  | Raise _ => false
  end.



(** A statement is stored for the key (stock, period type, end date). *)
Definition statement_key_match (stock_id : nat) (ptype : string) (pend : date)
  (s : FinancialStatement) : bool :=
  Nat.eqb (Stmt_stock_id s) stock_id
  && String.eqb (Stmt_period_type s) ptype
  && (Stmt_period_end_date s =? pend).

Definition statement_exists (stock_id : nat) (ptype : string) (pend : date)
  (d : database) : bool :=
  existsb (statement_key_match stock_id ptype pend) (financial_statements d).

(** The nine cells of a fetched statement row that the merge reads. *)
Definition statement_cells (row : Series) : list pyval :=
  map (fun label => Series_get row label VNone)
      ["Total Revenue"; "Cost Of Revenue"; "Gross Profit"; "Operating Income";
       "Net Income"; "Total Assets"; "Total Liabilities"; "Stockholders Equity";
       "Free Cash Flow"].

(** [st] is the statement of period type [ptype] whose end date is the
    date of [period_end] and whose numeric fields are the sanitized
    cells of [row]. *)
Definition sanitized_from (ptype : string) (period_end : Timestamp)
  (row : Series) (st : FinancialStatementCreate) : Prop :=
  period_type st = ptype /\
  period_end_date st = Timestamp_date period_end /\
  _clean_financial_value (Series_get row "Total Revenue" VNone)
    = Ok (total_revenue st) /\
  _clean_financial_value (Series_get row "Cost Of Revenue" VNone)
    = Ok (cost_of_revenue st) /\
  _clean_financial_value (Series_get row "Gross Profit" VNone)
    = Ok (gross_profit st) /\
  _clean_financial_value (Series_get row "Operating Income" VNone)
    = Ok (operating_income st) /\
  _clean_financial_value (Series_get row "Net Income" VNone)
    = Ok (net_income st) /\
  _clean_financial_value (Series_get row "Total Assets" VNone)
    = Ok (total_assets st) /\
  _clean_financial_value (Series_get row "Total Liabilities" VNone)
    = Ok (total_liabilities st) /\
  _clean_financial_value (Series_get row "Stockholders Equity" VNone)
    = Ok (shareholder_equity st) /\
  _clean_financial_value (Series_get row "Free Cash Flow" VNone)
    = Ok (free_cash_flow st).

(** The fetched rows with the first of each end date kept, and among
    them those whose key (stock, period type, end date) is not stored:
    the rows a first-write-wins merge has to insert. *)
Fixpoint first_per_day (rows : list (Timestamp * Series))
  : list (Timestamp * Series) :=
  match rows with
  | [] => []
  | item :: rest =>
      item :: filter (fun other => negb (Timestamp_date (fst other)
                                         =? Timestamp_date (fst item)))
                     (first_per_day rest)
  end.

Definition new_statement_rows (stock_id : nat) (ptype : string) (d : database)
  (rows : list (Timestamp * Series)) : list (Timestamp * Series) :=
  filter (fun item => negb (statement_exists stock_id ptype
                              (Timestamp_date (fst item)) d))
         (first_per_day rows).

(** A fetched statement row the statements table can hold. *)
Definition storable_statement (item : Timestamp * Series) : bool :=
  forallb bigint_cell (statement_cells (snd item)).

(** [md] is the metadata the provider's [info] gives for a symbol:
    the symbol as the code; as the name the long name, or without one
    the short name, or without either the symbol, and never a null;
    the market capitalisation sanitized; every other field as [info]
    has it. *)
Definition metadata_of_info (ticker_symbol : string) (info : Info)
  (md : StockCreate) : Prop :=
  code md = ticker_symbol /\
  match info_longName info with
  | text n => name md = n
  | null => False
  | key_absent =>
      match info_shortName info with
      | text n => name md = n
      | null => False
      | key_absent => name md = ticker_symbol
      end
  end /\
  industry md = info_industry info /\
  sector md = info_sector info /\
  country md = info_country info /\
  exchange md = info_exchange info /\
  currency md = info_currency info /\
  _clean_financial_value (info_marketCap info) = Ok (market_cap md) /\
  website md = info_website info.

(** The world in which the bulk job starts the ingestion of a symbol,
    and the world it is in when that symbol is done. *)
Definition before_ingestion (ticker : string) (w : world) : world :=
  exec (print (Fetching ticker)) w.

Definition after_symbol (yf_Ticker : string -> Ticker) (ticker : string)
  (usable : bool) (w : world) : world :=
  exec (bulk_step yf_Ticker ticker (0%nat, 0%nat, usable)) w.

(** Whether the job's session is usable after an ingestion that ended
    with [r]. *)
Definition usable_after (usable : bool) (r : result (option Stock)) : bool :=
  match r with
  | Ok _ => usable
  | Raise e => usable && negb (breaks_session e)
  end.


(** The ingestion returned a Security. *)
Definition returned_security (r : result (option Stock)) : bool :=
  match r with
  | Ok (Some _) => true
  | Ok None | Raise _ => false
  end.

(** The symbols the console shows as taken up, in order. *)
Fixpoint fetching_log (c : list message) : list string :=
  match c with
  | [] => []
  | Fetching ticker :: rest => ticker :: fetching_log rest
  | _ :: rest => fetching_log rest
  end.

(** A computation that takes up no symbol of its own. *)
Definition quiet {A : Type} (m : M A) : Prop :=
  forall w, fetching_log (console (exec m w)) = fetching_log (console w).

(** The keys of the two histories, and their uniqueness. *)
Definition price_key (p : DailyStockPrice) : nat * date :=
  (Price_stock_id p, Price_date p).

Definition statement_key (s : FinancialStatement) : nat * string * date :=
  (Stmt_stock_id s, Stmt_period_type s, Stmt_period_end_date s).

Definition price_keys_unique (d : database) : Prop :=
  NoDup (map price_key (daily_stock_prices d)).

Definition statement_keys_unique (d : database) : Prop :=
  NoDup (map statement_key (financial_statements d)).

(** The requests that write, each with the provider as it answers at
    the time of the request, and the worlds they lead to from an empty
    database. *)
Inductive request : Type :=
| POST_stock (stock : StockCreate)
| POST_financials (c : string) (statement : FinancialStatementCreate)
| POST_yfinance (yf_Ticker : string -> Ticker) (ticker_symbol : string)
| POST_yfinance_bulk (yf_Ticker : string -> Ticker) (tickers : list string).

Definition serve (r : request) (w : world) : world :=
  match r with
  | POST_stock stock => exec (router.create_stock stock) w
  | POST_financials c statement =>
      exec (router.create_financial_statement_for_stock c statement) w
  | POST_yfinance yf_Ticker ticker_symbol =>
      exec (router.fetch_and_save_from_yfinance yf_Ticker ticker_symbol) w
  | POST_yfinance_bulk yf_Ticker tickers =>
      exec (run_bulk_fetch_job yf_Ticker tickers) w
  end.

Inductive reachable : world -> Prop :=
| reachable_initial : reachable initial_world
| reachable_serve (r : request) (w : world) :
    reachable w -> reachable (serve r w).

(** [m], started in a database with [P], ends with [Q] on its result
    and database when it returns, and with [E] on the database when it
    raises. *)
Definition triple {A : Type} (P : database -> Prop) (m : M A)
  (Q : A -> database -> Prop) (E : database -> Prop) : Prop :=
  forall w, P (db w) ->
    match m w with
    | (w', Ok a) => Q a (db w')
    | (w', Raise _) => E (db w')
    end.

(** The database is consistent and holds the stock [stock_id]. *)
Definition holds_stock (stock_id : nat) (d : database) : Prop :=
  consistent d = true /\ In stock_id (stock_ids d).

(** Both histories have unique keys. *)
Definition keys_unique (d : database) : Prop :=
  price_keys_unique d /\ statement_keys_unique d.

(** The days a history frame lists. *)
Definition fetched_days (hist : DataFrame Timestamp string) : list date :=
  map (fun item => Timestamp_date (fst item)) (iterrows hist).

(** The history the provider returns for a ticker lists each day once. *)
Definition one_entry_per_day (t : Ticker) : Prop :=
  forall hist, ticker_history t = Ok hist -> NoDup (fetched_days hist).

(** The requests that go through the merges, with a provider that lists
    each day once. *)
Definition merging_request (r : request) : Prop :=
  match r with
  | POST_stock _ => True
  | POST_financials _ _ => False
  | POST_yfinance yf_Ticker ticker_symbol =>
      one_entry_per_day (yf_Ticker ticker_symbol)
  | POST_yfinance_bulk yf_Ticker tickers =>
      forall t, In t tickers -> one_entry_per_day (yf_Ticker t)
  end.

(* ================================================================== *)
(** * Test data ([tests/test_main.py]) *)
(* ================================================================== *)

Definition float_100 : float64 :=
  mkFloat (S754_finite false 7036874417766400 (-46)) eq_refl.
Definition float_102 : float64 :=
  mkFloat (S754_finite false 7177611906121728 (-46)) eq_refl.
Definition float_99 : float64 :=
  mkFloat (S754_finite false 6966505673588736 (-46)) eq_refl.

(** Midnight of a day. *)
Definition day (d : date) : Timestamp := mkTimestamp d 0.

Definition d_2023_01_01 : date := 738521.
Definition d_2023_01_02 : date := 738522.
Definition d_2023_12_31 : date := 738885.
Definition d_2024_03_31 : date := 738976.

(** The cell under a label in a literal column; NaN where the literal
    has no entry. *)
Fixpoint cell (cells : list (string * pyval)) (label : string) : pyval :=
  match cells with
  | [] => VFloat float_nan
  | (l, v) :: rest => if String.eqb l label then v else cell rest label
  end.

Definition test_info : Info :=
  mkInfo (Some "TEST") (text "Test Inc") key_absent (Some "Technology")
         (Some "Software") (Some "USA") (Some "NASDAQ") (Some "USD")
         (VInt 1000000000) (Some "https://example.com").

Definition hist_columns : list string :=
  ["Open"; "High"; "Low"; "Close"; "Adj Close"; "Volume"; "Dividends";
   "Stock Splits"].

Definition test_hist : DataFrame Timestamp string :=
  mkDataFrame [day d_2023_01_01] hist_columns
    (fun _ => cell [("Open", VFloat float_100); ("High", VFloat float_102);
                    ("Low", VFloat float_99); ("Close", VFloat float_101);
                    ("Adj Close", VFloat float_101); ("Volume", VInt 100000);
                    ("Dividends", VFloat float_zero);
                    ("Stock Splits", VFloat float_zero)]).

Definition test_financials : DataFrame string Timestamp :=
  mkDataFrame
    ["Total Revenue"; "Net Income"; "Total Assets"; "Stockholders Equity";
     "Total Liabilities"; "Cost Of Revenue"; "Gross Profit"; "Operating Income";
     "Free Cash Flow"]
    [day d_2023_12_31]
    (fun label _ =>
       cell [("Total Revenue", VInt 10000); ("Net Income", VInt 2000);
             ("Total Assets", VInt 30000); ("Stockholders Equity", VInt 15000);
             ("Total Liabilities", VInt 15000); ("Cost Of Revenue", VInt 4000);
             ("Gross Profit", VInt 6000); ("Operating Income", VInt 3000);
             ("Free Cash Flow", VInt 1000)] label).

Definition test_quarterly_financials : DataFrame string Timestamp :=
  mkDataFrame ["Total Revenue"; "Net Income"] [day d_2024_03_31]
    (fun label _ =>
       cell [("Total Revenue", VInt 2500); ("Net Income", VInt 500)] label).

Definition test_ticker : Ticker :=
  mkTicker (Ok (Some test_info)) (Ok test_hist) (Ok test_financials)
           (Ok test_quarterly_financials).

Definition no_frame {R C : Type} : DataFrame R C :=
  mkDataFrame [] [] (fun _ _ => VNone).

(** A symbol the provider does not know. *)
Definition unknown_ticker : Ticker :=
  mkTicker (Ok None) (Ok no_frame) (Ok no_frame) (Ok no_frame).

(** A symbol on which the provider fails. *)
Definition failing_ticker : Ticker :=
  mkTicker (Raise (ProviderError "timeout")) (Ok no_frame) (Ok no_frame)
           (Ok no_frame).

(** The provider of the tests: it knows ["TEST"], fails on ["ERR"]. *)
Definition test_yf (symbol : string) : Ticker :=
  if String.eqb symbol "TEST" then test_ticker
  else if String.eqb symbol "ERR" then failing_ticker
  else unknown_ticker.

(** A symbol whose market capitalisation is 2^63, and the provider of
    the tests knowing it as ["BIG"]. *)
Definition big_info : Info :=
  mkInfo (Some "BIG") (text "Big Corp") key_absent None None None None None
         (VInt (2 ^ 63)) None.

Definition big_yf (symbol : string) : Ticker :=
  if String.eqb symbol "BIG"
  then mkTicker (Ok (Some big_info)) (Ok no_frame) (Ok no_frame) (Ok no_frame)
  else test_yf symbol.

(** The world after [POST /stocks/yfinance/TEST] on an empty database. *)
Definition world_after_test : world :=
  exec (fetch_and_save_yfinance_data test_yf "TEST") initial_world.


(** The same provider after a change of the metadata. *)
Definition renamed_metadata : StockCreate :=
  mkStockCreate "TEST" "Test Holdings" None (Some "Services") (Some "USA")
    (Some "NYSE") (Some "USD") None None.

(** Metadata of ["TEST"] with a market capitalisation of 2^63, the same
    for a code that is not stored, and a provider whose [info] for
    ["TEST"] has a null long name. *)
Definition large_cap_metadata : StockCreate :=
  mkStockCreate "TEST" "Test Holdings" None (Some "Services") (Some "USA")
    (Some "NYSE") (Some "USD") (Some (2 ^ 63)) None.

Definition large_cap_new : StockCreate :=
  mkStockCreate "BIG" "Big Corp" None None None None None (Some (2 ^ 63)) None.

Definition nameless_info : Info :=
  mkInfo (Some "TEST") null (text "Test") (Some "Technology")
         (Some "Software") (Some "USA") (Some "NASDAQ") (Some "USD")
         (VInt 2000000000) (Some "https://example.com").

Definition nameless_yf (symbol : string) : Ticker :=
  mkTicker (Ok (Some nameless_info)) (Ok test_hist) (Ok test_financials)
           (Ok test_quarterly_financials).

(** The [info] of ["TEST"] after a change of the metadata. *)
Definition renamed_info : Info :=
  mkInfo (Some "TEST") key_absent (text "Test Holdings") None
         (Some "Services") (Some "USA") (Some "NYSE") (Some "USD")
         VNone None.

Definition renamed_yf (symbol : string) : Ticker :=
  mkTicker (Ok (Some renamed_info)) (Ok test_hist) (Ok test_financials)
           (Ok test_quarterly_financials).

(** The payload of [test_create_and_get_financial_statement]. *)
Definition fin_stock : StockCreate :=
  mkStockCreate "FIN" "Financial Corp" None None None None None None None.

Definition fs_payload : FinancialStatementCreate :=
  mkFinancialStatementCreate "annual" d_2023_12_31 (Some 500) None None None
    (Some 50) None None None None.




(** Annual statements of one new period whose revenue is 2^63, and a
    frame with a period but no metric rows. *)
Definition large_revenue_financials : DataFrame string Timestamp :=
  mkDataFrame ["Total Revenue"; "Net Income"] [day d_2024_03_31]
    (fun label _ =>
       cell [("Total Revenue", VInt (2 ^ 63)); ("Net Income", VInt 500)] label).

Definition bare_financials : DataFrame string Timestamp :=
  mkDataFrame [] [day d_2024_03_31] (fun _ _ => VNone).

(** A history that lists one day twice, at midnight and at 16:00. *)
Definition doubled_hist : DataFrame Timestamp string :=
  mkDataFrame [mkTimestamp d_2023_01_02 0;
               mkTimestamp d_2023_01_02 57600000000000]
    hist_columns
    (fun _ => cell [("Close", VFloat float_100); ("Volume", VInt 1)]).

(* ================================================================== *)
(** * Vocabulary of the properties of queries, routes and repeated runs *)
(* ================================================================== *)

(** A date lies in the range a query was given: at or after the start
    when there is one, at or before the end when there is one. *)
Definition date_in_range (start_date end_date : option date) (d : date) : bool :=
  match start_date with
  | Some s => s <=? d
  | None => true
  end
  && match end_date with
     | Some e => d <=? e
     | None => true
     end.

(** A statement answers the filters of a query: the period type when a
    non-empty one is given, the end date when one is given. *)
Definition statement_matches (ptype : option string) (pend : option date)
  (s : FinancialStatement) : bool :=
  match ptype with
  | Some t => String.eqb t "" || String.eqb (Stmt_period_type s) t
  | None => true
  end
  && match pend with
     | Some e => Stmt_period_end_date s =? e
     | None => true
     end.

(** [m] keeps [P]: started in a database with [P] it leaves one with
    [P], whether it returns or raises. *)
Definition keeps {A : Type} (P : database -> Prop) (m : M A) : Prop :=
  triple P m (fun _ => P) P.

(** [d] has grown from [d0]: the primary keys of the stocks, the price
    rows and the statement rows of [d0] are still there, in place and as
    they were, and what is new comes after them. *)
Definition grown_from (d0 d : database) : Prop :=
  (exists ids, stock_ids d = (stock_ids d0 ++ ids)%list) /\
  (exists ps, daily_stock_prices d = (daily_stock_prices d0 ++ ps)%list) /\
  (exists ss, financial_statements d = (financial_statements d0 ++ ss)%list).

(** What [m] does to the database and what it returns depend on the
    database alone, not on the console. *)
Definition console_blind {A : Type} (m : M A) : Prop :=
  forall w w', db w = db w' ->
    db (exec m w) = db (exec m w') /\ eval m w = eval m w'.

(** The symbols of a list ingested one after the other on one session,
    which stays unusable once an ingestion has broken it. *)
Fixpoint ingest_in_turn (yf_Ticker : string -> Ticker) (tickers : list string)
  (usable : bool) (w : world) : world :=
  match tickers with
  | [] => w
  | ticker :: rest =>
      ingest_in_turn yf_Ticker rest
        (usable_after usable (eval (job_ingestion usable yf_Ticker ticker) w))
        (exec (job_ingestion usable yf_Ticker ticker) w)
  end.

(** Whether the session is still usable after the symbols of a list
    have been ingested on it one after the other. *)
Fixpoint session_in_turn (yf_Ticker : string -> Ticker) (tickers : list string)
  (usable : bool) (w : world) : bool :=
  match tickers with
  | [] => usable
  | ticker :: rest =>
      session_in_turn yf_Ticker rest
        (usable_after usable (eval (job_ingestion usable yf_Ticker ticker) w))
        (exec (job_ingestion usable yf_Ticker ticker) w)
  end.

(** A provider that knows ["TEST"] but fails when asked for its price
    history. *)
Definition history_failing_yf (symbol : string) : Ticker :=
  mkTicker (Ok (Some test_info)) (Raise (ProviderError "timeout"))
           (Ok test_financials) (Ok test_quarterly_financials).

(** Lines 206-243 of [fetch_and_save_yfinance_data]: what the ingestion
    does once the stock is stored. *)
Definition ingest_stored (ticker : Ticker) (stock : Stock) : M (option Stock) :=
  hist <- lift (ticker_history ticker) ;;
  merge_prices (Stock_id stock) hist ;;;
  annual <- lift (ticker_financials ticker) ;;
  _save_financials_from_df (Stock_id stock) annual "annual" ;;;
  quarterly <- lift (ticker_quarterly_financials ticker) ;;
  _save_financials_from_df (Stock_id stock) quarterly "quarterly" ;;;
  ret (Some stock).

(** [d'] shows of the code [c] what [d] shows: the same stock under the
    code, and for that stock the same price history and the same
    statement history. *)
Definition same_view (c : string) (d d' : database) : Prop :=
  get_stock_by_code c d' = get_stock_by_code c d /\
  forall s, get_stock_by_code c d = Some s ->
    prices_of (Stock_id s) d' = prices_of (Stock_id s) d /\
    statements_of (Stock_id s) d' = statements_of (Stock_id s) d.

(* ================================================================== *)
(** * The sanitizer *)
(* ================================================================== *)

Example clean_101 : _clean_financial_value (VFloat float_101) = Ok (Some 101).
Proof. reflexivity. Qed.
Example clean_m2_5 : _clean_financial_value (VFloat float_m2_5) = Ok (Some (-2)).
Proof. reflexivity. Qed.
Example clean_nan : _clean_financial_value (VFloat float_nan) = Ok None.
Proof. reflexivity. Qed.
Example clean_inf : _clean_financial_value (VFloat (float_inf true)) = Ok None.
Proof. reflexivity. Qed.
Example clean_int : _clean_financial_value (VInt 1000000000) = Ok (Some 1000000000).
Proof. reflexivity. Qed.
Example clean_huge_int :
  _clean_financial_value (VInt (2 ^ 1024)) = Raise OverflowError.
Proof. reflexivity. Qed.

(** The bound agrees with rounding to nearest-even in binary64. *)
Example bound_rounds_to_infinity :
  binary_normalize prec emax float_overflow_bound 0 false = S754_infinity false.
Proof. vm_compute. reflexivity. Qed.
Example below_bound_rounds_to_max :
  binary_normalize prec emax (float_overflow_bound - 1) 0 false = f_val float_max.
Proof. vm_compute. reflexivity. Qed.

Lemma digits2_pos_bound (m : positive) :
  Z.pos m < 2 ^ Z.pos (digits2_pos m).
Proof.
  induction m as [p IH | p IH | ]; cbn [digits2_pos].
  - rewrite Pos2Z.inj_succ, Z.pow_succ_r by lia. lia.
  - rewrite Pos2Z.inj_succ, Z.pow_succ_r by lia. lia.
  - reflexivity.
Qed.

Lemma bounded_mantissa (m : positive) (e : Z) :
  bounded prec emax m e = true -> Z.pos m < 2 ^ 53 /\ e <= 971.
Proof.
  unfold bounded, canonical_mantissa, fexp, emin, prec, emax.
  intros H. apply andb_true_iff in H as [Hc He].
  apply Z.eqb_eq in Hc. apply Z.leb_le in He.
  split; [| lia].
  pose proof (digits2_pos_bound m) as Hd.
  assert (Hle : Z.pos (digits2_pos m) <= 53) by lia.
  eapply Z.lt_le_trans; [exact Hd |].
  apply Z.pow_le_mono_r; lia.
Qed.

Lemma pow2_1024_split : 2 ^ 1024 = 2 ^ 53 * (2 * 2 ^ 970).
Proof. reflexivity. Qed.

(** The integer part of a double is an [int] that converts back to a
    double. *)
Lemma trunc_mag_fits (m : positive) (e : Z) :
  bounded prec emax m e = true ->
  0 <= trunc_mag m e < float_overflow_bound.
Proof.
  intros Hb. apply bounded_mantissa in Hb as [Hm He].
  unfold trunc_mag, float_overflow_bound.
  rewrite pow2_1024_split.
  assert (HA : 0 < 2 ^ 970) by (apply Z.pow_pos_nonneg; lia).
  destruct (0 <=? e) eqn:E.
  - apply Z.leb_le in E.
    assert (Hp : 0 < 2 ^ e) by (apply Z.pow_pos_nonneg; lia).
    assert (Hq : 2 ^ e <= 2 ^ 971) by (apply Z.pow_le_mono_r; lia).
    replace (2 ^ 971) with (2 * 2 ^ 970) in Hq by reflexivity.
    remember (2 ^ 970) as A. remember (2 ^ e) as P.
    assert (HM : Z.pos m <= 2 ^ 53 - 1) by lia.
    remember (2 ^ 53) as K.
    split; [nia |].
    assert (Z.pos m * P <= (K - 1) * (2 * A)) by nia.
    nia.
  - apply Z.leb_gt in E.
    assert (Hp : 0 < 2 ^ (- e)) by (apply Z.pow_pos_nonneg; lia).
    split; [apply Z.div_pos; lia |].
    assert (Hd : Z.pos m / 2 ^ (- e) <= Z.pos m)
      by (apply Z.div_le_upper_bound; nia).
    remember (2 ^ 970) as A. remember (2 ^ 53) as K.
    assert (1 <= K) by (subst K; apply (Z.pow_le_mono_r 2 0 53); lia).
    nia.
Qed.

Lemma clean_float (f : float64) :
  _clean_financial_value (VFloat f) =
  match f_val f with
  | S754_zero _ => Ok (Some 0)
  | S754_finite s m e => Ok (Some (if s then - trunc_mag m e else trunc_mag m e))
  | S754_infinity _ | S754_nan => Ok None
  end.
Proof.
  unfold _clean_financial_value, math_isfinite, float_is_finite, py_int.
  destruct (f_val f); reflexivity.
Qed.

Lemma clean_int_in_range (z : Z) :
  Z.abs z < float_overflow_bound ->
  _clean_financial_value (VInt z) = Ok (Some z).
Proof.
  intros H. unfold _clean_financial_value, math_isfinite, int_fits_double.
  apply Z.ltb_lt in H. rewrite H. reflexivity.
Qed.

Lemma clean_int_out_of_range (z : Z) :
  float_overflow_bound <= Z.abs z ->
  _clean_financial_value (VInt z) = Raise OverflowError.
Proof.
  intros H. unfold _clean_financial_value, math_isfinite, int_fits_double.
  apply Z.ltb_ge in H. rewrite H. reflexivity.
Qed.

(** A sanitized value is in the sanitizer's domain. *)
Lemma clean_result_in_domain (v : pyval) (r : option Z) :
  _clean_financial_value v = Ok r -> in_sanitizer_domain (of_clean r).
Proof.
  destruct v as [| z | f |].
  - intros H. inversion H. exact I.
  - intros H. destruct (Z_lt_le_dec (Z.abs z) float_overflow_bound) as [L | L].
    + rewrite (clean_int_in_range z L) in H. inversion H. exact L.
    + rewrite (clean_int_out_of_range z L) in H. discriminate.
  - rewrite clean_float. destruct f as [fv Hv]; cbn [f_val].
    destruct fv as [s | s | | s m e]; intros H; inversion H;
      cbn [of_clean in_sanitizer_domain].
    + reflexivity.
    + exact I.
    + exact I.
    + cbn [valid_binary] in Hv. pose proof (trunc_mag_fits m e Hv).
      destruct s; lia.
  - discriminate.
Qed.

Lemma in_domain_clean_ok (v : pyval) :
  in_sanitizer_domain v -> exists r, _clean_financial_value v = Ok r.
Proof.
  destruct v as [| z | f |]; intros H.
  - now exists None.
  - exists (Some z). now apply clean_int_in_range.
  - rewrite clean_float. destruct (f_val f); eauto.
  - destruct H.
Qed.

(** C7.  On every input of the sanitizer's domain (absent, an [int] that
    [math.isfinite] accepts, or a float): a finite number is returned
    truncated to an integer, and an absent, NaN or infinite value is
    returned as the absent marker [None]. *)
Theorem clean_financial_value_spec (v : pyval) :
  in_sanitizer_domain v ->
  (is_finite_number v ->
     exists z, _clean_financial_value v = Ok (Some z) /\ truncation_of v z) /\
  (is_absent_or_nonfinite v -> _clean_financial_value v = Ok None).
Proof.
  intros Hdom. destruct v as [| z | f |]; [| | | destruct Hdom].
  - split; [intros [] | reflexivity].
  - split; [intros _ | intros []].
    exists z. split; [now apply clean_int_in_range | reflexivity].
  - rewrite clean_float. cbn [is_finite_number is_absent_or_nonfinite truncation_of].
    destruct (f_val f) as [s | s | | s m e].
    + split; [intros _ | intros []]. now exists 0.
    + split; [intros [] | reflexivity].
    + split; [intros [] | reflexivity].
    + split; [intros _ | intros []].
      eexists. split; [reflexivity |].
      exists (trunc_mag m e). unfold trunc_mag.
      destruct (0 <=? e) eqn:E.
      * apply Z.leb_le in E.
        rewrite (Z.max_l e 0), (Z.max_r (- e) 0) by lia.
        assert (0 < 2 ^ e) by (apply Z.pow_pos_nonneg; lia).
        change (2 ^ 0) with 1. repeat split; try lia.
      * apply Z.leb_gt in E.
        rewrite (Z.max_r e 0), (Z.max_l (- e) 0) by lia.
        assert (Hp : 0 < 2 ^ (- e)) by (apply Z.pow_pos_nonneg; lia).
        change (2 ^ 0) with 1. rewrite Z.mul_1_r.
        pose proof (Z.mul_div_le (Z.pos m) _ Hp).
        pose proof (Z.mul_succ_div_gt (Z.pos m) _ Hp).
        repeat split; try lia.
        apply Z.div_pos; lia.
Qed.

Lemma clean_financial_value_spec_witness :
  in_sanitizer_domain (VInt 1000000000) /\
  ((is_finite_number (VInt 1000000000) ->
      exists z, _clean_financial_value (VInt 1000000000) = Ok (Some z) /\
                truncation_of (VInt 1000000000) z) /\
   (is_absent_or_nonfinite (VInt 1000000000) ->
      _clean_financial_value (VInt 1000000000) = Ok None)).
Proof.
  split; [reflexivity |].
  apply (clean_financial_value_spec (VInt 1000000000)); reflexivity.
Defined.

(** The claim C7 fails for an [int] beyond the doubles: [2^1024] is a
    finite number, and the sanitizer raises on it, out of
    [math.isfinite], instead of returning its integral value. *)
Lemma clean_financial_value_overflows :
  is_finite_number (VInt (2 ^ 1024)) /\
  _clean_financial_value (VInt (2 ^ 1024)) = Raise OverflowError /\
  ~ (exists z, _clean_financial_value (VInt (2 ^ 1024)) = Ok (Some z) /\
               truncation_of (VInt (2 ^ 1024)) z).
Proof.
  split; [exact I |]. split; [reflexivity |].
  intros [z [H _]]. discriminate H.
Qed.

(** C9.  Sanitizing a sanitized value changes nothing:
    [sanitize(sanitize(x)) == sanitize(x)], an exception of the inner
    call being the outcome of both sides. *)
Theorem clean_financial_value_idempotent (v : pyval) :
  (r <~ _clean_financial_value v ;; _clean_financial_value (of_clean r))
  = _clean_financial_value v.
Proof.
  destruct (_clean_financial_value v) as [r | e] eqn:E; cbn [rbind]; [| reflexivity].
  pose proof (clean_result_in_domain v r E) as Hd.
  destruct r as [z |]; cbn in *; [| reflexivity].
  now apply clean_int_in_range.
Qed.

(* ================================================================== *)
(** * Running the monad *)
(* ================================================================== *)

Lemma bind_run {A B : Type} (m : M A) (k : A -> M B) (w w' : world) (a : A) :
  m w = (w', Ok a) -> bind m k w = k a w'.
Proof. intros H. unfold bind. now rewrite H. Qed.

Ltac run_monad :=
  cbv beta iota delta [bind ret raise lift print query commit exec eval fst snd].

(* ================================================================== *)
(** * Lists *)
(* ================================================================== *)

Lemma filter_none {A : Type} (f : A -> bool) (l : list A) :
  (forall x, In x l -> f x = false) -> filter f l = [].
Proof.
  induction l as [| x l IH]; cbn; intros H; [reflexivity |].
  rewrite (H x) by now left. apply IH. intros y Hy. apply H. now right.
Qed.

Lemma Forall2_In_l {A B : Type} (R : A -> B -> Prop) (l : list A) (l' : list B)
  (x : A) :
  Forall2 R l l' -> In x l -> exists y, In y l' /\ R x y.
Proof.
  induction 1 as [| a b l l' Hab _ IH]; cbn; [intros [] |].
  intros [<- | Hx]; [exists b; auto |].
  destruct (IH Hx) as [y [Hy Hr]]. exists y; auto.
Qed.


Lemma filter_all {A : Type} (f : A -> bool) (l : list A) :
  (forall x, In x l -> f x = true) -> filter f l = l.
Proof.
  induction l as [| x l IH]; cbn; intros H; [reflexivity |].
  rewrite (H x) by now left. f_equal. apply IH. intros y Hy. apply H. now right.
Qed.

Lemma is_nil_spec {A : Type} (l : list A) : is_nil l = true <-> l = [].
Proof. destruct l; cbn; split; congruence. Qed.

(* ================================================================== *)
(** * Security upsert *)
(* ================================================================== *)

Lemma setattr_items_all (d : StockCreate) (s : Stock) :
  setattr_items d s = mkStock (Stock_id s) d.
Proof. destruct d, s. reflexivity. Qed.

Lemma code_taken_find (c : string) (d : database) :
  code_taken c d = true <-> get_stock_by_code c d <> None.
Proof.
  unfold code_taken, get_stock_by_code.
  induction (stocks d) as [| x l IH]; cbn.
  - split; [discriminate | congruence].
  - destruct (String.eqb (code (Stock_fields x)) c); cbn.
    + split; [discriminate | reflexivity].
    + exact IH.
Qed.

Lemma code_taken_none (c : string) (d : database) :
  get_stock_by_code c d = None -> code_taken c d = false.
Proof.
  intros H. destruct (code_taken c d) eqn:E; [| reflexivity].
  apply code_taken_find in E. contradiction.
Qed.

(** The lookup after an [UPDATE] of the row it had found. *)
Lemma find_code_after_update (c : string) (l : list Stock) (s s' : Stock) :
  find (fun x => String.eqb (code (Stock_fields x)) c) l = Some s ->
  code (Stock_fields s') = c ->
  find (fun x => String.eqb (code (Stock_fields x)) c)
       (map (fun x => if Nat.eqb (Stock_id x) (Stock_id s) then s' else x) l)
  = Some s'.
Proof.
  intros Hf Hc.
  induction l as [| x l IH]; cbn in *; [discriminate |].
  destruct (String.eqb (code (Stock_fields x)) c) eqn:Ex.
  - inversion Hf; subst x. rewrite Nat.eqb_refl. cbn.
    now rewrite Hc, String.eqb_refl.
  - destruct (Nat.eqb (Stock_id x) (Stock_id s)); cbn.
    + now rewrite Hc, String.eqb_refl.
    + rewrite Ex. now apply IH.
Qed.

Lemma find_code_after_insert (c : string) (l : list Stock) (s' : Stock) :
  find (fun x => String.eqb (code (Stock_fields x)) c) l = None ->
  code (Stock_fields s') = c ->
  find (fun x => String.eqb (code (Stock_fields x)) c) (l ++ [s']) = Some s'.
Proof.
  intros Hf Hc. induction l as [| x l IH]; cbn in *.
  - now rewrite Hc, String.eqb_refl.
  - destruct (String.eqb (code (Stock_fields x)) c); [discriminate | now apply IH].
Qed.

Lemma in_update_rows (l : list Stock) (s s' x : Stock) :
  In s l ->
  In x (map (fun y => if Nat.eqb (Stock_id y) (Stock_id s) then s' else y) l)
  <-> x = s' \/ (In x l /\ Stock_id x <> Stock_id s).
Proof.
  intros Hin. rewrite in_map_iff. split.
  - intros [y [Hy Hl]]. destruct (Nat.eqb (Stock_id y) (Stock_id s)) eqn:E.
    + left. now symmetry.
    + right. subst y. split; [assumption | now apply Nat.eqb_neq].
  - intros [-> | [Hl Hne]].
    + exists s. now rewrite Nat.eqb_refl.
    + exists x. apply Nat.eqb_neq in Hne. now rewrite Hne.
Qed.

Lemma next_id_fresh (ids : list nat) : ~ In (next_id ids) ids.
Proof.
  intros H. unfold next_id in H.
  assert (Hall : Forall (fun k => (k <= list_max ids)%nat) ids)
    by (apply list_max_le; lia).
  rewrite Forall_forall in Hall. apply Hall in H. lia.
Qed.

Lemma existsb_eqb_In (n : nat) (l : list nat) :
  existsb (Nat.eqb n) l = true <-> In n l.
Proof.
  rewrite existsb_exists. split.
  - intros [x [Hx E]]. apply Nat.eqb_eq in E. now subst.
  - intros H. exists n. split; [assumption | apply Nat.eqb_refl].
Qed.

(** A stock whose primary key is not in [stocks] owns no row of a
    consistent database. *)
Lemma no_history_of_unknown_id (d : database) (i : nat) :
  consistent d = true -> ~ In i (stock_ids d) ->
  prices_of i d = [] /\ statements_of i d = [].
Proof.
  unfold consistent. intros H Hn.
  repeat (apply andb_true_iff in H as [H ?]).
  rename H0 into Hs, H1 into Hp.
  rewrite forallb_forall in Hs, Hp.
  unfold prices_of, statements_of. split.
  - apply filter_none. intros p Hin. apply Nat.eqb_neq. intros E.
    apply Hn. rewrite <- E. apply existsb_eqb_In. now apply Hp.
  - apply filter_none. intros p Hin. apply Nat.eqb_neq. intros E.
    apply Hn. rewrite <- E. apply existsb_eqb_In. now apply Hs.
Qed.

Lemma validate_as_dict (md : StockCreate) : validate_stock (as_dict md) = Ok md.
Proof. now destruct md. Qed.

Lemma validate_stock_dict (d : StockData) (md : StockCreate) :
  validate_stock d = Ok md -> d = as_dict md.
Proof.
  unfold validate_stock. destruct d as [c [n |] i s co ex cu mc ws]; cbn.
  - now intros [= <-].
  - discriminate.
Qed.

(** The upsert of metadata that carries a name. *)
Lemma upsert_fetched_named (stock : option Stock) (md : StockCreate) :
  upsert_fetched stock (as_dict md) =
  if fits_bigint (market_cap md) then upsert_stock stock md
  else raise DataError.
Proof.
  unfold upsert_fetched. rewrite validate_as_dict. cbn [as_dict sd_market_cap].
  destruct stock as [s |].
  - now destruct (fits_bigint (market_cap md)).
  - unfold bind, lift, upsert_stock.
    destruct (fits_bigint (market_cap md)) eqn:Hfits; [reflexivity |].
    unfold create_stock. now rewrite Hfits.
Qed.

(** The upsert of metadata without a name is refused. *)
Lemma upsert_fetched_nameless (stock : option Stock) (d : StockData) :
  sd_name d = None ->
  exists e, forall w, upsert_fetched stock d w = (w, Raise e).
Proof.
  intros Hn. unfold upsert_fetched, validate_stock. rewrite Hn.
  destruct stock as [s |].
  - destruct (fits_bigint (sd_market_cap d)); eexists; intros w; reflexivity.
  - eexists. intros w. reflexivity.
Qed.

Lemma stock_data_cases (d : StockData) :
  (exists md, d = as_dict md) \/ sd_name d = None.
Proof.
  destruct d as [c [n |] i s co ex cu mc ws]; [left | now right].
  now exists (mkStockCreate c n i s co ex cu mc ws).
Qed.

Lemma upsert_security_existing (w : world) (md : StockCreate) (s : Stock) :
  fits_bigint (market_cap md) = true ->
  get_stock_by_code (code md) (db w) = Some s ->
  upsert_security md w =
  (mkWorld (update_stock_row (mkStock (Stock_id s) md) (db w)) (console w),
   Ok (mkStock (Stock_id s) md)).
Proof.
  intros Hfits H. unfold upsert_security, bind, query.
  rewrite H, upsert_fetched_named, Hfits. unfold upsert_stock. run_monad.
  now rewrite setattr_items_all.
Qed.

(** [create_stock], run. *)
Lemma create_stock_run (md : StockCreate) (w : world) :
  create_stock md w =
  if fits_bigint (market_cap md)
  then
    if code_taken (code md) (db w) then (w, Raise IntegrityError)
    else
      (mkWorld (insert_stock (mkStock (next_id (stock_ids (db w))) md) (db w))
               (console w),
       Ok (mkStock (next_id (stock_ids (db w))) md))
  else (w, Raise DataError).
Proof.
  unfold create_stock. destruct (fits_bigint (market_cap md)); [| reflexivity].
  cbn [negb]. run_monad. destruct (code_taken (code md) (db w)); reflexivity.
Qed.

Lemma upsert_security_new (w : world) (md : StockCreate) :
  fits_bigint (market_cap md) = true ->
  get_stock_by_code (code md) (db w) = None ->
  upsert_security md w =
  (mkWorld (insert_stock (mkStock (next_id (stock_ids (db w))) md) (db w))
           (console w),
   Ok (mkStock (next_id (stock_ids (db w))) md)).
Proof.
  intros Hfits H. unfold upsert_security, bind, query.
  rewrite H, upsert_fetched_named, Hfits. unfold upsert_stock.
  rewrite create_stock_run. cbn [db]. now rewrite Hfits, (code_taken_none _ _ H).
Qed.

(** A market capitalisation outside the column: nothing is stored. *)
Lemma upsert_security_refused (w : world) (md : StockCreate) :
  fits_bigint (market_cap md) = false ->
  upsert_security md w = (w, Raise DataError).
Proof.
  intros Hfits. unfold upsert_security, bind, query.
  now rewrite upsert_fetched_named, Hfits.
Qed.

(** The security upsert returns the stored record, which carries the
    supplied metadata; an existing security keeps its primary key. *)
Lemma upsert_security_stored (w : world) (md : StockCreate) :
  fits_bigint (market_cap md) = true ->
  exists s',
    eval (upsert_security md) w = Ok s' /\
    Stock_fields s' = md /\
    get_stock_by_code (code md) (db (exec (upsert_security md) w)) = Some s' /\
    (forall s, get_stock_by_code (code md) (db w) = Some s ->
               Stock_id s' = Stock_id s).
Proof.
  intros Hfits. unfold exec, eval.
  destruct (get_stock_by_code (code md) (db w)) as [s |] eqn:E.
  - rewrite (upsert_security_existing w md s Hfits E). cbn.
    eexists. repeat split.
    + unfold get_stock_by_code in *. cbn.
      now apply (find_code_after_update (code md) _ s).
    + intros s0 H0. now inversion H0.
  - rewrite (upsert_security_new w md Hfits E). cbn.
    eexists. repeat split.
    + unfold get_stock_by_code in *. cbn.
      now apply find_code_after_insert.
    + discriminate.
Qed.

Lemma no_rows_no_history (i : nat) (d : database) :
  prices_of i d = [] -> statements_of i d = [] ->
  get_daily_prices i None None d = [] /\
  get_financial_statements i None None d = [].
Proof.
  unfold prices_of, statements_of, get_daily_prices, get_financial_statements.
  cbn. intros -> ->. split; reflexivity.
Qed.


(* ================================================================== *)
(** * Ordering and the latest price *)
(* ================================================================== *)

Lemma hd_insert_by {A : Type} (before : A -> A -> bool) (x : A) (l : list A) :
  hd_error (insert_by before x l) =
  Some match l with
       | [] => x
       | y :: _ => if before x y then x else y
       end.
Proof. destruct l as [| y l]; cbn; [| destruct (before x y)]; reflexivity. Qed.

Lemma order_by_nil {A : Type} (before : A -> A -> bool) (l : list A) :
  order_by before l = [] <-> l = [].
Proof.
  destruct l as [| x l]; cbn; [tauto |].
  split; [| discriminate].
  intros H. apply (f_equal (@hd_error A)) in H. rewrite hd_insert_by in H.
  discriminate.
Qed.

Lemma in_insert_by {A : Type} (before : A -> A -> bool) (x y : A) (l : list A) :
  In y (insert_by before x l) <-> y = x \/ In y l.
Proof.
  induction l as [| z l IH]; cbn.
  - intuition congruence.
  - destruct (before x z); cbn; rewrite ?IH; intuition congruence.
Qed.

Lemma in_order_by {A : Type} (before : A -> A -> bool) (y : A) (l : list A) :
  In y (order_by before l) <-> In y l.
Proof.
  induction l as [| x l IH]; cbn; [tauto |].
  rewrite in_insert_by, IH. intuition congruence.
Qed.

Section Descending.
Context {A : Type}.
Variable key : A -> Z.

(** The first row of a descending order has the greatest key. *)
Lemma hd_order_by_desc (l : list A) (x : A) :
  hd_error (order_by (desc key) l) = Some x ->
  In x l /\ forall y, In y l -> key y <= key x.
Proof.
  revert x. induction l as [| a l IH]; cbn; intros x H; [discriminate |].
  rewrite hd_insert_by in H. inversion H as [Hx]; clear H.
  destruct (order_by (desc key) l) as [| y rest] eqn:E.
  - apply order_by_nil in E. subst l. split; [now left |].
    intros y [-> | []]. lia.
  - destruct (IH y eq_refl) as [Hin Hmax].
    unfold desc. destruct (key y <=? key a) eqn:C.
    + apply Z.leb_le in C. split; [now left |].
      intros z [-> | Hz]; [lia |]. specialize (Hmax z Hz). lia.
    + apply Z.leb_gt in C. split; [now right |].
      intros z [-> | Hz]; [lia |]. now apply Hmax.
Qed.

(** It bears the greatest key of the list. *)
Lemma hd_order_by_max (l : list A) :
  option_map key (hd_error (order_by (desc key) l)) = max_date (map key l).
Proof.
  induction l as [| a l IH]; cbn; [reflexivity |].
  rewrite hd_insert_by. rewrite <- IH.
  destruct (order_by (desc key) l) as [| y rest]; cbn; [reflexivity |].
  unfold desc. destruct (key y <=? key a) eqn:C; f_equal.
  - apply Z.leb_le in C. lia.
  - apply Z.leb_gt in C. lia.
Qed.
End Descending.

(** The code's latest price (order by date descending, first row) bears
    the latest persisted date. *)
Lemma latest_price_date (stock_id : nat) (d : database) :
  option_map Price_date (latest_price_of stock_id d)
  = latest_persisted_date stock_id d.
Proof. unfold latest_price_of, latest_persisted_date. apply hd_order_by_max. Qed.

Lemma latest_price_is_max (stock_id : nat) (d : database) (lp : DailyStockPrice) :
  latest_price_of stock_id d = Some lp ->
  In lp (prices_of stock_id d) /\
  forall p, In p (prices_of stock_id d) -> Price_date p <= Price_date lp.
Proof. unfold latest_price_of. apply hd_order_by_desc. Qed.

Lemma latest_price_none (stock_id : nat) (d : database) :
  latest_price_of stock_id d = None <-> prices_of stock_id d = [].
Proof.
  unfold latest_price_of, prices_of. split; intros H.
  - destruct (order_by _ _) eqn:E; [| discriminate].
    now apply order_by_nil in E.
  - now rewrite H.
Qed.

(** The loop's test is the negation of "extends the history". *)
Lemma already_stored_extends (stock_id : nat) (d : database) (index : Timestamp) :
  already_stored (latest_price_of stock_id d) index
  = negb (extends_history (latest_persisted_date stock_id d)
                          (Timestamp_date index)).
Proof.
  rewrite <- latest_price_date.
  destruct (latest_price_of stock_id d) as [lp |]; cbn; [| reflexivity].
  destruct (Timestamp_date index <=? Price_date lp) eqn:C.
  - apply Z.leb_le in C. symmetry. apply negb_true_iff. apply Z.ltb_ge. lia.
  - apply Z.leb_gt in C. symmetry. apply negb_false_iff. apply Z.ltb_lt. lia.
Qed.

(* ================================================================== *)
(** * Price merge *)
(* ================================================================== *)

Lemma validate_float_field (v : pyval) (field : option float_field) :
  validate_float v = Ok field -> float_of_cell v field.
Proof.
  destruct v as [| z | f |]; cbn; try discriminate.
  - now intros [= <-].
  - destruct (int_fits_double z); [now intros [= <-] | discriminate].
  - now intros [= <-].
Qed.


Lemma rbind_ok {A B : Type} (r : result A) (k : A -> result B) (b : B) :
  rbind r k = Ok b -> exists a, r = Ok a /\ k a = Ok b.
Proof. destruct r as [a | e]; cbn; [eauto | discriminate]. Qed.

Lemma price_of_row_built (index : Timestamp) (row : Series)
  (p : DailyStockPriceCreate) :
  price_of_row index row = Ok p -> built_from (index, row) p.
Proof.
  unfold price_of_row. intros H.
  apply rbind_ok in H as [v_volume [Hv H]].
  apply rbind_ok in H as [v_open [Ho H]].
  apply rbind_ok in H as [v_high [Hh H]].
  apply rbind_ok in H as [v_low [Hl H]].
  apply rbind_ok in H as [v_close [Hc H]].
  apply rbind_ok in H as [v_adj [Ha H]].
  apply rbind_ok in H as [v_div [Hd H]].
  apply rbind_ok in H as [v_split [Hs H]].
  injection H as <-. unfold built_from. cbn.
  repeat split; try (now apply validate_float_field). exact Hv.
Qed.

Lemma price_of_row_date (index : Timestamp) (row : Series)
  (p : DailyStockPriceCreate) :
  price_of_row index row = Ok p -> price_date p = Timestamp_date index.
Proof. intros H. now apply price_of_row_built in H as [H _]. Qed.


Lemma collect_prices_sound (latest : option DailyStockPrice)
  (rows : list (Timestamp * Series)) (ps : list DailyStockPriceCreate) :
  collect_prices latest rows = Ok ps ->
  Forall2 built_from
    (filter (fun item => negb (already_stored latest (fst item))) rows) ps.
Proof.
  revert ps. induction rows as [| [index row] rows IH]; cbn; intros ps H.
  - inversion H. constructor.
  - destruct (already_stored latest index); cbn.
    + now apply IH.
    + destruct (price_of_row index row) as [p |] eqn:Ep; cbn in H; [| discriminate].
      destruct (collect_prices latest rows) as [ps' |]; cbn in H; [| discriminate].
      inversion H. constructor; [now apply price_of_row_built | now apply IH].
Qed.


Lemma collect_prices_all_stored (latest : option DailyStockPrice)
  (rows : list (Timestamp * Series)) :
  (forall item, In item rows -> already_stored latest (fst item) = true) ->
  collect_prices latest rows = Ok [].
Proof.
  induction rows as [| [index row] rows IH]; cbn; intros H; [reflexivity |].
  pose proof (H (index, row) (or_introl eq_refl)) as E. cbn in E. rewrite E.
  apply IH. intros item Hi. apply H. now right.
Qed.

Lemma number_prices_cons (i stock_id : nat) (p : DailyStockPriceCreate)
  (ps : list DailyStockPriceCreate) :
  number_prices i stock_id (p :: ps)
  = mkDailyStockPrice i stock_id p :: number_prices (S i) stock_id ps.
Proof. reflexivity. Qed.

Lemma number_prices_fields (i stock_id : nat) (ps : list DailyStockPriceCreate) :
  map Price_fields (number_prices i stock_id ps) = ps.
Proof.
  revert i. induction ps as [| p ps IH]; intros i; [reflexivity |].
  rewrite number_prices_cons. cbn [map Price_fields]. now rewrite IH.
Qed.

Lemma number_prices_stock_id (i stock_id : nat) (ps : list DailyStockPriceCreate)
  (p : DailyStockPrice) :
  In p (number_prices i stock_id ps) -> Price_stock_id p = stock_id.
Proof.
  revert i. induction ps as [| q ps IH]; intros i; [intros [] |].
  rewrite number_prices_cons. intros [<- | H]; [reflexivity | now apply (IH (S i))].
Qed.

Lemma number_prices_in (i stock_id : nat) (ps : list DailyStockPriceCreate)
  (q : DailyStockPriceCreate) :
  In q ps -> exists p, In p (number_prices i stock_id ps) /\ Price_fields p = q.
Proof.
  intros H. rewrite <- (number_prices_fields i stock_id ps) in H.
  apply in_map_iff in H as [p [Hp Hin]]. eauto.
Qed.

(** The price merge, run. *)
Lemma merge_prices_run (stock_id : nat) (hist : DataFrame Timestamp string)
  (w : world) :
  merge_prices stock_id hist w =
  if df_empty hist then (w, Ok tt)
  else
    match collect_prices (latest_price_of stock_id (db w)) (iterrows hist) with
    | Raise e => (w, Raise e)
    | Ok ps =>
        if forallb (fun p => fits_bigint (volume p)) ps
        then
          (mkWorld (if is_nil ps then db w else insert_prices stock_id ps (db w))
                   (console w ++ [Saved_daily_prices (List.length ps)]),
           Ok tt)
        else (w, Raise DataError)
    end.
Proof.
  unfold merge_prices, add_daily_prices.
  destruct (df_empty hist); [reflexivity |]. run_monad.
  destruct (collect_prices _ _) as [ps | e]; [| reflexivity].
  destruct ps as [| p ps]; [reflexivity |]. cbn [is_nil].
  destruct (forallb _ (p :: ps)); reflexivity.
Qed.





Lemma prices_of_insert (stock_id : nat) (ps : list DailyStockPriceCreate)
  (d : database) :
  prices_of stock_id (insert_prices stock_id ps d)
  = (prices_of stock_id d
     ++ number_prices (next_id (map Price_id (daily_stock_prices d)))
                      stock_id ps)%list.
Proof.
  unfold prices_of, insert_prices. cbn. rewrite filter_app. f_equal.
  apply filter_all. intros p Hp. apply Nat.eqb_eq.
  now apply number_prices_stock_id in Hp.
Qed.

(** Once a batch is stored, every entry of the frame it came from is at
    or before the latest stored date. *)
Lemma all_stored_after_insert (stock_id : nat) (d : database)
  (rows : list (Timestamp * Series)) (p : DailyStockPriceCreate)
  (ps : list DailyStockPriceCreate) :
  collect_prices (latest_price_of stock_id d) rows = Ok (p :: ps) ->
  forall item, In item rows ->
    already_stored
      (latest_price_of stock_id (insert_prices stock_id (p :: ps) d))
      (fst item) = true.
Proof.
  intros Hc item Hi.
  set (d' := insert_prices stock_id (p :: ps) d).
  destruct (latest_price_of stock_id d') as [lp' |] eqn:L'.
  2:{ apply latest_price_none in L'. unfold d' in L'.
      rewrite prices_of_insert, number_prices_cons in L'.
      now apply app_eq_nil in L' as [_ L']. }
  apply latest_price_is_max in L' as [_ Hmax].
  unfold d' in Hmax. rewrite prices_of_insert in Hmax.
  cbn [already_stored]. apply Z.leb_le.
  destruct (already_stored (latest_price_of stock_id d) (fst item)) eqn:S.
  - destruct (latest_price_of stock_id d) as [lp |] eqn:L; [| discriminate].
    cbn in S. apply Z.leb_le in S.
    apply latest_price_is_max in L as [Hin _].
    specialize (Hmax lp (in_or_app _ _ _ (or_introl Hin))). lia.
  - pose proof (collect_prices_sound _ _ _ Hc) as HF.
    assert (Hf : In item (filter (fun item => negb (already_stored
                            (latest_price_of stock_id d) (fst item))) rows)).
    { apply filter_In. split; [assumption | now rewrite S]. }
    destruct (Forall2_In_l _ _ _ item HF Hf) as [q [Hq [Hb _]]].
    destruct (number_prices_in
                (next_id (map Price_id (daily_stock_prices d))) stock_id
                (p :: ps) q Hq) as [r [Hr Hfields]].
    specialize (Hmax r (in_or_app _ _ _ (or_intror Hr))).
    unfold Price_date in Hmax at 1. rewrite Hfields, Hb in Hmax. exact Hmax.
Qed.

(** X11.  A series entirely at or before the latest persisted date: nothing
    is written. *)
Lemma merge_prices_stale_series (stock_id : nat)
  (hist : DataFrame Timestamp string) (w : world) (D : date) :
  latest_persisted_date stock_id (db w) = Some D ->
  (forall day, In day (fetched_days hist) -> day <= D) ->
  eval (merge_prices stock_id hist) w = Ok tt /\
  db (exec (merge_prices stock_id hist) w) = db w.
Proof.
  intros HD Hold. unfold eval, exec. rewrite merge_prices_run.
  destruct (df_empty hist); [split; reflexivity |].
  rewrite collect_prices_all_stored; [split; reflexivity |].
  intros item Hi. rewrite already_stored_extends, HD. cbn.
  apply negb_true_iff, Z.ltb_ge. apply Hold.
  exact (in_map (fun it => Timestamp_date (fst it)) _ _ Hi).
Qed.

(** C8.  The price merge is idempotent: after one call with a series, a
    second call with the same series for the same stock leaves the
    database as the first call left it, reports zero written records
    when it reports at all, and ends as the first call ended. *)
Theorem merge_prices_idempotent
  (stock_id : nat) (hist : DataFrame Timestamp string) (w : world) :
  let w1 := exec (merge_prices stock_id hist) w in
  let w2 := exec (merge_prices stock_id hist) w1 in
  db w2 = db w1 /\
  (forall a b, get_daily_prices stock_id a b (db w2)
               = get_daily_prices stock_id a b (db w1)) /\
  (console w2 = console w1 \/
   console w2 = (console w1 ++ [Saved_daily_prices 0])%list) /\
  eval (merge_prices stock_id hist) w1 = eval (merge_prices stock_id hist) w.
Proof.
  cbv zeta.
  assert (H : db (exec (merge_prices stock_id hist)
                       (exec (merge_prices stock_id hist) w))
              = db (exec (merge_prices stock_id hist) w)
              /\ (console (exec (merge_prices stock_id hist)
                              (exec (merge_prices stock_id hist) w))
                  = console (exec (merge_prices stock_id hist) w)
                  \/ console (exec (merge_prices stock_id hist)
                                (exec (merge_prices stock_id hist) w))
                     = (console (exec (merge_prices stock_id hist) w)
                        ++ [Saved_daily_prices 0])%list)
              /\ eval (merge_prices stock_id hist)
                      (exec (merge_prices stock_id hist) w)
                 = eval (merge_prices stock_id hist) w).
  { unfold exec, eval. rewrite (merge_prices_run stock_id hist w).
    destruct (df_empty hist) eqn:Eempty.
    - cbn [fst snd]. rewrite merge_prices_run, Eempty. cbn. auto.
    - destruct (collect_prices (latest_price_of stock_id (db w)) (iterrows hist))
        as [ps | e] eqn:Hc.
      + destruct (forallb (fun p => fits_bigint (volume p)) ps) eqn:Hfits.
        2:{ cbn [fst snd]. rewrite merge_prices_run, Eempty, Hc, Hfits.
            cbn. auto. }
        destruct ps as [| p ps].
        * cbn [fst snd is_nil]. rewrite merge_prices_run, Eempty.
          cbn [db console]. rewrite Hc. cbn. auto.
        * cbn [fst snd is_nil]. rewrite merge_prices_run, Eempty.
          cbn [db console].
          rewrite (collect_prices_all_stored _ _
                     (all_stored_after_insert stock_id (db w) _ p ps Hc)).
          cbn. auto.
      + cbn [fst snd]. rewrite merge_prices_run, Eempty, Hc. cbn. auto. }
  destruct H as [Hdb [Hcon Hev]].
  repeat split; try assumption.
  intros a b. now rewrite Hdb.
Qed.

(* ================================================================== *)
(** * Statement merge *)
(* ================================================================== *)

Lemma filter_filter {A : Type} (f g : A -> bool) (l : list A) :
  filter f (filter g l) = filter (fun x => g x && f x) l.
Proof.
  induction l as [| x l IH]; cbn; [reflexivity |].
  destruct (g x); cbn; [destruct (f x) |]; now rewrite IH.
Qed.

Lemma is_nil_filter {A : Type} (f : A -> bool) (l : list A) :
  is_nil (filter f l) = negb (existsb f l).
Proof.
  induction l as [| x l IH]; cbn; [reflexivity |].
  destruct (f x); cbn; [reflexivity | exact IH].
Qed.

Lemma existsb_pointwise {A : Type} (f g : A -> bool) (l : list A) :
  (forall x, f x = g x) -> existsb f l = existsb g l.
Proof.
  intros H. induction l as [| x l IH]; cbn; [reflexivity |].
  now rewrite H, IH.
Qed.

Lemma is_nil_order_by {A : Type} (before : A -> A -> bool) (l : list A) :
  is_nil (order_by before l) = is_nil l.
Proof.
  destruct l as [| x l]; [reflexivity |].
  destruct (order_by before (x :: l)) eqn:E; [| reflexivity].
  now apply order_by_nil in E.
Qed.

(** The existence query of the merge answers for the key, when the
    period type is a non-empty string. *)
Lemma existing_statement_query (stock_id : nat) (ptype : string) (pend : date)
  (d : database) :
  String.eqb ptype "" = false ->
  is_nil (get_financial_statements stock_id (Some ptype) (Some pend) d)
  = negb (statement_exists stock_id ptype pend d).
Proof.
  intros Hne. unfold get_financial_statements, statement_exists.
  cbn [truthy_str truthy_date]. rewrite Hne. cbn [negb].
  rewrite is_nil_order_by, !filter_filter, is_nil_filter.
  f_equal. apply existsb_pointwise. intros s.
  unfold statement_key_match. now rewrite andb_assoc.
Qed.

Lemma statement_of_row_sanitized (ptype : string) (period_end : Timestamp)
  (row : Series) (st : FinancialStatementCreate) :
  statement_of_row ptype period_end row = Ok st ->
  sanitized_from ptype period_end row st.
Proof.
  unfold statement_of_row, sanitized_from.
  repeat (destruct (_clean_financial_value _); cbn [rbind]; [| discriminate]).
  intros H. inversion H. cbn. repeat split; reflexivity.
Qed.

Lemma bigint_cell_clean (v : pyval) :
  bigint_cell v = true ->
  exists r, _clean_financial_value v = Ok r /\ fits_bigint r = true.
Proof.
  unfold bigint_cell. destruct (_clean_financial_value v) as [r |]; [eauto |].
  discriminate.
Qed.

Lemma statement_of_row_ok (ptype : string) (period_end : Timestamp) (row : Series) :
  forallb bigint_cell (statement_cells row) = true ->
  exists st, statement_of_row ptype period_end row = Ok st /\
             forallb fits_bigint (statement_metrics st) = true.
Proof.
  unfold statement_cells. cbn [map forallb]. intros H.
  repeat (apply andb_true_iff in H as [? H]).
  repeat match goal with
         | Hc : bigint_cell _ = true |- _ =>
             apply bigint_cell_clean in Hc as [? [Hc ?]]
         end.
  unfold statement_of_row.
  repeat match goal with
         | Hc : _clean_financial_value _ = Ok _ |- _ =>
             rewrite Hc; cbn [rbind]; clear Hc
         end.
  eexists. split; [reflexivity |].
  unfold statement_metrics. cbn.
  repeat match goal with
         | Hf : fits_bigint _ = true |- _ => rewrite Hf; clear Hf
         end.
  reflexivity.
Qed.

(** One turn of the loop of the statement merge, run. *)
Lemma save_statement_row_run (stock_id : nat) (ptype : string)
  (period_end : Timestamp) (row : Series) (w : world) :
  String.eqb ptype "" = false ->
  save_statement_row stock_id ptype (period_end, row) w =
  if statement_exists stock_id ptype (Timestamp_date period_end) (db w)
  then (w, Ok tt)
  else
    match statement_of_row ptype period_end row with
    | Raise e => (w, Raise e)
    | Ok st =>
        if forallb fits_bigint (statement_metrics st)
        then
          (mkWorld
             (insert_statement
                (mkFinancialStatement
                   (next_id (map Stmt_id (financial_statements (db w))))
                   stock_id st)
                (db w))
             (console w),
           Ok tt)
        else (w, Raise DataError)
    end.
Proof.
  intros Hne. unfold save_statement_row, create_financial_statement. run_monad.
  rewrite (existing_statement_query _ _ _ _ Hne), negb_involutive.
  destruct (statement_exists _ _ _ _); [reflexivity |].
  destruct (statement_of_row _ _ _) as [st |]; [| reflexivity].
  destruct (forallb fits_bigint (statement_metrics st)); reflexivity.
Qed.

Lemma statement_exists_app (stock_id : nat) (ptype : string) (pend : date)
  (d d' : database) (l : list FinancialStatement) :
  financial_statements d' = (financial_statements d ++ l)%list ->
  statement_exists stock_id ptype pend d'
  = statement_exists stock_id ptype pend d
    || existsb (statement_key_match stock_id ptype pend) l.
Proof. unfold statement_exists. intros ->. apply existsb_app. Qed.

Lemma statement_key_match_spec (stock_id : nat) (ptype : string) (pend : date)
  (s : FinancialStatement) :
  statement_key_match stock_id ptype pend s = true <->
  Stmt_stock_id s = stock_id /\ Stmt_period_type s = ptype /\
  Stmt_period_end_date s = pend.
Proof.
  unfold statement_key_match.
  rewrite !andb_true_iff, Nat.eqb_eq, String.eqb_eq, Z.eqb_eq. tauto.
Qed.

Section StatementLoop.
Variable stock_id : nat.
Variable ptype : string.
Hypothesis ptype_nonempty : String.eqb ptype "" = false.

Lemma new_statement_rows_stored (d : database) (item : Timestamp * Series)
  (rest : list (Timestamp * Series)) :
  statement_exists stock_id ptype (Timestamp_date (fst item)) d = true ->
  new_statement_rows stock_id ptype d (item :: rest)
  = new_statement_rows stock_id ptype d rest.
Proof.
  intros Ex. unfold new_statement_rows. cbn [first_per_day filter].
  rewrite Ex. cbn [negb]. rewrite filter_filter.
  apply filter_ext. intros other.
  destruct (Timestamp_date (fst other) =? Timestamp_date (fst item)) eqn:E.
  - apply Z.eqb_eq in E. rewrite E, Ex. reflexivity.
  - cbn. now rewrite ?andb_true_r, ?andb_true_l.
Qed.

Lemma new_statement_rows_new (d d1 : database) (item : Timestamp * Series)
  (rest : list (Timestamp * Series)) :
  statement_exists stock_id ptype (Timestamp_date (fst item)) d = false ->
  (forall e, statement_exists stock_id ptype e d1
             = statement_exists stock_id ptype e d
               || (e =? Timestamp_date (fst item))) ->
  new_statement_rows stock_id ptype d (item :: rest)
  = item :: new_statement_rows stock_id ptype d1 rest.
Proof.
  intros Ex H1. unfold new_statement_rows. cbn [first_per_day filter].
  rewrite Ex. cbn [negb]. f_equal. rewrite filter_filter.
  apply filter_ext. intros other. rewrite H1, negb_orb.
  destruct (negb (statement_exists _ _ _ d)),
           (negb (Timestamp_date (fst other) =? Timestamp_date (fst item)));
    reflexivity.
Qed.

(** What the loop of the merge does to the world, row after row. *)
Lemma save_rows_spec (rows : list (Timestamp * Series)) :
  forall w : world,
  forallb storable_statement (new_statement_rows stock_id ptype (db w) rows)
    = true ->
  exists inserted : list FinancialStatement,
    Forall2 (fun item s =>
               Stmt_stock_id s = stock_id /\
               sanitized_from ptype (fst item) (snd item) (Stmt_fields s))
            (new_statement_rows stock_id ptype (db w) rows) inserted /\
    eval (for_each rows (save_statement_row stock_id ptype)) w = Ok tt /\
    stocks (db (exec (for_each rows (save_statement_row stock_id ptype)) w))
      = stocks (db w) /\
    daily_stock_prices
      (db (exec (for_each rows (save_statement_row stock_id ptype)) w))
      = daily_stock_prices (db w) /\
    console (exec (for_each rows (save_statement_row stock_id ptype)) w)
      = console w /\
    financial_statements
      (db (exec (for_each rows (save_statement_row stock_id ptype)) w))
      = (financial_statements (db w) ++ inserted)%list /\
    NoDup (map Stmt_period_end_date inserted) /\
    (forall s, In s inserted ->
       Stmt_stock_id s = stock_id /\
       Stmt_period_type s = ptype /\
       statement_exists stock_id ptype (Stmt_period_end_date s) (db w) = false /\
       exists item, In item rows /\
                    sanitized_from ptype (fst item) (snd item) (Stmt_fields s)) /\
    (forall item, In item rows ->
       statement_exists stock_id ptype (Timestamp_date (fst item)) (db w) = false ->
       exists s, In s inserted /\
                 Stmt_period_end_date s = Timestamp_date (fst item)).
Proof.
  induction rows as [| [ts row] rest IH]; intros w Hdom.
  - exists []. unfold exec, eval. cbn. rewrite app_nil_r.
    split; [constructor |].
    do 5 (split; [reflexivity |]).
    split; [constructor |]. split; intros ? [].
  - unfold exec, eval in *. cbn [for_each].
    pose proof (save_statement_row_run stock_id ptype ts row w ptype_nonempty)
      as Hrun.
    destruct (statement_exists stock_id ptype (Timestamp_date ts) (db w)) eqn:Ex.
    + (* the key is stored: the row is skipped *)
      rewrite (bind_run _ _ w w tt Hrun).
      rewrite (new_statement_rows_stored (db w) (ts, row) rest Ex) in *.
      destruct (IH w Hdom)
        as [inserted (H0 & H1 & H2 & H3 & H4 & H5 & H6 & H7 & H8)].
      exists inserted. split; [exact H0 |]. repeat split; try assumption.
      * now apply H7.
      * now apply H7.
      * now apply H7.
      * destruct (H7 s H) as (_ & _ & _ & item & Hi & Hs).
        exists item. split; [now right | assumption].
      * intros item [<- | Hi] Hex.
        -- cbn [fst] in Hex. congruence.
        -- now apply H8.
    + (* the key is new: a sanitized row is inserted *)
      assert (Hhead : exists tl,
                new_statement_rows stock_id ptype (db w) ((ts, row) :: rest)
                = (ts, row) :: tl).
      { unfold new_statement_rows. cbn [first_per_day filter fst].
        rewrite Ex. cbn [negb]. eauto. }
      destruct Hhead as [tl Hhead].
      assert (Hrow : storable_statement (ts, row) = true).
      { rewrite Hhead in Hdom. cbn [forallb] in Hdom.
        now apply andb_true_iff in Hdom as [Hdom _]. }
      clear tl Hhead.
      destruct (statement_of_row_ok ptype ts row Hrow) as [st [Hst Hfits]].
      rewrite Hst, Hfits in Hrun.
      pose proof (statement_of_row_sanitized _ _ _ _ Hst) as Hsan.
      set (new := mkFinancialStatement
                    (next_id (map Stmt_id (financial_statements (db w))))
                    stock_id st) in *.
      set (w1 := mkWorld (insert_statement new (db w)) (console w)) in *.
      rewrite (bind_run _ _ w w1 tt Hrun).
      assert (Hstored : financial_statements (db w1)
                        = (financial_statements (db w) ++ [new])%list)
        by reflexivity.
      assert (Hnew : forall e,
                 statement_key_match stock_id ptype e new = true
                 <-> e = Timestamp_date ts).
      { intros e. rewrite statement_key_match_spec.
        destruct Hsan as (Ht & He & _). unfold new, Stmt_period_type,
          Stmt_period_end_date. cbn. rewrite Ht, He.
        split; [intros (_ & _ & E); now symmetry | intros ->; auto]. }
      assert (Hex1 : forall e,
                 statement_exists stock_id ptype e (db w1)
                 = statement_exists stock_id ptype e (db w)
                   || statement_key_match stock_id ptype e new).
      { intros e. rewrite (statement_exists_app _ _ _ (db w) (db w1) [new] Hstored).
        cbn. now rewrite orb_false_r. }
      assert (Hrows : new_statement_rows stock_id ptype (db w) ((ts, row) :: rest)
                      = (ts, row) :: new_statement_rows stock_id ptype (db w1) rest).
      { apply new_statement_rows_new; [exact Ex |]. intros e.
        rewrite Hex1. f_equal. cbn [fst].
        destruct (statement_key_match stock_id ptype e new) eqn:Hm.
        - apply Hnew in Hm. subst e. symmetry. apply Z.eqb_refl.
        - destruct (e =? Timestamp_date ts) eqn:Ee; [| reflexivity].
          apply Z.eqb_eq in Ee. apply Hnew in Ee. congruence. }
      rewrite Hrows in *. cbn [forallb] in Hdom.
      apply andb_true_iff in Hdom as [_ Hdom].
      destruct (IH w1 Hdom)
        as [inserted (H0 & H1 & H2 & H3 & H4 & H5 & H6 & H7 & H8)].
      exists (new :: inserted).
      split; [constructor; [split; [reflexivity | exact Hsan] | exact H0] |].
      split; [exact H1 |]. split; [exact H2 |]. split; [exact H3 |].
      split; [exact H4 |].
      split; [rewrite H5, Hstored, <- app_assoc; reflexivity |].
      split; [| split].
      * (* end dates of inserted rows are distinct *)
        cbn [map]. constructor; [| exact H6].
        intros Hin. apply in_map_iff in Hin as [s [Hd Hs]].
        destruct (H7 s Hs) as (_ & _ & Hno & _).
        rewrite Hex1 in Hno. apply orb_false_iff in Hno as [_ Hno].
        assert (Hyes : statement_key_match stock_id ptype
                         (Stmt_period_end_date s) new = true).
        { apply Hnew. rewrite Hd. destruct Hsan as (_ & He & _). exact He. }
        congruence.
      * intros s [<- | Hs].
        -- split; [reflexivity |].
           split; [exact (proj1 Hsan) |].
           split.
           ++ destruct Hsan as (_ & He & _).
              unfold Stmt_period_end_date, new. cbn. rewrite He. exact Ex.
           ++ exists (ts, row). split; [now left | exact Hsan].
        -- destruct (H7 s Hs) as (Ha & Hb & Hno & item & Hi & Hs').
           split; [exact Ha |]. split; [exact Hb |]. split.
           ++ rewrite Hex1 in Hno. now apply orb_false_iff in Hno as [Hno _].
           ++ exists item. split; [now right | exact Hs'].
      * intros item [<- | Hi] Hex.
        -- exists new. split; [now left |].
           destruct Hsan as (_ & He & _). exact He.
        -- destruct (statement_key_match stock_id ptype
                       (Timestamp_date (fst item)) new) eqn:Hm.
           ++ exists new. split; [now left |].
              apply Hnew in Hm. destruct Hsan as (_ & He & _).
              unfold Stmt_period_end_date, new. cbn. now rewrite He, Hm.
           ++ destruct (H8 item Hi) as [s [Hs Hd]].
              { rewrite Hex1, Hex, Hm. reflexivity. }
              exists s. split; [now right | exact Hd].
Qed.
End StatementLoop.

(** C3.  The statement merge is first-write-wins, per period type.  For
    a non-empty period type, a frame that has its metric rows, and rows
    to insert that the statements table can hold (every cell one the
    sanitizer returns on, with nothing or an integer of 64 bits): the
    merge only appends to the statements table, so every stored
    statement is left as it was; the rows it appends are, in order, one
    for the first fetched row of each end date whose key (stock, period
    type, end date) was not stored, each belonging to the stock, of the
    period type and the end date of its fetched row, and carrying the
    sanitized cells of that row; a fetched row whose key was stored is
    skipped, no row of its end date being inserted; a fetched row whose
    key was not stored gets exactly one inserted row of its end date;
    and statements of another period type never block an insertion. *)
Theorem save_financials_first_write_wins
  (stock_id : nat) (financials_df : DataFrame string Timestamp)
  (ptype : string) (w : world) :
  String.eqb ptype "" = false ->
  is_nil (df_index financials_df) = false ->
  forallb storable_statement
    (new_statement_rows stock_id ptype (db w) (iterrows (df_T financials_df)))
    = true ->
  let rows := iterrows (df_T financials_df) in
  let w' := exec (_save_financials_from_df stock_id financials_df ptype) w in
  eval (_save_financials_from_df stock_id financials_df ptype) w = Ok tt /\
  stocks (db w') = stocks (db w) /\
  daily_stock_prices (db w') = daily_stock_prices (db w) /\
  exists inserted,
    financial_statements (db w') = (financial_statements (db w) ++ inserted)%list /\
    Forall2 (fun item s =>
               Stmt_stock_id s = stock_id /\
               sanitized_from ptype (fst item) (snd item) (Stmt_fields s))
            (new_statement_rows stock_id ptype (db w) rows) inserted /\
    NoDup (map Stmt_period_end_date inserted) /\
    (forall s, In s inserted ->
       Stmt_stock_id s = stock_id /\
       Stmt_period_type s = ptype /\
       exists item, In item rows /\
                    sanitized_from ptype (fst item) (snd item) (Stmt_fields s)) /\
    (forall item, In item rows ->
       if statement_exists stock_id ptype (Timestamp_date (fst item)) (db w)
       then forall s, In s inserted ->
                      Stmt_period_end_date s <> Timestamp_date (fst item)
       else exists s, In s inserted /\
                      Stmt_period_end_date s = Timestamp_date (fst item)) /\
    (forall item, In item rows ->
       (forall s, In s (financial_statements (db w)) ->
                  Stmt_stock_id s = stock_id ->
                  Stmt_period_end_date s = Timestamp_date (fst item) ->
                  Stmt_period_type s <> ptype) ->
       exists s, In s inserted /\
                 Stmt_period_end_date s = Timestamp_date (fst item)).
Proof.
  intros Hne Hidx Hdom. cbv zeta.
  destruct (save_rows_spec stock_id ptype Hne (iterrows (df_T financials_df)) w Hdom)
    as [inserted (H0 & H1 & H2 & H3 & H4 & H5 & H6 & H7 & H8)].
  assert (Hrun : exists c,
    _save_financials_from_df stock_id financials_df ptype w
    = (mkWorld (db (exec (for_each (iterrows (df_T financials_df))
                            (save_statement_row stock_id ptype)) w))
               c, Ok tt)).
  { unfold _save_financials_from_df.
    destruct (df_empty financials_df) eqn:Eempty.
    - unfold df_empty in Eempty. rewrite Hidx in Eempty. cbn in Eempty.
      apply is_nil_spec in Eempty.
      unfold iterrows, df_T. cbn [df_index]. rewrite Eempty. cbn.
      exists (console w). destruct w. reflexivity.
    - unfold exec, eval in *. run_monad.
      destruct (for_each _ _ w) as [w1 r]. cbn in H1. subst r.
      eexists. reflexivity. }
  destruct Hrun as [c Hrun].
  assert (Hdb : db (exec (_save_financials_from_df stock_id financials_df ptype) w)
                = db (exec (for_each (iterrows (df_T financials_df))
                              (save_statement_row stock_id ptype)) w))
    by (unfold exec at 1; rewrite Hrun; reflexivity).
  assert (Hev : eval (_save_financials_from_df stock_id financials_df ptype) w
                = Ok tt)
    by (unfold eval; rewrite Hrun; reflexivity).
  rewrite Hdb, Hev.
  split; [reflexivity |]. split; [exact H2 |]. split; [exact H3 |].
  exists inserted.
  split; [exact H5 |]. split; [exact H0 |]. split; [exact H6 |].
  split; [| split].
  - intros s Hs. destruct (H7 s Hs) as (Ha & Hb & _ & Hc). auto.
  - intros item Hi.
    destruct (statement_exists stock_id ptype (Timestamp_date (fst item)) (db w))
      eqn:Ex.
    + intros s Hs E. destruct (H7 s Hs) as (_ & _ & Hno & _).
      rewrite E in Hno. congruence.
    + now apply H8.
  - intros item Hi Hother. apply H8; [assumption |].
    destruct (statement_exists stock_id ptype (Timestamp_date (fst item)) (db w))
      eqn:Ex; [| reflexivity].
    unfold statement_exists in Ex. apply existsb_exists in Ex as [s [Hs Hm]].
    apply statement_key_match_spec in Hm as (Ha & Hb & Hc).
    exfalso. exact (Hother s Hs Ha Hc Hb).
Qed.

(** The claim C3 fails for a new key whose row the table cannot hold:
    after the test ingestion, annual statements of a new period with a
    revenue of 2^63 make the merge raise, and no row is inserted.  It
    fails as well for a frame with a period but no metric rows, which
    [financials_df.empty] takes for empty: no row is inserted for the new
    key. *)
Lemma save_financials_refuses_large_metric :
  (statement_exists 1 "annual" d_2024_03_31 (db world_after_test) = false /\
   eval (_save_financials_from_df 1 large_revenue_financials "annual")
        world_after_test = Raise DataError /\
   exec (_save_financials_from_df 1 large_revenue_financials "annual")
        world_after_test = world_after_test) /\
  (map (fun item => Timestamp_date (fst item))
       (iterrows (df_T bare_financials)) = [d_2024_03_31] /\
   exec (_save_financials_from_df 1 bare_financials "annual") world_after_test
     = world_after_test).
Proof. vm_compute. repeat split. Qed.

(* ================================================================== *)
(** * Ingestion of one symbol *)
(* ================================================================== *)

Lemma stock_data_sd_code (ticker_symbol : string) (info : Info) (d : StockData) :
  stock_data_of_info ticker_symbol info = Ok d -> sd_code d = ticker_symbol.
Proof.
  unfold stock_data_of_info.
  destruct (_clean_financial_value _); cbn; intros H; inversion H. reflexivity.
Qed.

Lemma stock_data_code (ticker_symbol : string) (info : Info) (md : StockCreate) :
  stock_data_of_info ticker_symbol info = Ok (as_dict md) ->
  code md = ticker_symbol.
Proof. intros H. now apply stock_data_sd_code in H. Qed.

(** The ingestion of a symbol the provider knows is the upsert, the
    price merge and the two statement merges, in this order. *)
Lemma fetch_and_save_steps (yf_Ticker : string -> Ticker) (ticker_symbol : string)
  (info : Info) (md : StockCreate) (w : world) :
  ticker_info (yf_Ticker ticker_symbol) = Ok (Some info) ->
  info_unusable (Some info) = false ->
  stock_data_of_info ticker_symbol info = Ok (as_dict md) ->
  fetch_and_save_yfinance_data yf_Ticker ticker_symbol w =
  (print (Debug_fetch_called ticker_symbol) ;;;
   stock <- upsert_security md ;;
   hist <- lift (ticker_history (yf_Ticker ticker_symbol)) ;;
   merge_prices (Stock_id stock) hist ;;;
   annual <- lift (ticker_financials (yf_Ticker ticker_symbol)) ;;
   _save_financials_from_df (Stock_id stock) annual "annual" ;;;
   quarterly <- lift (ticker_quarterly_financials (yf_Ticker ticker_symbol)) ;;
   _save_financials_from_df (Stock_id stock) quarterly "quarterly" ;;;
   ret (Some stock)) w.
Proof.
  intros Hinfo Husable Hmd.
  unfold fetch_and_save_yfinance_data, upsert_security. run_monad.
  rewrite Hinfo, Husable, Hmd, (stock_data_code _ _ _ Hmd). reflexivity.
Qed.

(** C6.  When the provider has no usable [info] for the symbol (none at
    all, or one without the ["symbol"] key), the ingestion returns
    [None], the NotFound outcome, and the database is as it was. *)
Theorem fetch_unknown_symbol_writes_nothing
  (yf_Ticker : string -> Ticker) (ticker_symbol : string) (w : world)
  (info : option Info) :
  ticker_info (yf_Ticker ticker_symbol) = Ok info ->
  info_unusable info = true ->
  eval (fetch_and_save_yfinance_data yf_Ticker ticker_symbol) w = Ok None /\
  db (exec (fetch_and_save_yfinance_data yf_Ticker ticker_symbol) w) = db w.
Proof.
  intros Hinfo Hun. unfold fetch_and_save_yfinance_data. run_monad.
  rewrite Hinfo, Hun. split; reflexivity.
Qed.

(* ================================================================== *)
(** * The bulk job *)
(* ================================================================== *)

Lemma fetching_log_app (c c' : list message) :
  fetching_log (c ++ c') = (fetching_log c ++ fetching_log c')%list.
Proof.
  induction c as [| m c IH]; cbn; [reflexivity |].
  destruct m; cbn; now rewrite IH.
Qed.

Lemma quiet_ret {A : Type} (a : A) : quiet (ret a).
Proof. intros w. reflexivity. Qed.

Lemma quiet_raise {A : Type} (e : exn) : quiet (@raise A e).
Proof. intros w. reflexivity. Qed.

Lemma quiet_lift {A : Type} (r : result A) : quiet (lift r).
Proof. intros w. reflexivity. Qed.

Lemma quiet_query {A : Type} (q : database -> A) : quiet (query q).
Proof. intros w. reflexivity. Qed.

Lemma quiet_commit (f : database -> database) : quiet (commit f).
Proof. intros w. reflexivity. Qed.

Lemma quiet_print (msg : message) :
  (forall t, msg <> Fetching t) -> quiet (print msg).
Proof.
  intros H w. unfold exec, print. cbn. rewrite fetching_log_app.
  destruct msg; cbn; try apply app_nil_r. now destruct (H ticker).
Qed.

Lemma quiet_bind {A B : Type} (m : M A) (k : A -> M B) :
  quiet m -> (forall a, quiet (k a)) -> quiet (bind m k).
Proof.
  intros Hm Hk w. specialize (Hm w). unfold exec, bind in *.
  destruct (m w) as [w1 [a | e]]; cbn in *.
  - rewrite <- Hm. apply (Hk a w1).
  - exact Hm.
Qed.

Lemma quiet_for_each {A : Type} (l : list A) (body : A -> M unit) :
  (forall x, quiet (body x)) -> quiet (for_each l body).
Proof.
  intros H. induction l as [| x l IH]; cbn.
  - apply quiet_ret.
  - apply quiet_bind; [apply H | intros _; exact IH].
Qed.

Create HintDb quiet.

(** One step through the syntax of a computation; the computations
    already shown quiet are taken from the hint database. *)
Ltac quiet_step :=
  match goal with
  | |- quiet (ret _) => apply quiet_ret
  | |- quiet (raise _) => apply quiet_raise
  | |- quiet (lift _) => apply quiet_lift
  | |- quiet (query _) => apply quiet_query
  | |- quiet (commit _) => apply quiet_commit
  | |- quiet (print _) => apply quiet_print; discriminate
  | |- quiet (for_each _ _) => apply quiet_for_each; intros ?
  | |- quiet (bind _ _) => apply quiet_bind; [| intros ?]
  | |- quiet (if ?b then _ else _) => destruct b
  | |- quiet (match ?x with _ => _ end) => destruct x
  | |- quiet _ => solve [auto with quiet]
  end.

Lemma quiet_create_stock (stock : StockCreate) : quiet (create_stock stock).
Proof. unfold create_stock. repeat quiet_step. Qed.
#[local] Hint Resolve quiet_create_stock : quiet.

Lemma quiet_upsert_stock (stock : option Stock) (d : StockCreate) :
  quiet (upsert_stock stock d).
Proof. unfold upsert_stock. repeat quiet_step. Qed.
#[local] Hint Resolve quiet_upsert_stock : quiet.

Lemma quiet_upsert_fetched (stock : option Stock) (d : StockData) :
  quiet (upsert_fetched stock d).
Proof. unfold upsert_fetched. repeat quiet_step. Qed.
#[local] Hint Resolve quiet_upsert_fetched : quiet.

Lemma quiet_merge_prices (stock_id : nat) (hist : DataFrame Timestamp string) :
  quiet (merge_prices stock_id hist).
Proof. unfold merge_prices, add_daily_prices. repeat quiet_step. Qed.
#[local] Hint Resolve quiet_merge_prices : quiet.

Lemma quiet_save_financials (stock_id : nat)
  (df : DataFrame string Timestamp) (ptype : string) :
  quiet (_save_financials_from_df stock_id df ptype).
Proof.
  unfold _save_financials_from_df, save_statement_row, create_financial_statement.
  repeat quiet_step.
Qed.
#[local] Hint Resolve quiet_save_financials : quiet.



(** One turn of the loop of the bulk job, run: whatever the ingestion
    of the symbol ends with, the turn ends normally. *)
Lemma bulk_step_run (yf_Ticker : string -> Ticker) (ticker : string)
  (s f : nat) (usable : bool) (w : world) :
  bulk_step yf_Ticker ticker (s, f, usable) w =
  match job_ingestion usable yf_Ticker ticker (before_ingestion ticker w) with
  | (w1, Ok (Some _)) =>
      (mkWorld (db w1) (console w1 ++ [Successfully_saved ticker]),
       Ok (S s, f, usable))
  | (w1, Ok None) =>
      (mkWorld (db w1) (console w1 ++ [Failed_to_fetch ticker]),
       Ok (s, S f, usable))
  | (w1, Raise e) =>
      (mkWorld (db w1) (console w1 ++ [Error_occurred ticker e]),
       Ok (s, S f, usable && negb (breaks_session e)))
  end.
Proof.
  unfold bulk_step, try_except, before_ingestion. run_monad.
  destruct (job_ingestion usable yf_Ticker ticker _) as [w1 [[st |] | e]];
    reflexivity.
Qed.

Lemma bulk_step_world (yf_Ticker : string -> Ticker) (ticker : string)
  (s f : nat) (usable : bool) (w : world) :
  exec (bulk_step yf_Ticker ticker (s, f, usable)) w
  = after_symbol yf_Ticker ticker usable w.
Proof.
  unfold after_symbol, exec. rewrite !bulk_step_run.
  destruct (job_ingestion usable yf_Ticker ticker _) as [w1 [[st |] | e]];
    reflexivity.
Qed.

Lemma bulk_step_counts (yf_Ticker : string -> Ticker) (ticker : string)
  (s f : nat) (usable : bool) (w : world) :
  let r := eval (job_ingestion usable yf_Ticker ticker)
                (before_ingestion ticker w) in
  eval (bulk_step yf_Ticker ticker (s, f, usable)) w =
  Ok (if returned_security r then (S s, f, usable_after usable r)
      else (s, S f, usable_after usable r)).
Proof.
  cbv zeta. unfold eval. rewrite bulk_step_run.
  destruct (job_ingestion usable yf_Ticker ticker _) as [w1 [[st |] | e]];
    reflexivity.
Qed.







(* ================================================================== *)
(** * Scenarios *)
(* ================================================================== *)

(** The end-to-end scenario of the tests: ingesting ["TEST"] into an
    empty database. *)
Example ingest_test_stock :
  eval (fetch_and_save_yfinance_data test_yf "TEST") initial_world
  = Ok (Some (mkStock 1
          (mkStockCreate "TEST" "Test Inc" (Some "Technology") (Some "Software")
             (Some "USA") (Some "NASDAQ") (Some "USD") (Some 1000000000)
             (Some "https://example.com")))).
Proof. vm_compute. reflexivity. Qed.

Example ingest_test_prices :
  map (fun p => (Price_stock_id p, Price_date p, close (Price_fields p),
                 volume (Price_fields p)))
      (daily_stock_prices (db world_after_test))
  = [(1%nat, d_2023_01_01, Some (given float_101), Some 100000)].
Proof. vm_compute. reflexivity. Qed.

Example ingest_test_statements :
  map (fun s => (Stmt_stock_id s, Stmt_period_type s, Stmt_period_end_date s,
                 total_revenue (Stmt_fields s), net_income (Stmt_fields s),
                 gross_profit (Stmt_fields s)))
      (financial_statements (db world_after_test))
  = [(1%nat, "annual", d_2023_12_31, Some 10000, Some 2000, Some 6000);
     (1%nat, "quarterly", d_2024_03_31, Some 2500, Some 500, None)].
Proof. vm_compute. reflexivity. Qed.

Example ingest_test_console :
  console world_after_test
  = [Debug_fetch_called "TEST"; Saved_daily_prices 1;
     Saved_statements "annual"; Saved_statements "quarterly"].
Proof. vm_compute. reflexivity. Qed.

(** The bulk scenario: a known symbol, an unknown one, one on which the
    provider fails, and the known one again. *)
Example bulk_scenario :
  console (exec (run_bulk_fetch_job test_yf ["TEST"; "B"; "ERR"; "TEST"])
                initial_world)
  = [Debug_bulk_received ["TEST"; "B"; "ERR"; "TEST"]; Starting_bulk 4;
     Fetching "TEST"; Debug_fetch_called "TEST"; Saved_daily_prices 1;
     Saved_statements "annual"; Saved_statements "quarterly";
     Successfully_saved "TEST";
     Fetching "B"; Debug_fetch_called "B"; Could_not_fetch_info "B";
     Failed_to_fetch "B";
     Fetching "ERR"; Debug_fetch_called "ERR";
     Error_occurred "ERR" (ProviderError "timeout");
     Fetching "TEST"; Debug_fetch_called "TEST"; Saved_daily_prices 0;
     Saved_statements "annual"; Saved_statements "quarterly";
     Successfully_saved "TEST";
     Bulk_finished; Summary 2 2].
Proof. vm_compute. reflexivity. Qed.

Example bulk_scenario_database :
  db (exec (run_bulk_fetch_job test_yf ["TEST"; "B"; "ERR"; "TEST"]) initial_world)
  = db world_after_test.
Proof. vm_compute. reflexivity. Qed.

(** A batch whose first symbol the database refuses: the session of the
    job is left unusable, the known symbol after it fails as well, and
    nothing is stored. *)
Example bulk_scenario_refused :
  console (exec (run_bulk_fetch_job big_yf ["BIG"; "TEST"]) initial_world)
  = [Debug_bulk_received ["BIG"; "TEST"]; Starting_bulk 2;
     Fetching "BIG"; Debug_fetch_called "BIG";
     Error_occurred "BIG" DataError;
     Fetching "TEST"; Debug_fetch_called "TEST";
     Error_occurred "TEST" PendingRollbackError;
     Bulk_finished; Summary 0 2]
  /\ db (exec (run_bulk_fetch_job big_yf ["BIG"; "TEST"]) initial_world)
     = empty_database.
Proof. vm_compute. split; reflexivity. Qed.

(* ================================================================== *)
(** * The theorems at the test data *)
(* ================================================================== *)


(** C3 at the annual frame of the tests, merged for a stock that holds a
    quarterly statement of the same end date: the annual row is
    inserted. *)
Lemma save_financials_first_write_wins_witness :
  let w := exec (create_stock fin_stock ;;;
                 _save_financials_from_df 1 test_financials "quarterly")
                initial_world in
  String.eqb "annual" "" = false /\
  is_nil (df_index test_financials) = false /\
  forallb storable_statement
    (new_statement_rows 1 "annual" (db w) (iterrows (df_T test_financials)))
    = true /\
  exists inserted,
    financial_statements
      (db (exec (_save_financials_from_df 1 test_financials "annual") w))
    = (financial_statements (db w) ++ inserted)%list /\
    exists s, In s inserted /\ Stmt_period_end_date s = d_2023_12_31.
Proof.
  cbv zeta.
  split; [reflexivity |]. split; [reflexivity |]. split; [vm_compute; reflexivity |].
  destruct (save_financials_first_write_wins 1 test_financials "annual"
              (exec (create_stock fin_stock ;;;
                     _save_financials_from_df 1 test_financials "quarterly")
                    initial_world))
    as (_ & _ & _ & inserted & Hi & _ & _ & _ & Hrow & _).
  - reflexivity.
  - reflexivity.
  - vm_compute. reflexivity.
  - exists inserted. split; [exact Hi |].
    specialize (Hrow (day d_2023_12_31,
                      mkSeries (df_columns (df_T test_financials))
                               (df_at (df_T test_financials) (day d_2023_12_31)))
                     (or_introl eq_refl)).
    exact Hrow.
Defined.

(** C6 at a symbol the test provider does not know. *)
Lemma fetch_unknown_symbol_writes_nothing_witness :
  ticker_info (test_yf "NOPE") = Ok None /\
  info_unusable None = true /\
  eval (fetch_and_save_yfinance_data test_yf "NOPE") world_after_test = Ok None /\
  db (exec (fetch_and_save_yfinance_data test_yf "NOPE") world_after_test)
  = db world_after_test.
Proof.
  split; [reflexivity |]. split; [reflexivity |].
  apply (fetch_unknown_symbol_writes_nothing test_yf "NOPE" world_after_test None);
    reflexivity.
Defined.

(* ================================================================== *)
(** * Consistency of every reachable database *)
(* ================================================================== *)

Section Triples.
Context {A B : Type}.

Lemma triple_ret (a : A) (Q : A -> database -> Prop) (E : database -> Prop) :
  triple (Q a) (ret a) Q E.
Proof. intros w H. exact H. Qed.

Lemma triple_raise (e : exn) (Q : A -> database -> Prop) (E : database -> Prop) :
  triple E (raise e) Q E.
Proof. intros w H. exact H. Qed.

Lemma triple_lift (r : result A) (P E : database -> Prop) :
  (forall d, P d -> E d) ->
  triple P (lift r) (fun a d => P d /\ r = Ok a) E.
Proof. intros HE w H. unfold lift. destruct r; cbn; auto. Qed.

Lemma triple_query (q : database -> A) (P : database -> Prop) (E : database -> Prop) :
  triple P (query q) (fun a d => P d /\ a = q d) E.
Proof. intros w H. cbn. auto. Qed.

Lemma triple_bind (m : M A) (k : A -> M B) (P : database -> Prop)
  (R : A -> database -> Prop) (Q : B -> database -> Prop) (E : database -> Prop) :
  triple P m R E -> (forall a, triple (R a) (k a) Q E) ->
  triple P (bind m k) Q E.
Proof.
  intros Hm Hk w H. specialize (Hm w H). unfold bind.
  destruct (m w) as [w1 [a | e]]; [apply (Hk a w1 Hm) | exact Hm].
Qed.

Lemma triple_weaken (m : M A) (P P' : database -> Prop)
  (Q Q' : A -> database -> Prop) (E E' : database -> Prop) :
  triple P m Q E ->
  (forall d, P' d -> P d) -> (forall a d, Q a d -> Q' a d) ->
  (forall d, E d -> E' d) ->
  triple P' m Q' E'.
Proof.
  intros Hm HP HQ HE w H. specialize (Hm w (HP _ H)).
  destruct (m w) as [w1 [a | e]]; auto.
Qed.

Lemma triple_try_except (body : M A) (handler : exn -> M A)
  (P : database -> Prop) (Q : A -> database -> Prop) (E E' : database -> Prop) :
  triple P body Q E' -> (forall e, triple E' (handler e) Q E) ->
  triple P (try_except body handler) Q E.
Proof.
  intros Hb Hh w H. specialize (Hb w H). unfold try_except.
  destruct (body w) as [w1 [a | e]]; [exact Hb | apply (Hh e w1 Hb)].
Qed.
End Triples.

Lemma triple_print (msg : message) (P : database -> Prop) (E : database -> Prop) :
  triple P (print msg) (fun _ => P) E.
Proof. intros w H. exact H. Qed.

Lemma triple_commit (f : database -> database) (P : database -> Prop)
  (Q : unit -> database -> Prop) (E : database -> Prop) :
  (forall d, P d -> Q tt (f d)) -> triple P (commit f) Q E.
Proof. intros Hf w H. cbn. auto. Qed.

Lemma triple_for_each {A : Type} (l : list A) (body : A -> M unit)
  (I : database -> Prop) (E : database -> Prop) :
  (forall x, triple I (body x) (fun _ => I) E) ->
  triple I (for_each l body) (fun _ => I) E.
Proof.
  intros Hb. induction l as [| x l IH]; cbn [for_each].
  - apply (triple_ret tt (fun _ => I)).
  - eapply triple_bind; [apply Hb | intros u; exact IH].
Qed.

Lemma distinct_nat_NoDup (l : list nat) : distinct_nat l = true <-> NoDup l.
Proof.
  induction l as [| x l IH]; cbn.
  - split; [constructor | reflexivity].
  - rewrite andb_true_iff, negb_true_iff, IH. split.
    + intros [Hx Hl]. constructor; [| assumption].
      intros Hin. apply existsb_eqb_In in Hin. congruence.
    + intros H. apply NoDup_cons_iff in H as [Hx Hl]. split; [| assumption].
      destruct (existsb (Nat.eqb x) l) eqn:E; [| reflexivity].
      apply existsb_eqb_In in E. contradiction.
Qed.

Lemma existsb_streqb_In (x : string) (l : list string) :
  existsb (String.eqb x) l = true <-> In x l.
Proof.
  rewrite existsb_exists. split.
  - intros [y [Hy E]]. apply String.eqb_eq in E. now subst.
  - intros H. exists x. split; [assumption | apply String.eqb_refl].
Qed.

Lemma distinct_string_NoDup (l : list string) : distinct_string l = true <-> NoDup l.
Proof.
  induction l as [| x l IH]; cbn.
  - split; [constructor | reflexivity].
  - rewrite andb_true_iff, negb_true_iff, IH. split.
    + intros [Hx Hl]. constructor; [| assumption].
      intros Hin. apply existsb_streqb_In in Hin. congruence.
    + intros H. apply NoDup_cons_iff in H as [Hx Hl]. split; [| assumption].
      destruct (existsb (String.eqb x) l) eqn:E; [| reflexivity].
      apply existsb_streqb_In in E. contradiction.
Qed.

(** Consistency, as propositions. *)
Lemma consistent_spec (d : database) :
  consistent d = true <->
  NoDup (stock_ids d) /\
  NoDup (stock_codes d) /\
  (forall p, In p (daily_stock_prices d) -> In (Price_stock_id p) (stock_ids d)) /\
  (forall s, In s (financial_statements d) -> In (Stmt_stock_id s) (stock_ids d)).
Proof.
  unfold consistent.
  rewrite !andb_true_iff, distinct_nat_NoDup, distinct_string_NoDup,
    !forallb_forall.
  split.
  - intros [[[H1 H2] H3] H4]. repeat split; try assumption.
    + intros p Hp. apply existsb_eqb_In. now apply H3.
    + intros s Hs. apply existsb_eqb_In. now apply H4.
  - intros (H1 & H2 & H3 & H4). repeat split; try assumption.
    + intros p Hp. apply existsb_eqb_In. now apply H3.
    + intros s Hs. apply existsb_eqb_In. now apply H4.
Qed.

Lemma NoDup_snoc {A : Type} (l : list A) (x : A) :
  NoDup l -> ~ In x l -> NoDup (l ++ [x]).
Proof.
  induction l as [| y l IH]; cbn; intros Hl Hx.
  - constructor; [intros [] | constructor].
  - apply NoDup_cons_iff in Hl as [Hy Hl]. constructor.
    + rewrite in_app_iff. cbn. intros [H | [H | []]]; [contradiction |].
      apply Hx. now left.
    + apply IH; [assumption |]. intros H. apply Hx. now right.
Qed.

Lemma code_taken_In (c : string) (d : database) :
  code_taken c d = true <-> In c (stock_codes d).
Proof.
  unfold code_taken, stock_codes. rewrite existsb_exists, in_map_iff. split.
  - intros [s [Hs E]]. apply String.eqb_eq in E. eauto.
  - intros [s [E Hs]]. exists s. split; [assumption | now apply String.eqb_eq].
Qed.

Lemma consistent_insert_stock (d : database) (md : StockCreate) :
  consistent d = true -> code_taken (code md) d = false ->
  holds_stock (next_id (stock_ids d))
              (insert_stock (mkStock (next_id (stock_ids d)) md) d).
Proof.
  intros Hc Hfree. apply consistent_spec in Hc as (H1 & H2 & H3 & H4).
  assert (Hids : stock_ids (insert_stock (mkStock (next_id (stock_ids d)) md) d)
                 = (stock_ids d ++ [next_id (stock_ids d)])%list).
  { unfold stock_ids, insert_stock. cbn. now rewrite map_app. }
  split.
  - apply consistent_spec. rewrite Hids. repeat split.
    + apply NoDup_snoc; [assumption | apply next_id_fresh].
    + unfold stock_codes, insert_stock. cbn. rewrite map_app. cbn.
      apply NoDup_snoc; [assumption |].
      intros Hin. apply code_taken_In in Hin. congruence.
    + intros p Hp. apply in_or_app. left. now apply H3.
    + intros s Hs. apply in_or_app. left. now apply H4.
  - rewrite Hids. apply in_or_app. right. now left.
Qed.

(** An [UPDATE] of the row found under the code it keeps changes neither
    the primary keys nor the codes. *)
Lemma update_keeps_keys (d : database) (md : StockCreate) (s : Stock) :
  NoDup (stock_ids d) ->
  get_stock_by_code (code md) d = Some s ->
  stock_ids (update_stock_row (mkStock (Stock_id s) md) d) = stock_ids d /\
  stock_codes (update_stock_row (mkStock (Stock_id s) md) d) = stock_codes d.
Proof.
  intros Hnd Hf. unfold get_stock_by_code in Hf.
  pose proof (find_some _ _ Hf) as [Hin Hcode]. apply String.eqb_eq in Hcode.
  unfold stock_ids, stock_codes, update_stock_row. cbn. rewrite !map_map.
  split; apply map_ext_in; intros x Hx;
    destruct (Nat.eqb (Stock_id x) (Stock_id s)) eqn:E; cbn; try reflexivity.
  - apply Nat.eqb_eq in E. now symmetry.
  - apply Nat.eqb_eq in E.
    assert (x = s); [| now subst].
    unfold stock_ids in Hnd. clear Hf Hcode.
    induction (stocks d) as [| y l IH]; [destruct Hin |].
    cbn in Hnd. apply NoDup_cons_iff in Hnd as [Hy Hl].
    destruct Hin as [-> | Hin], Hx as [-> | Hx]; auto.
    + exfalso. apply Hy. rewrite <- E. now apply in_map.
    + exfalso. apply Hy. rewrite E. now apply in_map.
Qed.

Lemma consistent_update_stock (d : database) (md : StockCreate) (s : Stock) :
  consistent d = true ->
  get_stock_by_code (code md) d = Some s ->
  holds_stock (Stock_id s) (update_stock_row (mkStock (Stock_id s) md) d).
Proof.
  intros Hc Hf. apply consistent_spec in Hc as (H1 & H2 & H3 & H4).
  destruct (update_keeps_keys d md s H1 Hf) as [Hids Hcodes].
  assert (Hin : In (Stock_id s) (stock_ids d)).
  { unfold get_stock_by_code in Hf. apply find_some in Hf as [Hin _].
    now apply in_map. }
  split.
  - apply consistent_spec. rewrite Hids, Hcodes. repeat split; assumption.
  - now rewrite Hids.
Qed.

Lemma consistent_insert_prices (d : database) (stock_id : nat)
  (ps : list DailyStockPriceCreate) :
  holds_stock stock_id d -> holds_stock stock_id (insert_prices stock_id ps d).
Proof.
  intros [Hc Hin]. apply consistent_spec in Hc as (H1 & H2 & H3 & H4).
  split; [| exact Hin].
  apply consistent_spec. repeat split; try assumption.
  intros p Hp. cbn in Hp. apply in_app_or in Hp as [Hp | Hp].
  - now apply H3.
  - apply number_prices_stock_id in Hp. now rewrite Hp.
Qed.

Lemma consistent_insert_statement (d : database) (i stock_id : nat)
  (st : FinancialStatementCreate) :
  holds_stock stock_id d ->
  holds_stock stock_id (insert_statement (mkFinancialStatement i stock_id st) d).
Proof.
  intros [Hc Hin]. apply consistent_spec in Hc as (H1 & H2 & H3 & H4).
  split; [| exact Hin].
  apply consistent_spec. repeat split; try assumption.
  intros s Hs. cbn in Hs. apply in_app_or in Hs as [Hs | [<- | []]].
  - now apply H4.
  - exact Hin.
Qed.

Lemma triple_exec {A : Type} (m : M A) (P : database -> Prop) (w : world) :
  triple P m (fun _ => P) P -> P (db w) -> P (db (exec m w)).
Proof.
  intros Hm H. specialize (Hm w H). unfold exec.
  destruct (m w) as [w1 [a | e]]; exact Hm.
Qed.

Lemma create_stock_triple (md : StockCreate) :
  triple (fun d => consistent d = true) (create_stock md)
         (fun r d => holds_stock (Stock_id r) d)
         (fun d => consistent d = true).
Proof.
  intros w H. rewrite create_stock_run.
  destruct (fits_bigint (market_cap md)); [| exact H].
  destruct (code_taken (code md) (db w)) eqn:E; cbn.
  - exact H.
  - now apply consistent_insert_stock.
Qed.

Lemma upsert_stock_triple (stock : option Stock) (md : StockCreate) :
  triple (fun d => consistent d = true /\ stock = get_stock_by_code (code md) d)
         (upsert_stock stock md)
         (fun r d => holds_stock (Stock_id r) d)
         (fun d => consistent d = true).
Proof.
  intros w [Hc Hs]. unfold upsert_stock. destruct stock as [s |].
  - run_monad. rewrite setattr_items_all. cbn. now apply consistent_update_stock.
  - now apply create_stock_triple.
Qed.

Lemma upsert_fetched_triple (stock : option Stock) (d0 : StockData) :
  triple (fun d => consistent d = true
                   /\ stock = get_stock_by_code (sd_code d0) d)
         (upsert_fetched stock d0)
         (fun r d => holds_stock (Stock_id r) d)
         (fun d => consistent d = true).
Proof.
  destruct (stock_data_cases d0) as [[md ->] | Hn].
  - rewrite upsert_fetched_named.
    destruct (fits_bigint (market_cap md)); [apply upsert_stock_triple |].
    intros w [Hc _]. exact Hc.
  - destruct (upsert_fetched_nameless stock d0 Hn) as [e He].
    intros w [Hc _]. rewrite He. exact Hc.
Qed.

Lemma merge_prices_triple (stock_id : nat) (hist : DataFrame Timestamp string) :
  triple (holds_stock stock_id) (merge_prices stock_id hist)
         (fun _ => holds_stock stock_id) (fun d => consistent d = true).
Proof.
  intros w H. rewrite merge_prices_run.
  destruct (df_empty hist); [exact H |].
  destruct (collect_prices _ _) as [ps | e]; [| apply H].
  destruct (forallb _ ps); [| apply H].
  destruct ps; cbn; [exact H | now apply consistent_insert_prices].
Qed.

Lemma save_statement_row_triple (stock_id : nat) (ptype : string)
  (item : Timestamp * Series) :
  triple (holds_stock stock_id) (save_statement_row stock_id ptype item)
         (fun _ => holds_stock stock_id) (fun d => consistent d = true).
Proof.
  intros w H. destruct item as [period_end row].
  unfold save_statement_row, create_financial_statement. run_monad.
  destruct (negb (is_nil _)); [exact H |].
  destruct (statement_of_row ptype period_end row) as [st | e]; [| apply H].
  destruct (forallb fits_bigint (statement_metrics st)); cbn.
  - now apply consistent_insert_statement.
  - apply H.
Qed.

Lemma save_financials_triple (stock_id : nat)
  (df : DataFrame string Timestamp) (ptype : string) :
  triple (holds_stock stock_id) (_save_financials_from_df stock_id df ptype)
         (fun _ => holds_stock stock_id) (fun d => consistent d = true).
Proof.
  unfold _save_financials_from_df.
  destruct (df_empty df).
  - apply (triple_ret tt (fun _ => holds_stock stock_id)).
  - eapply triple_bind.
    + apply triple_for_each. intros item. apply save_statement_row_triple.
    + intros u. apply triple_print.
Qed.

(** The ingestion of a symbol keeps the database consistent, however it
    ends. *)
Lemma fetch_and_save_triple (yf_Ticker : string -> Ticker) (ticker_symbol : string) :
  triple (fun d => consistent d = true)
         (fetch_and_save_yfinance_data yf_Ticker ticker_symbol)
         (fun _ d => consistent d = true) (fun d => consistent d = true).
Proof.
  unfold fetch_and_save_yfinance_data.
  eapply triple_bind; [apply triple_print | intros u].
  eapply triple_bind; [apply triple_lift; auto | intros info].
  destruct (info_unusable info).
  { eapply triple_bind; [apply triple_print | intros u'].
    eapply triple_weaken;
      [apply (triple_ret None (fun _ d => consistent d = true)
                         (fun d => consistent d = true)) | | |];
      cbn; tauto. }
  destruct info as [info |].
  2:{ eapply triple_bind; [apply triple_print | intros u'].
      eapply triple_weaken;
        [apply (triple_ret None (fun _ d => consistent d = true)
                           (fun d => consistent d = true)) | | |];
        cbn; tauto. }
  eapply triple_bind; [apply triple_query | intros stock].
  eapply triple_bind; [apply triple_lift; cbn; tauto | intros md].
  eapply triple_bind.
  { eapply triple_weaken; [apply (upsert_fetched_triple stock md) | | |].
    - intros d [[[Hc _] Hs] Hmd]. apply stock_data_sd_code in Hmd.
      rewrite Hmd. auto.
    - intros a d H. exact H.
    - intros d H. exact H. }
  intros s.
  eapply triple_bind; [apply triple_lift; intros d H; apply H | intros hist].
  eapply triple_bind.
  { eapply triple_weaken; [apply (merge_prices_triple (Stock_id s) hist) | | |].
    - intros d [H _]. exact H.
    - intros a d H. exact H.
    - intros d H. exact H. }
  intros u1.
  eapply triple_bind; [apply triple_lift; intros d H; apply H | intros annual].
  eapply triple_bind.
  { eapply triple_weaken;
      [apply (save_financials_triple (Stock_id s) annual "annual") | | |].
    - intros d [H _]. exact H.
    - intros a d H. exact H.
    - intros d H. exact H. }
  intros u2.
  eapply triple_bind; [apply triple_lift; intros d H; apply H | intros quarterly].
  eapply triple_bind.
  { eapply triple_weaken;
      [apply (save_financials_triple (Stock_id s) quarterly "quarterly") | | |].
    - intros d [H _]. exact H.
    - intros a d H. exact H.
    - intros d H. exact H. }
  intros u3.
  eapply triple_weaken;
    [apply (triple_ret (Some s) (fun _ d => holds_stock (Stock_id s) d)
                       (fun d => consistent d = true)) | | |].
  - intros d H. exact H.
  - intros a d H. apply H.
  - intros d H. exact H.
Qed.

(** On a failed session the ingestion writes nothing. *)
Lemma failed_session_run (yf_Ticker : string -> Ticker) (ticker_symbol : string)
  (w : world) :
  db (exec (fetch_and_save_on_failed_session yf_Ticker ticker_symbol) w) = db w.
Proof.
  unfold fetch_and_save_on_failed_session. run_monad.
  destruct (ticker_info (yf_Ticker ticker_symbol)) as [info | e]; [| reflexivity].
  destruct (info_unusable info); reflexivity.
Qed.

(** What the ingestion keeps, its run on the session of the job keeps. *)
Lemma job_ingestion_keeps (P : database -> Prop) (usable : bool)
  (yf_Ticker : string -> Ticker) (ticker_symbol : string) :
  triple P (fetch_and_save_yfinance_data yf_Ticker ticker_symbol)
         (fun _ => P) P ->
  triple P (job_ingestion usable yf_Ticker ticker_symbol) (fun _ => P) P.
Proof.
  intros Hfetch. destruct usable; [exact Hfetch |].
  intros w H.
  pose proof (failed_session_run yf_Ticker ticker_symbol w) as Hdb.
  unfold exec, job_ingestion in *.
  destruct (fetch_and_save_on_failed_session yf_Ticker ticker_symbol w)
    as [w1 [a | e]]; cbn in Hdb; now rewrite Hdb.
Qed.

Lemma job_ingestion_triple (usable : bool) (yf_Ticker : string -> Ticker)
  (ticker_symbol : string) :
  triple (fun d => consistent d = true)
         (job_ingestion usable yf_Ticker ticker_symbol)
         (fun _ d => consistent d = true) (fun d => consistent d = true).
Proof.
  apply (job_ingestion_keeps (fun d => consistent d = true)).
  apply fetch_and_save_triple.
Qed.

Lemma bulk_loop_triple (yf_Ticker : string -> Ticker) (tickers : list string) :
  forall state,
  triple (fun d => consistent d = true) (bulk_loop yf_Ticker tickers state)
         (fun _ d => consistent d = true) (fun d => consistent d = true).
Proof.
  induction tickers as [| t rest IH]; intros state; cbn [bulk_loop].
  - apply (triple_ret state (fun _ d => consistent d = true)).
  - eapply triple_bind; [| intros state'; apply IH].
    destruct state as [[s f] usable]. unfold bulk_step.
    eapply triple_try_except.
    + eapply triple_bind; [apply triple_print | intros u].
      eapply triple_bind; [apply job_ingestion_triple | intros stock].
      destruct stock as [st |].
      * eapply triple_bind; [apply triple_print | intros u'].
        apply (triple_ret (S s, f, usable) (fun _ d => consistent d = true)).
      * eapply triple_bind; [apply triple_print | intros u'].
        apply (triple_ret (s, S f, usable) (fun _ d => consistent d = true)).
    + intros e. eapply triple_bind; [apply triple_print | intros u].
      apply (triple_ret (s, S f, usable && negb (breaks_session e))
                        (fun _ d => consistent d = true)).
Qed.

Lemma run_bulk_fetch_job_triple (yf_Ticker : string -> Ticker)
  (tickers : list string) :
  triple (fun d => consistent d = true) (run_bulk_fetch_job yf_Ticker tickers)
         (fun _ d => consistent d = true) (fun d => consistent d = true).
Proof.
  unfold run_bulk_fetch_job.
  eapply triple_bind; [apply triple_print | intros u].
  eapply triple_bind; [apply triple_print | intros u'].
  eapply triple_bind; [apply bulk_loop_triple | intros [[s f] usable]].
  eapply triple_bind; [apply triple_print | intros u''].
  apply triple_print.
Qed.

Lemma route_create_stock_triple (stock : StockCreate) :
  triple (fun d => consistent d = true) (router.create_stock stock)
         (fun _ d => consistent d = true) (fun d => consistent d = true).
Proof.
  intros w H. unfold router.create_stock. run_monad.
  destruct (get_stock_by_code (code stock) (db w)); [exact H |].
  pose proof (create_stock_triple stock w H) as Hc.
  destruct (create_stock stock w) as [w1 [r | e]]; [apply Hc | exact Hc].
Qed.

Lemma route_create_financial_statement_triple (c : string)
  (statement : FinancialStatementCreate) :
  triple (fun d => consistent d = true)
         (router.create_financial_statement_for_stock c statement)
         (fun _ d => consistent d = true) (fun d => consistent d = true).
Proof.
  intros w H.
  unfold router.create_financial_statement_for_stock, create_financial_statement.
  run_monad.
  destruct (get_stock_by_code c (db w)) as [s |] eqn:E; [| exact H].
  destruct (forallb fits_bigint (statement_metrics statement)); [| exact H].
  cbn. apply (consistent_insert_statement (db w)). split; [exact H |].
  unfold get_stock_by_code in E. apply find_some in E as [Hin _].
  now apply in_map.
Qed.

Lemma route_fetch_and_save_triple (yf_Ticker : string -> Ticker)
  (ticker_symbol : string) :
  triple (fun d => consistent d = true)
         (router.fetch_and_save_from_yfinance yf_Ticker ticker_symbol)
         (fun _ d => consistent d = true) (fun d => consistent d = true).
Proof.
  unfold router.fetch_and_save_from_yfinance.
  eapply triple_bind; [apply fetch_and_save_triple | intros stock].
  destruct stock as [s |].
  - intros w H. exact H.
  - apply triple_raise.
Qed.

(** X19.  Every database the requests can produce from the empty one is
    consistent. *)
Theorem reachable_consistent (w : world) :
  reachable w -> consistent (db w) = true.
Proof.
  induction 1 as [| r w Hw IH]; [reflexivity |].
  destruct r; cbn [serve].
  - apply (triple_exec _ (fun d => consistent d = true) w
             (route_create_stock_triple stock) IH).
  - apply (triple_exec _ (fun d => consistent d = true) w
             (route_create_financial_statement_triple c statement) IH).
  - apply (triple_exec _ (fun d => consistent d = true) w
             (route_fetch_and_save_triple yf_Ticker ticker_symbol) IH).
  - apply (triple_exec _ (fun d => consistent d = true) w
             (run_bulk_fetch_job_triple yf_Ticker tickers) IH).
Qed.

(* ================================================================== *)
(** * Where the keys stay unique *)
(* ================================================================== *)

(** An empty answer of the existence query: no stored statement has the
    key. *)
Lemma no_existing_statement (stock_id : nat) (ptype : string) (pend : date)
  (d : database) (s : FinancialStatement) :
  is_nil (get_financial_statements stock_id (Some ptype) (Some pend) d) = true ->
  In s (financial_statements d) ->
  statement_key s <> (stock_id, ptype, pend).
Proof.
  intros Hnil Hs Hk. unfold statement_key in Hk. inversion Hk as [[H1 H2 H3]].
  apply is_nil_spec in Hnil.
  assert (Hin : In s (get_financial_statements stock_id (Some ptype) (Some pend) d)).
  { unfold get_financial_statements. apply (proj2 (in_order_by _ _ _)).
    cbn [truthy_date]. apply filter_In. split; [| now apply Z.eqb_eq].
    assert (H0 : In s (filter (fun s => Nat.eqb (Stmt_stock_id s) stock_id)
                              (financial_statements d))).
    { apply filter_In. split; [assumption | now apply Nat.eqb_eq]. }
    destruct (truthy_str (Some ptype)); [| exact H0].
    apply filter_In. split; [exact H0 | now apply String.eqb_eq]. }
  rewrite Hnil in Hin. destruct Hin.
Qed.

Lemma statement_of_row_key (ptype : string) (period_end : Timestamp)
  (row : Series) (st : FinancialStatementCreate) :
  statement_of_row ptype period_end row = Ok st ->
  period_type st = ptype /\ period_end_date st = Timestamp_date period_end.
Proof.
  intros H. apply statement_of_row_sanitized in H as (H1 & H2 & _). auto.
Qed.

Lemma save_statement_row_keeps_keys (stock_id : nat) (ptype : string)
  (item : Timestamp * Series) :
  triple keys_unique (save_statement_row stock_id ptype item)
         (fun _ => keys_unique) keys_unique.
Proof.
  intros w [Hp Hs]. destruct item as [period_end row].
  unfold save_statement_row, create_financial_statement. run_monad.
  destruct (is_nil (get_financial_statements _ _ _ (db w))) eqn:Hnil; cbn [negb];
    [| split; assumption].
  destruct (statement_of_row ptype period_end row) as [st | e] eqn:Hst;
    [| split; assumption].
  destruct (forallb fits_bigint (statement_metrics st)); [| split; assumption].
  cbn. split; [exact Hp |].
  unfold statement_keys_unique. cbn. rewrite map_app. cbn.
  apply NoDup_snoc; [exact Hs |].
  intros Hin. apply in_map_iff in Hin as [s [Hk Hin]].
  apply (no_existing_statement _ _ _ _ s Hnil Hin).
  rewrite Hk. unfold statement_key, Stmt_period_type, Stmt_period_end_date. cbn.
  destruct (statement_of_row_key _ _ _ _ Hst) as [-> ->]. reflexivity.
Qed.

Lemma save_financials_keeps_keys (stock_id : nat)
  (df : DataFrame string Timestamp) (ptype : string) :
  triple keys_unique (_save_financials_from_df stock_id df ptype)
         (fun _ => keys_unique) keys_unique.
Proof.
  unfold _save_financials_from_df.
  destruct (df_empty df).
  - apply (triple_ret tt (fun _ => keys_unique)).
  - eapply triple_bind.
    + apply triple_for_each. intros item. apply save_statement_row_keeps_keys.
    + intros u. apply triple_print.
Qed.

Lemma upsert_stock_keeps_keys (stock : option Stock) (md : StockCreate) :
  triple keys_unique (upsert_stock stock md) (fun _ => keys_unique) keys_unique.
Proof.
  intros w H. unfold upsert_stock. destruct stock as [s |].
  - run_monad. exact H.
  - rewrite create_stock_run.
    destruct (fits_bigint (market_cap md)), (code_taken (code md) (db w));
      exact H.
Qed.

Lemma upsert_fetched_keeps_keys (stock : option Stock) (d0 : StockData) :
  triple keys_unique (upsert_fetched stock d0) (fun _ => keys_unique) keys_unique.
Proof.
  destruct (stock_data_cases d0) as [[md ->] | Hn].
  - rewrite upsert_fetched_named.
    destruct (fits_bigint (market_cap md)); [apply upsert_stock_keeps_keys |].
    intros w H. exact H.
  - destruct (upsert_fetched_nameless stock d0 Hn) as [e He].
    intros w H. rewrite He. exact H.
Qed.

(** The days collected for writing are days of the frame after the
    latest stored one, in the order of the frame. *)
Lemma collect_prices_days (latest : option DailyStockPrice)
  (rows : list (Timestamp * Series)) (ps : list DailyStockPriceCreate) :
  collect_prices latest rows = Ok ps ->
  map price_date ps
  = map (fun item => Timestamp_date (fst item))
        (filter (fun item => negb (already_stored latest (fst item))) rows).
Proof.
  intros H. apply collect_prices_sound in H.
  induction H as [| item p l l' Hb _ IH]; cbn; [reflexivity |].
  destruct Hb as [Hb _]. now rewrite Hb, IH.
Qed.

Lemma NoDup_filter_map {A B : Type} (f : A -> B) (g : A -> bool) (l : list A) :
  NoDup (map f l) -> NoDup (map f (filter g l)).
Proof.
  induction l as [| x l IH]; cbn; intros H; [constructor |].
  apply NoDup_cons_iff in H as [Hx Hl].
  destruct (g x); cbn; [| now apply IH].
  constructor; [| now apply IH].
  intros Hin. apply Hx. apply in_map_iff in Hin as [y [Hy Hin]].
  apply filter_In in Hin as [Hin _]. apply in_map_iff. eauto.
Qed.

Lemma number_prices_keys (i stock_id : nat) (ps : list DailyStockPriceCreate) :
  map price_key (number_prices i stock_id ps)
  = map (fun p => (stock_id, price_date p)) ps.
Proof.
  revert i. induction ps as [| p ps IH]; intros i; [reflexivity |].
  rewrite number_prices_cons. cbn. now rewrite IH.
Qed.

Lemma merge_prices_keeps_keys (stock_id : nat) (hist : DataFrame Timestamp string) :
  NoDup (fetched_days hist) ->
  triple keys_unique (merge_prices stock_id hist) (fun _ => keys_unique) keys_unique.
Proof.
  intros Hdays w [Hp Hs]. rewrite merge_prices_run.
  destruct (df_empty hist); [split; assumption |].
  destruct (collect_prices _ _) as [ps | e] eqn:Hc; [| split; assumption].
  destruct (forallb _ ps); [| split; assumption].
  destruct ps as [| p ps]; cbn [is_nil db]; [split; assumption |].
  split; [| exact Hs].
  unfold price_keys_unique, insert_prices. cbn [daily_stock_prices].
  rewrite map_app, number_prices_keys.
  pose proof (collect_prices_days _ _ _ Hc) as Hd.
  apply NoDup_app.
  - exact Hp.
  - assert (Hnd : NoDup (map price_date (p :: ps))).
    { rewrite Hd. now apply NoDup_filter_map. }
    clear - Hnd. induction (p :: ps) as [| q l IH]; cbn; [constructor |].
    cbn in Hnd. apply NoDup_cons_iff in Hnd as [Hq Hl].
    constructor; [| now apply IH].
    intros Hin. apply Hq. apply in_map_iff in Hin as [y [Hy Hin]].
    inversion Hy as [Hdate]. apply in_map_iff. eauto.
  - (* a stored key of the stock is at or before the latest date *)
    intros k Hold Hnew.
    apply in_map_iff in Hold as [old [Hk Hold]].
    apply in_map_iff in Hnew as [q [Hq Hin]]. subst k.
    unfold price_key in Hq. inversion Hq as [[Hsid Hdate]].
    assert (Hq_days : In (price_date q) (map price_date (p :: ps)))
      by now apply in_map.
    rewrite Hd in Hq_days. apply in_map_iff in Hq_days as [item [Hi Hf]].
    apply filter_In in Hf as [_ Hf]. apply negb_true_iff in Hf.
    assert (Hof : In old (prices_of stock_id (db w))).
    { unfold prices_of. apply filter_In. split; [assumption |].
      apply Nat.eqb_eq. now symmetry. }
    destruct (latest_price_of stock_id (db w)) as [lp |] eqn:L.
    + apply latest_price_is_max in L as [_ Hmax]. specialize (Hmax old Hof).
      cbn in Hf. apply Z.leb_gt in Hf. lia.
    + apply latest_price_none in L. rewrite L in Hof. destruct Hof.
Qed.

Lemma fetch_and_save_keeps_keys (yf_Ticker : string -> Ticker)
  (ticker_symbol : string) :
  one_entry_per_day (yf_Ticker ticker_symbol) ->
  triple keys_unique (fetch_and_save_yfinance_data yf_Ticker ticker_symbol)
         (fun _ => keys_unique) keys_unique.
Proof.
  intros Hdays. unfold fetch_and_save_yfinance_data.
  eapply triple_bind; [apply triple_print | intros u].
  eapply triple_bind; [apply triple_lift; auto | intros info].
  destruct (info_unusable info).
  { eapply triple_bind; [apply triple_print | intros u'].
    eapply triple_weaken;
      [apply (triple_ret None (fun _ => keys_unique) keys_unique) | | |].
    - intros d [H _]. exact H.
    - intros a d H. exact H.
    - intros d H. exact H. }
  destruct info as [info |].
  2:{ eapply triple_bind; [apply triple_print | intros u'].
      eapply triple_weaken;
        [apply (triple_ret None (fun _ => keys_unique) keys_unique) | | |].
      - intros d [H _]. exact H.
      - intros a d H. exact H.
      - intros d H. exact H. }
  eapply triple_bind; [apply triple_query | intros stock].
  eapply triple_bind;
    [apply triple_lift; intros d [[H _] _]; exact H | intros md].
  eapply triple_bind.
  { eapply triple_weaken; [apply (upsert_fetched_keeps_keys stock md) | | |].
    - intros d [[[H _] _] _]. exact H.
    - intros a d H. exact H.
    - intros d H. exact H. }
  intros s.
  eapply triple_bind; [apply triple_lift; auto | intros hist].
  eapply triple_bind.
  { intros w [Hk Hh]. apply (merge_prices_keeps_keys (Stock_id s) hist); auto. }
  intros u1.
  eapply triple_bind; [apply triple_lift; auto | intros annual].
  eapply triple_bind.
  { eapply triple_weaken;
      [apply (save_financials_keeps_keys (Stock_id s) annual "annual") | | |].
    - intros d [H _]. exact H.
    - intros a d H. exact H.
    - intros d H. exact H. }
  intros u2.
  eapply triple_bind; [apply triple_lift; auto | intros quarterly].
  eapply triple_bind.
  { eapply triple_weaken;
      [apply (save_financials_keeps_keys (Stock_id s) quarterly "quarterly") | | |].
    - intros d [H _]. exact H.
    - intros a d H. exact H.
    - intros d H. exact H. }
  intros u3.
  apply (triple_ret (Some s) (fun _ => keys_unique)).
Qed.

Lemma bulk_loop_keeps_keys (yf_Ticker : string -> Ticker) (tickers : list string) :
  (forall t, In t tickers -> one_entry_per_day (yf_Ticker t)) ->
  forall counts,
  triple keys_unique (bulk_loop yf_Ticker tickers counts)
         (fun _ => keys_unique) keys_unique.
Proof.
  induction tickers as [| t rest IH]; intros Hdays counts; cbn [bulk_loop].
  - apply (triple_ret counts (fun _ => keys_unique)).
  - eapply triple_bind;
      [| intros counts'; apply IH; intros t' Ht'; apply Hdays; now right].
    destruct counts as [[s f] usable]. unfold bulk_step.
    eapply triple_try_except.
    + eapply triple_bind; [apply triple_print | intros u].
      eapply triple_bind;
        [apply job_ingestion_keeps, fetch_and_save_keeps_keys; apply Hdays;
         now left | intros stock].
      destruct stock as [st |].
      * eapply triple_bind; [apply triple_print | intros u'].
        apply (triple_ret (S s, f, usable) (fun _ => keys_unique)).
      * eapply triple_bind; [apply triple_print | intros u'].
        apply (triple_ret (s, S f, usable) (fun _ => keys_unique)).
    + intros e. eapply triple_bind; [apply triple_print | intros u].
      apply (triple_ret (s, S f, usable && negb (breaks_session e))
                        (fun _ => keys_unique)).
Qed.

(** X20.  The requests that go through the merges keep both keys unique. *)
Theorem merging_requests_keep_keys_unique (r : request) (w : world) :
  merging_request r -> keys_unique (db w) -> keys_unique (db (serve r w)).
Proof.
  intros Hr Hk. destruct r as [stock | c statement | yf t | yf ts];
    cbn [serve merging_request] in *.
  - (* POST /stocks/ *)
    unfold exec, router.create_stock. run_monad.
    destruct (get_stock_by_code (code stock) (db w)); [exact Hk |].
    rewrite create_stock_run.
    destruct (fits_bigint (market_cap stock)),
             (code_taken (code stock) (db w)); exact Hk.
  - destruct Hr.
  - (* POST /stocks/yfinance/{ticker_symbol} *)
    apply (triple_exec _ keys_unique w); [| exact Hk].
    unfold router.fetch_and_save_from_yfinance.
    eapply triple_bind; [apply (fetch_and_save_keeps_keys yf t Hr) | intros stock].
    destruct stock as [s |].
    + intros w' H. exact H.
    + apply triple_raise.
  - (* POST /stocks/yfinance/bulk *)
    apply (triple_exec _ keys_unique w); [| exact Hk].
    unfold run_bulk_fetch_job.
    eapply triple_bind; [apply triple_print | intros u].
    eapply triple_bind; [apply triple_print | intros u'].
    eapply triple_bind;
      [apply (bulk_loop_keeps_keys yf ts Hr) | intros [[s f] usable]].
    eapply triple_bind; [apply triple_print | intros u''].
    apply triple_print.
Qed.

(* ================================================================== *)
(** * Where the keys do not stay unique *)
(* ================================================================== *)

(** The price merge does not compare the fetched entries with each
    other: a history that lists one new day twice stores it twice. *)
Example doubled_history_duplicates_key :
  map price_key
      (daily_stock_prices (db (exec (merge_prices 1 doubled_hist) world_after_test)))
  = [(1%nat, d_2023_01_01); (1%nat, d_2023_01_02); (1%nat, d_2023_01_02)].
Proof. vm_compute. reflexivity. Qed.

(** C2 fails on the manual statement route.  The world after
    [POST /stocks/] for ["FIN"] and one [POST /stocks/FIN/financials/] is
    reachable and has unique keys; the same request once more is
    accepted (it returns the new row) and leaves two statements under
    the key (stock 1, annual, 2023-12-31). *)
Theorem manual_statement_route_duplicates_key :
  let w1 := serve (POST_financials "FIN" fs_payload)
              (serve (POST_stock fin_stock) initial_world) in
  let w2 := serve (POST_financials "FIN" fs_payload) w1 in
  reachable w1 /\ keys_unique (db w1) /\
  eval (router.create_financial_statement_for_stock "FIN" fs_payload) w1
  = Ok (mkFinancialStatement 2 1 fs_payload) /\
  reachable w2 /\
  map statement_key (financial_statements (db w2))
  = [(1%nat, "annual", d_2023_12_31); (1%nat, "annual", d_2023_12_31)] /\
  ~ statement_keys_unique (db w2).
Proof.
  cbv zeta. split; [| split; [| split; [| split; [| split]]]].
  - repeat constructor.
  - split.
    + unfold price_keys_unique. cbn. constructor.
    + unfold statement_keys_unique. cbn. constructor; [intros [] | constructor].
  - reflexivity.
  - repeat constructor.
  - reflexivity.
  - unfold statement_keys_unique. cbn. intros H.
    inversion H as [| k l Hnotin _]. apply Hnotin. now left.
Qed.

(* ================================================================== *)
(** * More on the sanitizer *)
(* ================================================================== *)

(** X1.  The sanitizer raises in two cases only, both out of
    [math.isfinite], which stands outside the [try]: [OverflowError] on
    an [int] too large for a double, and [TypeError] on an object that
    is no number; a float or [None] never raises.  The [try] around
    [int(value)] never has anything to catch: [int] returns on every
    value [math.isfinite] holds finite. *)
Theorem clean_financial_value_raises (v : pyval) :
  (forall e,
     _clean_financial_value v = Raise e <->
     (e = OverflowError /\
      exists z, v = VInt z /\ float_overflow_bound <= Z.abs z)
     \/ (e = TypeError /\ v = VOther)) /\
  match math_isfinite v with
  | Ok true => exists z, py_int v = Ok z
  | Ok false | Raise _ => True
  end.
Proof.
  split.
  - intros e. split.
    + destruct v as [| z | f |].
      * discriminate.
      * destruct (Z_lt_le_dec (Z.abs z) float_overflow_bound) as [L | L].
        -- rewrite (clean_int_in_range z L). discriminate.
        -- rewrite (clean_int_out_of_range z L). intros H. inversion H.
           left. eauto.
      * rewrite clean_float. destruct (f_val f); discriminate.
      * cbn. intros H. inversion H. now right.
    + intros [[-> [z [-> L]]] | [-> ->]];
        [now apply clean_int_out_of_range | reflexivity].
  - destruct v as [| z | f |]; cbn; try exact I.
    + destruct (int_fits_double z); [eauto | exact I].
    + unfold float_is_finite. destruct (f_val f); cbn; eauto.
Qed.

(* ================================================================== *)
(** * The queries *)
(* ================================================================== *)

Lemma insert_by_perm {A : Type} (before : A -> A -> bool) (x : A) (l : list A) :
  Permutation (insert_by before x l) (x :: l).
Proof.
  induction l as [| y l IH]; cbn; [apply Permutation_refl |].
  destruct (before x y); [apply Permutation_refl |].
  eapply Permutation_trans; [apply perm_skip, IH | apply perm_swap].
Qed.

Lemma order_by_perm {A : Type} (before : A -> A -> bool) (l : list A) :
  Permutation (order_by before l) l.
Proof.
  induction l as [| x l IH]; cbn; [apply perm_nil |].
  eapply Permutation_trans; [apply insert_by_perm | now apply perm_skip].
Qed.

Section Sorting.
Context {A : Type}.
Variable le : A -> A -> bool.
Hypothesis le_total : forall x y, le x y = true \/ le y x = true.
Hypothesis le_trans : forall x y z, le x y = true -> le y z = true -> le x z = true.

Lemma insert_by_sorted (x : A) (l : list A) :
  StronglySorted (fun a b => le a b = true) l ->
  StronglySorted (fun a b => le a b = true) (insert_by le x l).
Proof.
  induction 1 as [| y l Hs IH Hy]; cbn.
  - constructor; constructor.
  - destruct (le x y) eqn:E.
    + constructor; [now constructor |].
      constructor; [exact E |].
      rewrite Forall_forall in Hy |- *. intros z Hz. eapply le_trans; eauto.
    + constructor; [exact IH |].
      rewrite Forall_forall in Hy |- *. intros z Hz.
      apply in_insert_by in Hz as [-> | Hz]; [| now apply Hy].
      destruct (le_total x y) as [H | H]; [congruence | exact H].
Qed.

Lemma order_by_sorted (l : list A) :
  StronglySorted (fun a b => le a b = true) (order_by le l).
Proof.
  induction l as [| x l IH]; cbn; [constructor | now apply insert_by_sorted].
Qed.
End Sorting.

Lemma StronglySorted_weaken {A : Type} (R R' : A -> A -> Prop) (l : list A) :
  (forall x y, R x y -> R' x y) -> StronglySorted R l -> StronglySorted R' l.
Proof.
  intros H. induction 1 as [| x l Hs IH Hx]; constructor; [exact IH |].
  rewrite Forall_forall in Hx |- *. auto.
Qed.

Lemma order_by_asc_sorted {A : Type} (key : A -> Z) (l : list A) :
  StronglySorted (fun a b => key a <= key b) (order_by (asc key) l).
Proof.
  apply (StronglySorted_weaken (fun a b => asc key a b = true)).
  - intros x y H. now apply Z.leb_le.
  - apply order_by_sorted; unfold asc.
    + intros x y. rewrite !Z.leb_le. lia.
    + intros x y z. rewrite !Z.leb_le. lia.
Qed.

Lemma order_by_desc_sorted {A : Type} (key : A -> Z) (l : list A) :
  StronglySorted (fun a b => key b <= key a) (order_by (desc key) l).
Proof.
  apply (StronglySorted_weaken (fun a b => desc key a b = true)).
  - intros x y H. now apply Z.leb_le.
  - apply order_by_sorted; unfold desc.
    + intros x y. rewrite !Z.leb_le. lia.
    + intros x y z. rewrite !Z.leb_le. lia.
Qed.

Lemma filter_pointwise {A : Type} (f g : A -> bool) (l : list A) :
  (forall x, f x = g x) -> filter f l = filter g l.
Proof. intros H. now apply filter_ext. Qed.

Lemma get_daily_prices_filter (stock_id : nat) (start_date end_date : option date)
  (d : database) :
  get_daily_prices stock_id start_date end_date d
  = order_by (asc Price_date)
      (filter (fun p => Nat.eqb (Price_stock_id p) stock_id
                        && date_in_range start_date end_date (Price_date p))
              (daily_stock_prices d)).
Proof.
  unfold get_daily_prices, date_in_range. f_equal.
  destruct start_date as [s |], end_date as [e |]; rewrite ?filter_filter;
    apply filter_pointwise; intros p;
    destruct (Nat.eqb (Price_stock_id p) stock_id); cbn;
    rewrite ?andb_true_r; reflexivity.
Qed.

(** X4.  The price query answers with the rows of the stock whose date lies
    in the range, each as often as it is stored, in ascending order of
    date. *)
Theorem get_daily_prices_sorted_complete (stock_id : nat)
  (start_date end_date : option date) (d : database) :
  let answer := get_daily_prices stock_id start_date end_date d in
  StronglySorted (fun p q => Price_date p <= Price_date q) answer /\
  Permutation answer
    (filter (fun p => Nat.eqb (Price_stock_id p) stock_id
                      && date_in_range start_date end_date (Price_date p))
            (daily_stock_prices d)) /\
  (forall p, In p answer <->
     In p (daily_stock_prices d) /\ Price_stock_id p = stock_id /\
     (forall s, start_date = Some s -> s <= Price_date p) /\
     (forall e, end_date = Some e -> Price_date p <= e)).
Proof.
  cbv zeta. rewrite get_daily_prices_filter.
  split; [apply order_by_asc_sorted |]. split; [apply order_by_perm |].
  intros p. rewrite in_order_by, filter_In, andb_true_iff, Nat.eqb_eq.
  unfold date_in_range. rewrite andb_true_iff.
  destruct start_date as [s |], end_date as [e |]; rewrite ?Z.leb_le; split.
  all: try (intros (H1 & H2 & H3 & H4); repeat split; auto;
            intros x Hx; inversion Hx; subst; assumption).
  all: intros (H1 & H2 & H3 & H4); repeat split; auto; discriminate.
Qed.

Lemma get_financial_statements_filter (stock_id : nat) (ptype : option string)
  (pend : option date) (d : database) :
  get_financial_statements stock_id ptype pend d
  = order_by (desc Stmt_period_end_date)
      (filter (fun s => Nat.eqb (Stmt_stock_id s) stock_id
                        && statement_matches ptype pend s)
              (financial_statements d)).
Proof.
  unfold get_financial_statements, statement_matches, truthy_str, truthy_date.
  f_equal.
  destruct ptype as [t |], pend as [e |];
    try destruct (String.eqb t "") eqn:Et; cbn [negb orb];
    rewrite ?filter_filter; apply filter_pointwise; intros s;
    destruct (Nat.eqb (Stmt_stock_id s) stock_id); cbn;
    rewrite ?andb_true_r; reflexivity.
Qed.

(** X5.  The statement query answers with the statements of the stock that
    have the period type, when a non-empty one is given, and the end
    date, when one is given, each as often as it is stored, latest end
    date first.  An empty period type filters nothing. *)
Theorem get_financial_statements_sorted_complete (stock_id : nat)
  (ptype : option string) (pend : option date) (d : database) :
  let answer := get_financial_statements stock_id ptype pend d in
  StronglySorted (fun s s' => Stmt_period_end_date s' <= Stmt_period_end_date s)
                 answer /\
  Permutation answer
    (filter (fun s => Nat.eqb (Stmt_stock_id s) stock_id
                      && statement_matches ptype pend s)
            (financial_statements d)) /\
  (forall s, In s answer <->
     In s (financial_statements d) /\ Stmt_stock_id s = stock_id /\
     (forall t, ptype = Some t -> t <> "" -> Stmt_period_type s = t) /\
     (forall e, pend = Some e -> Stmt_period_end_date s = e)) /\
  get_financial_statements stock_id (Some "") pend d
  = get_financial_statements stock_id None pend d.
Proof.
  cbv zeta. rewrite !get_financial_statements_filter.
  split; [apply order_by_desc_sorted |]. split; [apply order_by_perm |].
  split; [| reflexivity].
  intros s. rewrite in_order_by, filter_In, andb_true_iff, Nat.eqb_eq.
  unfold statement_matches. rewrite andb_true_iff.
  assert (Htype : match ptype with
                  | Some t => String.eqb t "" || String.eqb (Stmt_period_type s) t
                  | None => true
                  end = true
                  <-> forall t, ptype = Some t -> t <> "" -> Stmt_period_type s = t).
  { destruct ptype as [t |]; [| split; [discriminate | reflexivity]].
    rewrite orb_true_iff, !String.eqb_eq. split.
    - intros [H | H] t' Ht' Hne; inversion Ht'; subst; [contradiction | reflexivity].
    - intros H. destruct (String.eqb_spec t ""); [now left | right; now apply H]. }
  assert (Hdate : match pend with
                  | Some e => Stmt_period_end_date s =? e
                  | None => true
                  end = true
                  <-> forall e, pend = Some e -> Stmt_period_end_date s = e).
  { destruct pend as [e |]; [| split; [discriminate | reflexivity]].
    rewrite Z.eqb_eq. split.
    - intros H e' He'. inversion He'. now subst.
    - intros H. now apply H. }
  rewrite Htype, Hdate. tauto.
Qed.

(** X6.  The latest-price query of the ingestion answers with nothing exactly
    when the stock has no stored price, and otherwise with a stored row
    of the stock that no other row of the stock is dated after. *)
Theorem latest_price_query (stock_id : nat) (d : database) :
  (latest_price_of stock_id d = None <->
   forall p, In p (daily_stock_prices d) -> Price_stock_id p <> stock_id) /\
  (forall lp, latest_price_of stock_id d = Some lp ->
     In lp (daily_stock_prices d) /\ Price_stock_id lp = stock_id /\
     Some (Price_date lp) = latest_persisted_date stock_id d /\
     forall p, In p (daily_stock_prices d) -> Price_stock_id p = stock_id ->
               Price_date p <= Price_date lp).
Proof.
  split.
  - rewrite latest_price_none. unfold prices_of. split.
    + intros H p Hp E. apply Nat.eqb_eq in E.
      assert (Hin : In p (filter (fun p => Nat.eqb (Price_stock_id p) stock_id)
                                 (daily_stock_prices d)))
        by (apply filter_In; auto).
      rewrite H in Hin. destruct Hin.
    + intros H. apply filter_none. intros p Hp. apply Nat.eqb_neq. now apply H.
  - intros lp L. pose proof (latest_price_date stock_id d) as Hd.
    rewrite L in Hd. cbn in Hd.
    apply latest_price_is_max in L as [Hin Hmax].
    unfold prices_of in Hin, Hmax. apply filter_In in Hin as [Hin Hs].
    apply Nat.eqb_eq in Hs. repeat split; try assumption.
    intros p Hp E. apply Hmax. apply filter_In. split; [assumption |].
    now apply Nat.eqb_eq.
Qed.

(* ================================================================== *)
(** * Lookup and listing of stocks *)
(* ================================================================== *)

Lemma find_code_unique (c : string) (l : list Stock) (s : Stock) :
  NoDup (map (fun s => code (Stock_fields s)) l) ->
  In s l -> code (Stock_fields s) = c ->
  find (fun x => String.eqb (code (Stock_fields x)) c) l = Some s.
Proof.
  induction l as [| x l IH]; cbn; intros Hnd Hin Hc; [destruct Hin |].
  apply NoDup_cons_iff in Hnd as [Hx Hnd].
  destruct (String.eqb (code (Stock_fields x)) c) eqn:E.
  - apply String.eqb_eq in E. destruct Hin as [-> | Hin]; [reflexivity |].
    exfalso. apply Hx. rewrite E, <- Hc.
    now apply (in_map (fun s => code (Stock_fields s))).
  - destruct Hin as [-> | Hin]; [| now apply IH].
    apply String.eqb_neq in E. contradiction.
Qed.

(** X2.  In a consistent database the lookup by code finds a stock exactly
    when it is stored under that code, and finds nothing exactly when no
    stored stock has the code. *)
Theorem get_stock_by_code_finds_stored (c : string) (d : database) :
  consistent d = true ->
  (forall s, get_stock_by_code c d = Some s <->
             In s (stocks d) /\ code (Stock_fields s) = c) /\
  (get_stock_by_code c d = None <->
   forall s, In s (stocks d) -> code (Stock_fields s) <> c).
Proof.
  intros Hc. apply consistent_spec in Hc as (_ & Hcodes & _ & _).
  unfold get_stock_by_code. split.
  - intros s. split.
    + intros H. apply find_some in H as [Hin E]. now apply String.eqb_eq in E.
    + intros [Hin E]. now apply find_code_unique.
  - split.
    + intros H s Hin E. apply (find_none _ _ H) in Hin.
      apply String.eqb_neq in Hin. contradiction.
    + intros H. destruct (find _ (stocks d)) as [s |] eqn:F; [| reflexivity].
      apply find_some in F as [Hin E]. apply String.eqb_eq in E.
      destruct (H s Hin E).
Qed.

Lemma get_stock_by_code_finds_stored_witness :
  consistent (db world_after_test) = true /\
  exists s, get_stock_by_code "TEST" (db world_after_test) = Some s /\
            In s (stocks (db world_after_test)).
Proof.
  split; [vm_compute; reflexivity |].
  destruct (get_stock_by_code "TEST" (db world_after_test)) as [s |] eqn:E.
  - exists s. split; [reflexivity |].
    apply (get_stock_by_code_finds_stored "TEST" (db world_after_test)
             ltac:(vm_compute; reflexivity)) in E.
    apply E.
  - vm_compute in E. discriminate.
Defined.

(** X3.  Pages of the stock listing: a page holds at most [limit] stocks and
    is short only at the end of the table; a page followed by the next
    page is the page of both; one page of the size of the table is the
    table; a page from beyond the end is empty. *)
Theorem get_all_stocks_pages (skip limit limit' : nat) (d : database) :
  List.length (get_all_stocks skip limit d)
  = Nat.min limit (List.length (stocks d) - skip) /\
  (get_all_stocks skip limit d ++ get_all_stocks (skip + limit) limit' d)%list
  = get_all_stocks skip (limit + limit') d /\
  get_all_stocks 0 (List.length (stocks d)) d = stocks d /\
  (List.length (stocks d) <= skip -> get_all_stocks skip limit d = [])%nat.
Proof.
  unfold get_all_stocks. repeat split.
  - now rewrite length_firstn, length_skipn.
  - rewrite <- (firstn_skipn limit (firstn (limit + limit') (skipn skip (stocks d)))).
    f_equal.
    + rewrite firstn_firstn. f_equal. lia.
    + rewrite skipn_firstn_comm, skipn_skipn. f_equal; [lia |]. f_equal. lia.
  - cbn. apply firstn_all.
  - intros H. rewrite skipn_all2 by exact H. now destruct limit.
Qed.

(* ================================================================== *)
(** * The manual routes *)
(* ================================================================== *)

Lemma route_get_stock_run (c : string) (w : world) :
  router.get_stock c w =
  match get_stock_by_code c (db w) with
  | None => (w, Raise (router.stock_not_found c))
  | Some s => (w, Ok (s, prices_of (Stock_id s) (db w),
                      statements_of (Stock_id s) (db w)))
  end.
Proof.
  unfold router.get_stock. run_monad.
  destruct (get_stock_by_code c (db w)); reflexivity.
Qed.

(** X8.  [POST /stocks/] in a consistent database.  A code that is stored is
    refused with status 400 and its detail, and the world stays as it
    is.  A code that is not stored, with a market capitalisation the
    column holds, gives a new stock with the posted fields under a
    primary key no stock had, appended to the table;
    [GET /stocks/{code}] then answers with this stock and no prices and
    no statements, and the same [POST] once more is refused.  With a
    market capitalisation outside the 64 bits of the column the insert
    raises and the world stays as it is. *)
Theorem route_create_stock_once (stock : StockCreate) (w : world) :
  consistent (db w) = true ->
  let w' := exec (router.create_stock stock) w in
  let already_exists :=
    HTTPException 400
      (String.append "Stock with code "
         (String.append (code stock) " already exists")) in
  match get_stock_by_code (code stock) (db w) with
  | Some _ =>
      eval (router.create_stock stock) w = Raise already_exists /\
      w' = w
  | None =>
      if fits_bigint (market_cap stock)
      then
        exists s,
          eval (router.create_stock stock) w = Ok s /\
          Stock_fields s = stock /\
          ~ In (Stock_id s) (stock_ids (db w)) /\
          stocks (db w') = (stocks (db w) ++ [s])%list /\
          daily_stock_prices (db w') = daily_stock_prices (db w) /\
          financial_statements (db w') = financial_statements (db w) /\
          eval (router.get_stock (code stock)) w' = Ok (s, [], []) /\
          eval (router.create_stock stock) w' = Raise already_exists
      else
        eval (router.create_stock stock) w = Raise DataError /\
        w' = w
  end.
Proof.
  intros Hc. cbv zeta.
  destruct (get_stock_by_code (code stock) (db w)) as [s0 |] eqn:E.
  - unfold eval, exec, router.create_stock. run_monad. rewrite E.
    split; reflexivity.
  - destruct (fits_bigint (market_cap stock)) eqn:Hfits.
    2:{ unfold eval, exec, router.create_stock. run_monad.
        rewrite E, create_stock_run, Hfits. split; reflexivity. }
    set (s := mkStock (next_id (stock_ids (db w))) stock).
    assert (Hrun : router.create_stock stock w
                   = (mkWorld (insert_stock s (db w)) (console w), Ok s)).
    { unfold router.create_stock. run_monad.
      rewrite E, create_stock_run, Hfits, (code_taken_none _ _ E). reflexivity. }
    assert (Hfound : get_stock_by_code (code stock) (insert_stock s (db w)) = Some s).
    { unfold get_stock_by_code in *. cbn. now apply find_code_after_insert. }
    exists s. unfold eval, exec. rewrite Hrun. cbn [fst snd db].
    split; [reflexivity |]. split; [reflexivity |].
    split; [apply next_id_fresh |].
    split; [reflexivity |]. split; [reflexivity |]. split; [reflexivity |].
    split.
    + rewrite route_get_stock_run. cbn [db]. rewrite Hfound. cbn [snd].
      destruct (no_history_of_unknown_id (db w) (Stock_id s) Hc (next_id_fresh _))
        as [Hp Hs].
      unfold prices_of, statements_of in *. cbn in *. now rewrite Hp, Hs.
    + unfold router.create_stock. run_monad. cbn [db]. rewrite Hfound.
      reflexivity.
Qed.

Lemma route_create_stock_once_witness :
  consistent (db world_after_test) = true /\
  exists s,
    eval (router.create_stock fin_stock) world_after_test = Ok s /\
    eval (router.get_stock "FIN")
         (exec (router.create_stock fin_stock) world_after_test)
    = Ok (s, [], []).
Proof.
  split; [vm_compute; reflexivity |].
  pose proof (route_create_stock_once fin_stock world_after_test
                ltac:(vm_compute; reflexivity)) as H.
  cbv zeta in H.
  change (get_stock_by_code (code fin_stock) (db world_after_test))
    with (@None Stock) in H.
  change (fits_bigint (market_cap fin_stock)) with true in H.
  destruct H as (s & H1 & _ & _ & _ & _ & _ & H2 & _).
  exists s. split; [exact H1 | exact H2].
Defined.

(** X9.  [POST /stocks/{code}/financials/].  For a code that is not stored the
    answer is status 404 with its detail and the world stays as it is.
    For a stored code and metrics the columns hold, the posted
    statement is appended for that stock, whatever is stored already,
    and nothing else changes; [GET /stocks/{code}/financials/] then
    lists it, and lists one statement more than before.  With a metric
    outside the 64 bits of its column the insert raises and the world
    stays as it is. *)
Theorem route_create_financial_statement_appends (c : string)
  (statement : FinancialStatementCreate) (w : world) :
  let w' := exec (router.create_financial_statement_for_stock c statement) w in
  match get_stock_by_code c (db w) with
  | None =>
      eval (router.create_financial_statement_for_stock c statement) w
      = Raise (HTTPException 404
                 (String.append "Stock with code "
                    (String.append c " not found"))) /\
      w' = w
  | Some st =>
      if forallb fits_bigint (statement_metrics statement)
      then
        exists row,
          eval (router.create_financial_statement_for_stock c statement) w
          = Ok row /\
          Stmt_stock_id row = Stock_id st /\
          Stmt_fields row = statement /\
          financial_statements (db w')
          = (financial_statements (db w) ++ [row])%list /\
          stocks (db w') = stocks (db w) /\
          daily_stock_prices (db w') = daily_stock_prices (db w) /\
          exists before after,
            eval (router.get_financial_statements_for_stock c None None) w
            = Ok before /\
            eval (router.get_financial_statements_for_stock c None None) w'
            = Ok after /\
            In row after /\
            List.length after = S (List.length before)
      else
        eval (router.create_financial_statement_for_stock c statement) w
        = Raise DataError /\
        w' = w
  end.
Proof.
  cbv zeta. destruct (get_stock_by_code c (db w)) as [st |] eqn:E.
  - destruct (forallb fits_bigint (statement_metrics statement)) eqn:Hfits.
    2:{ unfold eval, exec, router.create_financial_statement_for_stock,
          create_financial_statement. run_monad.
        rewrite E, Hfits. split; reflexivity. }
    set (row := mkFinancialStatement
                  (next_id (map Stmt_id (financial_statements (db w))))
                  (Stock_id st) statement).
    assert (Hrun : router.create_financial_statement_for_stock c statement w
                   = (mkWorld (insert_statement row (db w)) (console w), Ok row)).
    { unfold router.create_financial_statement_for_stock,
        create_financial_statement. run_monad. now rewrite E, Hfits. }
    exists row. unfold eval, exec. rewrite Hrun. cbn [fst snd db].
    do 6 (split; [reflexivity |]).
    unfold router.get_financial_statements_for_stock. run_monad. cbn [db].
    assert (E' : get_stock_by_code c (insert_statement row (db w)) = Some st)
      by exact E.
    rewrite E, E'. do 2 eexists.
    split; [reflexivity |]. split; [reflexivity |].
    rewrite !get_financial_statements_filter. split.
    + apply in_order_by, filter_In. split.
      * cbn. apply in_or_app. right. now left.
      * cbn. now rewrite Nat.eqb_refl.
    + rewrite (Permutation_length (order_by_perm _ _)).
      rewrite (Permutation_length (order_by_perm _ _)).
      cbn [db insert_statement financial_statements].
      rewrite filter_app, length_app. cbn. rewrite Nat.eqb_refl. cbn. lia.
  - unfold eval, exec, router.create_financial_statement_for_stock. run_monad.
    rewrite E. split; reflexivity.
Qed.

(* ================================================================== *)
(** * What a computation keeps *)
(* ================================================================== *)

Section Keeps.
Variable P : database -> Prop.

Lemma keeps_ret {A : Type} (a : A) : keeps P (ret a).
Proof. intros w H. exact H. Qed.

Lemma keeps_raise {A : Type} (e : exn) : keeps P (@raise A e).
Proof. intros w H. exact H. Qed.

Lemma keeps_lift {A : Type} (r : result A) : keeps P (lift r).
Proof. intros w H. unfold lift. destruct r; exact H. Qed.

Lemma keeps_query {A : Type} (q : database -> A) : keeps P (query q).
Proof. intros w H. exact H. Qed.

Lemma keeps_print (msg : message) : keeps P (print msg).
Proof. intros w H. exact H. Qed.

Lemma keeps_commit (f : database -> database) :
  (forall d, P d -> P (f d)) -> keeps P (commit f).
Proof. intros Hf w H. cbn. auto. Qed.

Lemma keeps_bind {A B : Type} (m : M A) (k : A -> M B) :
  keeps P m -> (forall a, keeps P (k a)) -> keeps P (bind m k).
Proof. intros Hm Hk. exact (triple_bind m k P _ _ P Hm Hk). Qed.

Lemma keeps_for_each {A : Type} (l : list A) (body : A -> M unit) :
  (forall x, keeps P (body x)) -> keeps P (for_each l body).
Proof. intros H. now apply triple_for_each. Qed.

Lemma keeps_try_except {A : Type} (body : M A) (handler : exn -> M A) :
  keeps P body -> (forall e, keeps P (handler e)) ->
  keeps P (try_except body handler).
Proof. intros Hb Hh. exact (triple_try_except body handler P _ P P Hb Hh). Qed.

Lemma keeps_exec {A : Type} (m : M A) (w : world) :
  keeps P m -> P (db w) -> P (db (exec m w)).
Proof. intros Hm. now apply triple_exec. Qed.
End Keeps.

Create HintDb keeps.

(** One step through the syntax of a computation; the commits are left
    as goals [forall d, P d -> P (f d)]. *)
Ltac keeps_step :=
  match goal with
  | |- keeps _ (ret _) => apply keeps_ret
  | |- keeps _ (raise _) => apply keeps_raise
  | |- keeps _ (lift _) => apply keeps_lift
  | |- keeps _ (query _) => apply keeps_query
  | |- keeps _ (print _) => apply keeps_print
  | |- keeps _ (commit _) => apply keeps_commit
  | |- keeps _ (for_each _ _) => apply keeps_for_each; intros ?
  | |- keeps _ (try_except _ _) => apply keeps_try_except; [| intros ?]
  | |- keeps _ (bind _ _) => apply keeps_bind; [| intros ?]
  | |- keeps _ (if ?b then _ else _) => destruct b
  | |- keeps _ (match ?x with _ => _ end) => destruct x
  end.

(** The service and the routes, as compositions of queries, prints and
    the four commits. *)
Section KeepsCommits.
Variable P : database -> Prop.
Hypothesis P_insert_stock : forall row d, P d -> P (insert_stock row d).
Hypothesis P_update_stock : forall row d, P d -> P (update_stock_row row d).
Hypothesis P_insert_prices : forall i ps d, P d -> P (insert_prices i ps d).
Hypothesis P_insert_statement : forall row d, P d -> P (insert_statement row d).

Lemma keeps_fetch_and_save (yf_Ticker : string -> Ticker) (ticker_symbol : string) :
  keeps P (fetch_and_save_yfinance_data yf_Ticker ticker_symbol).
Proof.
  unfold fetch_and_save_yfinance_data, upsert_fetched, upsert_stock,
    create_stock, merge_prices, add_daily_prices, _save_financials_from_df,
    save_statement_row, create_financial_statement.
  repeat keeps_step; auto.
Qed.

Lemma keeps_bulk_loop (yf_Ticker : string -> Ticker) (tickers : list string) :
  forall state, keeps P (bulk_loop yf_Ticker tickers state).
Proof.
  induction tickers as [| t rest IH]; intros state; cbn [bulk_loop].
  - apply keeps_ret.
  - apply keeps_bind; [| intros state'; apply IH].
    unfold bulk_step. destruct state as [[s f] usable].
    apply keeps_try_except; [| intros e; repeat keeps_step].
    apply keeps_bind; [apply keeps_print | intros u].
    apply keeps_bind;
      [apply job_ingestion_keeps, keeps_fetch_and_save | intros stock].
    repeat keeps_step.
Qed.

Lemma keeps_serve (r : request) (w : world) : P (db w) -> P (db (serve r w)).
Proof.
  destruct r as [stock | c statement | yf t | yf ts]; cbn [serve];
    apply keeps_exec.
  - unfold router.create_stock, create_stock. repeat keeps_step; auto.
  - unfold router.create_financial_statement_for_stock,
      create_financial_statement.
    repeat keeps_step; auto.
  - unfold router.fetch_and_save_from_yfinance.
    apply keeps_bind; [apply keeps_fetch_and_save | intros stock].
    repeat keeps_step.
  - unfold run_bulk_fetch_job.
    apply keeps_bind; [apply keeps_print | intros u].
    apply keeps_bind; [apply keeps_print | intros u'].
    apply keeps_bind; [apply keeps_bulk_loop | intros counts].
    repeat keeps_step.
Qed.
End KeepsCommits.

(* ================================================================== *)
(** * Nothing is deleted *)
(* ================================================================== *)

Lemma grown_from_refl (d : database) : grown_from d d.
Proof. repeat split; exists []; now rewrite app_nil_r. Qed.

Lemma update_stock_row_ids (row : Stock) (d : database) :
  stock_ids (update_stock_row row d) = stock_ids d.
Proof.
  unfold stock_ids, update_stock_row. cbn. rewrite map_map. apply map_ext.
  intros x. destruct (Nat.eqb (Stock_id x) (Stock_id row)) eqn:E; [| reflexivity].
  apply Nat.eqb_eq in E. now symmetry.
Qed.

(** X21.  Whatever the request and however it ends, the database only grows:
    the stocks keep their primary keys and their places, no stored price
    row and no stored statement row is changed or removed, and new rows
    come after the stored ones. *)
Theorem requests_only_append (r : request) (w : world) :
  grown_from (db w) (db (serve r w)).
Proof.
  apply (keeps_serve (grown_from (db w))); [| | | | apply grown_from_refl].
  - intros row d ([ids Hi] & Hp & Hs). repeat split; try assumption.
    exists (ids ++ [Stock_id row])%list.
    unfold stock_ids, insert_stock in *. cbn.
    now rewrite map_app, Hi, <- app_assoc.
  - intros row d (Hi & Hp & Hs). repeat split; try assumption.
    now rewrite update_stock_row_ids.
  - intros i ps d (Hi & [qs Hp] & Hs). repeat split; try assumption.
    eexists. cbn. rewrite Hp, <- app_assoc. reflexivity.
  - intros row d (Hi & Hp & [ss Hs]). repeat split; try assumption.
    eexists. cbn. rewrite Hs, <- app_assoc. reflexivity.
Qed.

(* ================================================================== *)
(** * The console does not matter *)
(* ================================================================== *)

Lemma blind_ret {A : Type} (a : A) : console_blind (ret a).
Proof. intros w w' H. split; [exact H | reflexivity]. Qed.

Lemma blind_raise {A : Type} (e : exn) : console_blind (@raise A e).
Proof. intros w w' H. split; [exact H | reflexivity]. Qed.

Lemma blind_lift {A : Type} (r : result A) : console_blind (lift r).
Proof. intros w w' H. split; [exact H | reflexivity]. Qed.

Lemma blind_query {A : Type} (q : database -> A) : console_blind (query q).
Proof. intros w w' H. unfold eval, exec, query. cbn. now rewrite H. Qed.

Lemma blind_print (msg : message) : console_blind (print msg).
Proof. intros w w' H. split; [exact H | reflexivity]. Qed.

Lemma blind_commit (f : database -> database) : console_blind (commit f).
Proof. intros w w' H. unfold eval, exec, commit. cbn. now rewrite H. Qed.

Lemma blind_bind {A B : Type} (m : M A) (k : A -> M B) :
  console_blind m -> (forall a, console_blind (k a)) -> console_blind (bind m k).
Proof.
  intros Hm Hk w w' H. destruct (Hm w w' H) as [Hd He].
  unfold exec, eval, bind in *.
  destruct (m w) as [w1 r1], (m w') as [w1' r1']. cbn in Hd, He. subst r1'.
  destruct r1 as [a | e]; [apply (Hk a w1 w1' Hd) | split; [exact Hd | reflexivity]].
Qed.

Lemma blind_try_except {A : Type} (body : M A) (handler : exn -> M A) :
  console_blind body -> (forall e, console_blind (handler e)) ->
  console_blind (try_except body handler).
Proof.
  intros Hb Hh w w' H. destruct (Hb w w' H) as [Hd He].
  unfold exec, eval, try_except in *.
  destruct (body w) as [w1 r1], (body w') as [w1' r1']. cbn in Hd, He. subst r1'.
  destruct r1 as [a | e]; [split; [exact Hd | reflexivity] | apply (Hh e w1 w1' Hd)].
Qed.

Lemma blind_for_each {A : Type} (l : list A) (body : A -> M unit) :
  (forall x, console_blind (body x)) -> console_blind (for_each l body).
Proof.
  intros H. induction l as [| x l IH]; cbn [for_each].
  - apply blind_ret.
  - apply blind_bind; [apply H | intros u; exact IH].
Qed.

Ltac blind_step :=
  match goal with
  | |- console_blind (ret _) => apply blind_ret
  | |- console_blind (raise _) => apply blind_raise
  | |- console_blind (lift _) => apply blind_lift
  | |- console_blind (query _) => apply blind_query
  | |- console_blind (print _) => apply blind_print
  | |- console_blind (commit _) => apply blind_commit
  | |- console_blind (for_each _ _) => apply blind_for_each; intros ?
  | |- console_blind (try_except _ _) => apply blind_try_except; [| intros ?]
  | |- console_blind (bind _ _) => apply blind_bind; [| intros ?]
  | |- console_blind (if ?b then _ else _) => destruct b
  | |- console_blind (match ?x with _ => _ end) => destruct x
  end.

Lemma blind_fetch_and_save (yf_Ticker : string -> Ticker) (ticker_symbol : string) :
  console_blind (fetch_and_save_yfinance_data yf_Ticker ticker_symbol).
Proof.
  unfold fetch_and_save_yfinance_data, upsert_fetched, upsert_stock,
    create_stock, merge_prices, add_daily_prices, _save_financials_from_df,
    save_statement_row, create_financial_statement.
  repeat blind_step.
Qed.

Lemma blind_job_ingestion (usable : bool) (yf_Ticker : string -> Ticker)
  (ticker_symbol : string) :
  console_blind (job_ingestion usable yf_Ticker ticker_symbol).
Proof.
  destruct usable; [apply blind_fetch_and_save |].
  unfold job_ingestion, fetch_and_save_on_failed_session. repeat blind_step.
Qed.

Lemma bulk_loop_in_turn (yf_Ticker : string -> Ticker) (tickers : list string) :
  forall s f usable w w', db w = db w' ->
  db (exec (bulk_loop yf_Ticker tickers (s, f, usable)) w)
  = db (ingest_in_turn yf_Ticker tickers usable w').
Proof.
  induction tickers as [| t rest IH]; intros s f usable w w' H; [exact H |].
  cbn [bulk_loop ingest_in_turn].
  pose proof (bulk_step_world yf_Ticker t s f usable w) as Hw.
  pose proof (bulk_step_counts yf_Ticker t s f usable w) as Hc.
  cbv zeta in Hc. unfold exec, eval in Hw, Hc |- *.
  destruct (bulk_step yf_Ticker t (s, f, usable) w) as [w1 r] eqn:Hstep.
  cbn [fst snd] in Hw, Hc. subst r.
  rewrite (bind_run _ _ _ _ _ Hstep).
  destruct (blind_job_ingestion usable yf_Ticker t (before_ingestion t w) w' H)
    as [Hd He].
  unfold exec, eval in Hd, He. rewrite <- He.
  assert (Hdb : db w1 = db (fst (job_ingestion usable yf_Ticker t w'))).
  { subst w1. unfold after_symbol, exec. rewrite bulk_step_run, <- Hd.
    destruct (job_ingestion usable yf_Ticker t (before_ingestion t w))
      as [w2 [[st |] | e]]; reflexivity. }
  destruct (returned_security _); apply IH; exact Hdb.
Qed.

(** On a session that is unusable nothing is written, whatever the
    symbols. *)
Lemma ingest_in_turn_unusable (yf_Ticker : string -> Ticker)
  (tickers : list string) (w : world) :
  db (ingest_in_turn yf_Ticker tickers false w) = db w.
Proof.
  revert w. induction tickers as [| t rest IH]; intros w; [reflexivity |].
  cbn [ingest_in_turn].
  assert (Hu : usable_after false (eval (job_ingestion false yf_Ticker t) w)
               = false).
  { unfold usable_after. now destruct (eval _ w). }
  rewrite Hu, IH. apply failed_session_run.
Qed.

(** X17.  The bulk job leaves the database that the ingestions of its
    symbols leave when run one after the other on the one session of
    the job, which no turn rolls back: once an ingestion has ended with
    an exception out of a refused flush, the ingestions after it write
    nothing. *)
Theorem run_bulk_fetch_job_in_turn (yf_Ticker : string -> Ticker)
  (tickers : list string) (w : world) :
  db (exec (run_bulk_fetch_job yf_Ticker tickers) w)
  = db (ingest_in_turn yf_Ticker tickers true w) /\
  db (ingest_in_turn yf_Ticker tickers false w) = db w.
Proof.
  split; [| apply ingest_in_turn_unusable].
  rewrite <- (bulk_loop_in_turn yf_Ticker tickers 0%nat 0%nat true
               (exec (print (Debug_bulk_received tickers) ;;;
                      print (Starting_bulk (List.length tickers))) w) w eq_refl).
  unfold run_bulk_fetch_job, exec. run_monad.
  destruct (bulk_loop yf_Ticker tickers (0%nat, 0%nat, true) _)
    as [w1 [[[s f] u] | e]]; reflexivity.
Qed.

(* ================================================================== *)
(** * The steps of a successful ingestion *)
(* ================================================================== *)

(** An ingestion that returned a Security went through every step: the
    provider answered each time, the upsert returned that Security, and
    the three merges returned. *)
Lemma fetch_and_save_success (yf_Ticker : string -> Ticker) (ticker_symbol : string)
  (w w' : world) (s : Stock) :
  fetch_and_save_yfinance_data yf_Ticker ticker_symbol w = (w', Ok (Some s)) ->
  exists info md hist annual quarterly wa wb wc,
    ticker_info (yf_Ticker ticker_symbol) = Ok (Some info) /\
    info_unusable (Some info) = false /\
    stock_data_of_info ticker_symbol info = Ok (as_dict md) /\
    fits_bigint (market_cap md) = true /\
    ticker_history (yf_Ticker ticker_symbol) = Ok hist /\
    ticker_financials (yf_Ticker ticker_symbol) = Ok annual /\
    ticker_quarterly_financials (yf_Ticker ticker_symbol) = Ok quarterly /\
    upsert_security md (exec (print (Debug_fetch_called ticker_symbol)) w)
    = (wa, Ok s) /\
    merge_prices (Stock_id s) hist wa = (wb, Ok tt) /\
    _save_financials_from_df (Stock_id s) annual "annual" wb = (wc, Ok tt) /\
    _save_financials_from_df (Stock_id s) quarterly "quarterly" wc = (w', Ok tt).
Proof.
  intros H.
  destruct (ticker_info (yf_Ticker ticker_symbol)) as [[info |] | e] eqn:Ei.
  2:{ unfold fetch_and_save_yfinance_data in H. revert H. run_monad.
      rewrite Ei. cbn. discriminate. }
  2:{ unfold fetch_and_save_yfinance_data in H. revert H. run_monad.
      rewrite Ei. discriminate. }
  destruct (info_unusable (Some info)) eqn:Eu.
  { unfold fetch_and_save_yfinance_data in H. revert H. run_monad.
    rewrite Ei, Eu. discriminate. }
  destruct (stock_data_of_info ticker_symbol info) as [d | e] eqn:Emd.
  2:{ unfold fetch_and_save_yfinance_data in H. revert H. run_monad.
      rewrite Ei, Eu, Emd. discriminate. }
  destruct (stock_data_cases d) as [[md ->] | Hn].
  2:{ unfold fetch_and_save_yfinance_data in H. revert H. run_monad.
      rewrite Ei, Eu, Emd. cbn [db].
      destruct (upsert_fetched_nameless (get_stock_by_code ticker_symbol (db w))
                  d Hn) as [e He].
      rewrite He. discriminate. }
  rewrite (fetch_and_save_steps _ _ info md w Ei Eu Emd) in H.
  unfold bind at 1 in H. cbn [print] in H.
  change (mkWorld (db w) (console w ++ [Debug_fetch_called ticker_symbol]))
    with (exec (print (Debug_fetch_called ticker_symbol)) w) in H.
  set (w0 := exec (print (Debug_fetch_called ticker_symbol)) w) in *.
  unfold bind at 1 in H.
  destruct (fits_bigint (market_cap md)) eqn:Hfits;
    [| rewrite (upsert_security_refused w0 md Hfits) in H; discriminate].
  destruct (upsert_security md w0) as [wa [sa | e]] eqn:Eup; [| discriminate].
  unfold bind at 1 in H. unfold lift at 1 in H.
  destruct (ticker_history (yf_Ticker ticker_symbol)) as [hist | e] eqn:Eh;
    [| discriminate].
  unfold bind at 1 in H.
  destruct (merge_prices (Stock_id sa) hist wa) as [wb [[] | e]] eqn:Emp;
    [| discriminate].
  unfold bind at 1 in H. unfold lift at 1 in H.
  destruct (ticker_financials (yf_Ticker ticker_symbol)) as [annual | e] eqn:Ea;
    [| discriminate].
  unfold bind at 1 in H.
  destruct (_save_financials_from_df (Stock_id sa) annual "annual" wb)
    as [wc [[] | e]] eqn:Esa; [| discriminate].
  unfold bind at 1 in H. unfold lift at 1 in H.
  destruct (ticker_quarterly_financials (yf_Ticker ticker_symbol))
    as [quarterly | e] eqn:Eq; [| discriminate].
  unfold bind at 1 in H.
  destruct (_save_financials_from_df (Stock_id sa) quarterly "quarterly" wc)
    as [wd [[] | e]] eqn:Esq; [| discriminate].
  cbn in H. inversion H; subst.
  exists info, md, hist, annual, quarterly, wa, wb, wc.
  repeat split; assumption.
Qed.

(** The merges leave the stocks table alone. *)
Lemma merge_prices_keeps_stocks (L : list Stock) (stock_id : nat)
  (hist : DataFrame Timestamp string) :
  keeps (fun d => stocks d = L) (merge_prices stock_id hist).
Proof. unfold merge_prices, add_daily_prices. repeat keeps_step; auto. Qed.

Lemma save_financials_keeps_stocks_prices (L : list Stock)
  (L' : list DailyStockPrice) (stock_id : nat)
  (df : DataFrame string Timestamp) (ptype : string) :
  keeps (fun d => stocks d = L /\ daily_stock_prices d = L')
        (_save_financials_from_df stock_id df ptype).
Proof.
  unfold _save_financials_from_df, save_statement_row, create_financial_statement.
  repeat keeps_step; auto.
Qed.

Lemma keeps_run {A : Type} (P : database -> Prop) (m : M A) (w w' : world)
  (r : result A) :
  keeps P m -> m w = (w', r) -> P (db w) -> P (db w').
Proof.
  intros Hm Hrun H. specialize (Hm w H). rewrite Hrun in Hm.
  destruct r; exact Hm.
Qed.

Lemma upsert_security_run (md : StockCreate) (w wa : world) (s : Stock) :
  upsert_security md w = (wa, Ok s) ->
  Stock_fields s = md /\ get_stock_by_code (code md) (db wa) = Some s.
Proof.
  intros H.
  destruct (fits_bigint (market_cap md)) eqn:Hfits;
    [| rewrite (upsert_security_refused w md Hfits) in H; discriminate].
  destruct (upsert_security_stored w md Hfits) as [s' (He & Hf & Hl & _)].
  unfold eval, exec in He, Hl. rewrite H in He, Hl. cbn in He, Hl.
  inversion He; subst s'. auto.
Qed.

(** X12.  An ingestion that returned a Security has stored it under the
    requested symbol: the lookup by the symbol finds it, [GET
    /stocks/{symbol}] answers with it and the rows that bear its primary
    key, and the ingestion route answers with it, its prices by date
    and its statements by end date, latest first. *)
Theorem ingested_stock_is_stored (yf_Ticker : string -> Ticker)
  (ticker_symbol : string) (w : world) (s : Stock) :
  eval (fetch_and_save_yfinance_data yf_Ticker ticker_symbol) w = Ok (Some s) ->
  let w' := exec (fetch_and_save_yfinance_data yf_Ticker ticker_symbol) w in
  code (Stock_fields s) = ticker_symbol /\
  get_stock_by_code ticker_symbol (db w') = Some s /\
  eval (router.get_stock ticker_symbol) w'
  = Ok (s, prices_of (Stock_id s) (db w'), statements_of (Stock_id s) (db w')) /\
  eval (router.fetch_and_save_from_yfinance yf_Ticker ticker_symbol) w
  = Ok (s, get_daily_prices (Stock_id s) None None (db w'),
        get_financial_statements (Stock_id s) None None (db w')).
Proof.
  intros He. cbv zeta. unfold eval, exec in *.
  destruct (fetch_and_save_yfinance_data yf_Ticker ticker_symbol w) as [w' r] eqn:Hrun.
  cbn [fst snd] in *. subst r.
  destruct (fetch_and_save_success _ _ _ _ _ Hrun)
    as (info & md & hist & annual & quarterly & wa & wb & wc
        & Ei & Eu & Emd & Hfits & Eh & Ea & Eq & Hup & Hmp & Hsa & Hsq).
  destruct (upsert_security_run _ _ _ _ Hup) as [Hf Hl].
  pose proof (stock_data_code _ _ _ Emd) as Hcode.
  assert (Hstocks : stocks (db w') = stocks (db wa)).
  { assert (Hb : stocks (db wb) = stocks (db wa))
      by exact (keeps_run _ _ _ _ _ (merge_prices_keeps_stocks _ _ _) Hmp eq_refl).
    assert (Hc : stocks (db wc) = stocks (db wa)).
    { apply (keeps_run _ _ _ _ _
               (save_financials_keeps_stocks_prices (stocks (db wa))
                  (daily_stock_prices (db wb)) _ _ _) Hsa). auto. }
    apply (keeps_run _ _ _ _ _
             (save_financials_keeps_stocks_prices (stocks (db wa))
                (daily_stock_prices (db wc)) _ _ _) Hsq). auto. }
  assert (Hfound : get_stock_by_code ticker_symbol (db w') = Some s).
  { unfold get_stock_by_code in *. now rewrite Hstocks, <- Hcode. }
  split; [now rewrite Hf |]. split; [exact Hfound |]. split.
  - rewrite route_get_stock_run, Hfound. reflexivity.
  - unfold router.fetch_and_save_from_yfinance. run_monad. now rewrite Hrun.
Qed.

Lemma ingested_stock_is_stored_witness :
  exists s,
    eval (fetch_and_save_yfinance_data test_yf "TEST") initial_world = Ok (Some s) /\
    get_stock_by_code "TEST" (db world_after_test) = Some s.
Proof.
  eexists. split; [vm_compute; reflexivity |].
  apply (ingested_stock_is_stored test_yf "TEST" initial_world).
  vm_compute. reflexivity.
Defined.

(** X13.  When the provider fails on the price history, for metadata the
    stocks table takes (a name, and a market capitalisation of 64 bits),
    the ingestion ends with that failure and the upsert stays committed:
    the database is the one the upsert alone leaves, with the new
    metadata stored under the symbol. *)
Theorem history_failure_keeps_the_upsert (yf_Ticker : string -> Ticker)
  (ticker_symbol : string) (info : Info) (stock_data_dict : StockData)
  (md : StockCreate) (e : exn) (w : world) :
  ticker_info (yf_Ticker ticker_symbol) = Ok (Some info) ->
  info_unusable (Some info) = false ->
  stock_data_of_info ticker_symbol info = Ok stock_data_dict ->
  validate_stock stock_data_dict = Ok md ->
  fits_bigint (market_cap md) = true ->
  ticker_history (yf_Ticker ticker_symbol) = Raise e ->
  let w' := exec (fetch_and_save_yfinance_data yf_Ticker ticker_symbol) w in
  eval (fetch_and_save_yfinance_data yf_Ticker ticker_symbol) w = Raise e /\
  db w' = db (exec (upsert_security md) w) /\
  exists s, get_stock_by_code ticker_symbol (db w') = Some s /\
            Stock_fields s = md.
Proof.
  intros Ei Eu Emd Hv Hfits Eh. cbv zeta. unfold eval, exec.
  apply validate_stock_dict in Hv. subst stock_data_dict.
  rewrite (fetch_and_save_steps _ _ info md w Ei Eu Emd), Eh.
  pose proof (stock_data_code _ _ _ Emd) as Hcode.
  set (w0 := mkWorld (db w) (console w ++ [Debug_fetch_called ticker_symbol])).
  rewrite !(bind_run (print (Debug_fetch_called ticker_symbol)) _ w w0 tt eq_refl).
  assert (Hblind : console_blind (upsert_security md))
    by (unfold upsert_security, upsert_fetched, upsert_stock, create_stock;
        repeat blind_step).
  destruct (Hblind w0 w eq_refl) as [Hdb _].
  destruct (upsert_security_stored w0 md Hfits) as [s (He & Hf & Hl & _)].
  unfold eval, exec in He, Hl, Hdb.
  destruct (upsert_security md w0) as [wa r] eqn:Hrun. cbn [fst snd] in *. subst r.
  rewrite !(bind_run _ _ _ _ _ Hrun). unfold bind, lift. cbn [fst snd].
  split; [reflexivity |]. split; [exact Hdb |].
  exists s. now rewrite <- Hcode.
Qed.

Lemma history_failure_keeps_the_upsert_witness :
  ticker_info (history_failing_yf "TEST") = Ok (Some test_info) /\
  info_unusable (Some test_info) = false /\
  ticker_history (history_failing_yf "TEST") = Raise (ProviderError "timeout") /\
  eval (fetch_and_save_yfinance_data history_failing_yf "TEST") world_after_test
  = Raise (ProviderError "timeout").
Proof.
  split; [reflexivity |]. split; [reflexivity |]. split; [reflexivity |].
  eapply (history_failure_keeps_the_upsert history_failing_yf "TEST" test_info);
    reflexivity.
Defined.

(* ================================================================== *)
(** * Ingesting the same provider data again *)
(* ================================================================== *)

Lemma bind_inv {A B : Type} (m : M A) (k : A -> M B) (w w1 : world)
  (r : result B) :
  bind m k w = (w1, r) ->
  (exists wb a, m w = (wb, Ok a) /\ k a wb = (w1, r)) \/
  (exists e, m w = (w1, Raise e) /\ r = Raise e).
Proof.
  unfold bind. destruct (m w) as [wb [a | e]]; intros H.
  - left. eauto.
  - right. inversion H. eauto.
Qed.

(** A step that changes nothing, before a continuation that changes
    nothing. *)
Lemma again_step {A B : Type} (m : M A) (k : A -> M B) (w2 : world) (a : A)
  (r : result B) :
  eval m w2 = Ok a -> db (exec m w2) = db w2 ->
  (forall w2', db w2' = db w2 ->
     eval (k a) w2' = r /\ db (exec (k a) w2') = db w2') ->
  eval (bind m k) w2 = r /\ db (exec (bind m k) w2) = db w2.
Proof.
  unfold eval, exec, bind. destruct (m w2) as [w2' r']. cbn [fst snd].
  intros -> Hdb Hk. destruct (Hk w2' Hdb) as [H1 H2].
  split; [exact H1 | now rewrite H2].
Qed.

Lemma again_stop {A B : Type} (m : M A) (k : A -> M B) (w2 : world) (e : exn) :
  eval m w2 = Raise e -> db (exec m w2) = db w2 ->
  eval (bind m k) w2 = Raise e /\ db (exec (bind m k) w2) = db w2.
Proof.
  unfold eval, exec, bind. destruct (m w2) as [w2' r']. cbn [fst snd].
  intros -> Hdb. split; [reflexivity | exact Hdb].
Qed.

(** The newest stored price of a stock is read off its history. *)
Lemma prices_of_latest (stock_id : nat) (d d' : database) :
  prices_of stock_id d' = prices_of stock_id d ->
  latest_price_of stock_id d' = latest_price_of stock_id d.
Proof. unfold latest_price_of, prices_of. now intros ->. Qed.

(** After a merge of a series, however it ended, merging the series
    into a database that shows the same history of the stock ends the
    same way and writes nothing. *)
Lemma merge_prices_again (stock_id : nat) (hist : DataFrame Timestamp string)
  (w wb w2 : world) (r : result unit) :
  merge_prices stock_id hist w = (wb, r) ->
  prices_of stock_id (db w2) = prices_of stock_id (db wb) ->
  eval (merge_prices stock_id hist) w2 = r /\
  db (exec (merge_prices stock_id hist) w2) = db w2.
Proof.
  intros Hrun Hsame. unfold eval, exec.
  rewrite merge_prices_run in Hrun. rewrite merge_prices_run.
  destruct (df_empty hist); [inversion Hrun; split; reflexivity |].
  rewrite (prices_of_latest stock_id (db wb) (db w2) Hsame).
  destruct (collect_prices (latest_price_of stock_id (db w)) (iterrows hist))
    as [ps | e] eqn:Hc.
  - destruct (forallb (fun p => fits_bigint (volume p)) ps) eqn:Hfits.
    + inversion Hrun as [[Hwb Hr]]. cbn [db].
      destruct ps as [| p ps]; cbn [is_nil].
      * rewrite Hc. split; reflexivity.
      * rewrite (collect_prices_all_stored _ _
                   (all_stored_after_insert stock_id (db w) _ p ps Hc)).
        split; reflexivity.
    + inversion Hrun; subst. rewrite Hc, Hfits. split; reflexivity.
  - inversion Hrun; subst. rewrite Hc. split; reflexivity.
Qed.

(** The row of a stored stock, written again, changes nothing when
    primary keys are unique. *)
Lemma update_stock_row_same (s : Stock) (d : database) :
  NoDup (stock_ids d) -> In s (stocks d) -> update_stock_row s d = d.
Proof.
  intros Hnd Hin. unfold update_stock_row. destruct d as [ss ps fs].
  cbn in *. f_equal. unfold stock_ids in Hnd. cbn in Hnd.
  induction ss as [| x ss IH]; [reflexivity |].
  cbn [map] in *. inversion Hnd as [| ? ? Hx Hrest]; subst.
  destruct Hin as [-> | Hin].
  - rewrite Nat.eqb_refl. f_equal.
    rewrite <- (map_id ss) at 2. apply map_ext_in. intros y Hy.
    destruct (Nat.eqb (Stock_id y) (Stock_id s)) eqn:E; [| reflexivity].
    apply Nat.eqb_eq in E. exfalso. apply Hx. rewrite <- E.
    now apply in_map.
  - destruct (Nat.eqb (Stock_id x) (Stock_id s)) eqn:E.
    + apply Nat.eqb_eq in E. exfalso. apply Hx. rewrite E. now apply in_map.
    + f_equal. now apply IH.
Qed.

(** Whether a key is stored is read off the statements of the stock. *)
Lemma statement_exists_view (stock_id : nat) (ptype : string) (pend : date)
  (d d' : database) :
  statements_of stock_id d' = statements_of stock_id d ->
  statement_exists stock_id ptype pend d' = statement_exists stock_id ptype pend d.
Proof.
  assert (E : forall l,
             existsb (statement_key_match stock_id ptype pend) l
             = existsb (statement_key_match stock_id ptype pend)
                 (filter (fun s => Nat.eqb (Stmt_stock_id s) stock_id) l)).
  { induction l as [| x l IH]; [reflexivity |]. cbn [existsb filter].
    destruct (Nat.eqb (Stmt_stock_id x) stock_id) eqn:Ex; cbn [existsb].
    - now rewrite IH.
    - unfold statement_key_match at 1. rewrite Ex. exact IH. }
  intros H. unfold statement_exists, statements_of in *.
  now rewrite (E (financial_statements d')), (E (financial_statements d)), H.
Qed.

Lemma save_rows_appends (L : list FinancialStatement) (stock_id : nat)
  (ptype : string) (rows : list (Timestamp * Series)) :
  keeps (fun d => exists l, financial_statements d = (L ++ l)%list)
        (for_each rows (save_statement_row stock_id ptype)).
Proof.
  unfold save_statement_row, create_financial_statement.
  repeat keeps_step; auto.
  intros d [l Hl]. cbn [insert_statement financial_statements].
  rewrite Hl, <- app_assoc. eexists. reflexivity.
Qed.

Lemma save_financials_appends (L : list FinancialStatement) (stock_id : nat)
  (df : DataFrame string Timestamp) (ptype : string) :
  keeps (fun d => exists l, financial_statements d = (L ++ l)%list)
        (_save_financials_from_df stock_id df ptype).
Proof.
  unfold _save_financials_from_df.
  destruct (df_empty df); [apply keeps_ret |].
  apply keeps_bind; [apply save_rows_appends | intros u; apply keeps_print].
Qed.

Section StatementLoopAgain.
Variable stock_id : nat.
Variable ptype : string.
Hypothesis ptype_nonempty : String.eqb ptype "" = false.

(** A turn of the loop that ended normally leaves the key of its row
    stored. *)
Lemma save_statement_row_post (item : Timestamp * Series) (w w1 : world) :
  save_statement_row stock_id ptype item w = (w1, Ok tt) ->
  statement_exists stock_id ptype (Timestamp_date (fst item)) (db w1) = true.
Proof.
  destruct item as [period_end row]. cbn [fst].
  rewrite (save_statement_row_run _ _ _ _ _ ptype_nonempty).
  destruct (statement_exists stock_id ptype (Timestamp_date period_end) (db w))
    eqn:Ex.
  - intros H. inversion H; subst w1. exact Ex.
  - destruct (statement_of_row ptype period_end row) as [st | e] eqn:Est;
      [| discriminate].
    destruct (forallb fits_bigint (statement_metrics st)); [| discriminate].
    intros H. inversion H as [Hw1]. cbn [db].
    set (new_row := mkFinancialStatement
                      (next_id (map Stmt_id (financial_statements (db w))))
                      stock_id st).
    rewrite (statement_exists_app _ _ _ (db w) (insert_statement new_row (db w))
               [new_row] eq_refl), Ex.
    cbn [orb existsb]. rewrite orb_false_r.
    apply statement_key_match_spec. cbn.
    destruct (statement_of_row_key _ _ _ _ Est) as [H1 H2].
    unfold Stmt_period_type, Stmt_period_end_date. cbn. auto.
Qed.

(** A turn of the loop that raised found the key of its row not stored,
    and wrote nothing; wherever the key is not stored, the turn raises
    the same. *)
Lemma save_statement_row_raised (item : Timestamp * Series) (w w1 : world)
  (e : exn) :
  save_statement_row stock_id ptype item w = (w1, Raise e) ->
  w1 = w /\
  statement_exists stock_id ptype (Timestamp_date (fst item)) (db w) = false /\
  forall w2,
    statement_exists stock_id ptype (Timestamp_date (fst item)) (db w2) = false ->
    save_statement_row stock_id ptype item w2 = (w2, Raise e).
Proof.
  destruct item as [period_end row]. cbn [fst snd].
  rewrite (save_statement_row_run _ _ _ _ _ ptype_nonempty).
  destruct (statement_exists stock_id ptype (Timestamp_date period_end) (db w));
    [discriminate |].
  destruct (statement_of_row ptype period_end row) as [st | e'] eqn:Est.
  - destruct (forallb fits_bigint (statement_metrics st)) eqn:Hfits;
      [discriminate |].
    intros H. inversion H; subst. split; [reflexivity |]. split; [reflexivity |].
    intros w2 Hno.
    now rewrite (save_statement_row_run _ _ _ _ _ ptype_nonempty), Hno, Est,
      Hfits.
  - intros H. inversion H; subst. split; [reflexivity |]. split; [reflexivity |].
    intros w2 Hno.
    now rewrite (save_statement_row_run _ _ _ _ _ ptype_nonempty), Hno, Est.
Qed.

Lemma stored_key_stays {A : Type} (pend : date) (m : M A) (w w1 : world)
  (r : result A) :
  (forall L, keeps (fun d => exists l, financial_statements d = (L ++ l)%list) m) ->
  m w = (w1, r) ->
  statement_exists stock_id ptype pend (db w) = true ->
  statement_exists stock_id ptype pend (db w1) = true.
Proof.
  intros Hk Hrun Hex.
  destruct (keeps_run _ _ _ _ _ (Hk (financial_statements (db w))) Hrun)
    as [l Hl]; [exists []; now rewrite app_nil_r |].
  now rewrite (statement_exists_app _ _ _ (db w) (db w1) l Hl), Hex.
Qed.

Lemma save_rows_post (rows : list (Timestamp * Series)) :
  forall w w1 : world,
  for_each rows (save_statement_row stock_id ptype) w = (w1, Ok tt) ->
  forall item, In item rows ->
    statement_exists stock_id ptype (Timestamp_date (fst item)) (db w1) = true.
Proof.
  induction rows as [| x rows IH]; intros w w1 H item Hi; [destruct Hi |].
  cbn [for_each] in H.
  destruct (bind_inv _ _ _ _ _ H) as [(wx & [] & Hx & Hrest) | (e & _ & F)];
    [| discriminate].
  destruct Hi as [<- | Hi]; [| exact (IH _ _ Hrest item Hi)].
  apply (stored_key_stays _ _ wx w1 (Ok tt)
           (fun L => save_rows_appends L stock_id ptype rows) Hrest).
  exact (save_statement_row_post _ _ _ Hx).
Qed.

(** Rows whose keys are all stored are all skipped. *)
Lemma save_rows_skip_all (rows : list (Timestamp * Series)) (w : world) :
  (forall item, In item rows ->
     statement_exists stock_id ptype (Timestamp_date (fst item)) (db w) = true) ->
  for_each rows (save_statement_row stock_id ptype) w = (w, Ok tt).
Proof.
  induction rows as [| [period_end row] rows IH]; intros H; [reflexivity |].
  cbn [for_each]. unfold bind.
  rewrite (save_statement_row_run _ _ _ _ _ ptype_nonempty).
  pose proof (H (period_end, row) (or_introl eq_refl)) as Hx. cbn [fst] in Hx.
  rewrite Hx. apply IH. intros item Hi. apply H. now right.
Qed.

(** After the loop over the rows of a frame, however it ended, the loop
    over the same rows in a database that shows the same statements of
    the stock ends the same way and leaves the world as it is. *)
Lemma save_rows_again (rows : list (Timestamp * Series)) :
  forall (w w1 : world) (r : result unit),
  for_each rows (save_statement_row stock_id ptype) w = (w1, r) ->
  forall w2 : world,
  statements_of stock_id (db w2) = statements_of stock_id (db w1) ->
  for_each rows (save_statement_row stock_id ptype) w2 = (w2, r).
Proof.
  induction rows as [| x rows IH]; intros w w1 r H w2 Hview.
  - cbn in H. inversion H. reflexivity.
  - cbn [for_each] in H |- *.
    destruct (bind_inv _ _ _ _ _ H) as [(wx & [] & Hx & Hrest) | (e & Hx & ->)].
    + assert (Hstored : statement_exists stock_id ptype
                          (Timestamp_date (fst x)) (db w2) = true).
      { rewrite (statement_exists_view _ _ _ _ _ Hview).
        apply (stored_key_stays _ _ wx w1 r
                 (fun L => save_rows_appends L stock_id ptype rows) Hrest).
        exact (save_statement_row_post _ _ _ Hx). }
      destruct x as [period_end row]. unfold bind.
      rewrite (save_statement_row_run _ _ _ _ _ ptype_nonempty).
      cbn [fst] in Hstored. rewrite Hstored.
      exact (IH _ _ _ Hrest w2 Hview).
    + destruct (save_statement_row_raised _ _ _ _ Hx) as (-> & Hno & Hraise).
      rewrite <- (statement_exists_view _ _ _ _ _ Hview) in Hno.
      unfold bind. now rewrite (Hraise w2 Hno).
Qed.

(** Once a statement merge of a frame has ended normally, merging the
    frame into a database in which every key stored then is stored
    writes nothing. *)
Lemma save_financials_settled (df : DataFrame string Timestamp)
  (w w1 w2 : world) :
  _save_financials_from_df stock_id df ptype w = (w1, Ok tt) ->
  (forall pend, statement_exists stock_id ptype pend (db w1) = true ->
                statement_exists stock_id ptype pend (db w2) = true) ->
  eval (_save_financials_from_df stock_id df ptype) w2 = Ok tt /\
  db (exec (_save_financials_from_df stock_id df ptype) w2) = db w2.
Proof.
  unfold _save_financials_from_df, eval, exec. intros Hrun Hmono.
  destruct (df_empty df); [split; reflexivity |].
  destruct (bind_inv _ _ _ _ _ Hrun) as [(wx & [] & Hloop & Hprint) | (e & _ & F)];
    [| discriminate].
  inversion Hprint as [Hw1].
  unfold bind. rewrite save_rows_skip_all; [split; reflexivity |].
  intros item Hi. apply Hmono. rewrite <- Hw1. cbn [db].
  exact (save_rows_post _ _ _ Hloop item Hi).
Qed.

(** After a statement merge of a frame, however it ended, merging the
    frame into a database that shows the same statements of the stock
    ends the same way and writes nothing. *)
Lemma save_financials_again (df : DataFrame string Timestamp)
  (w w1 w2 : world) (r : result unit) :
  _save_financials_from_df stock_id df ptype w = (w1, r) ->
  statements_of stock_id (db w2) = statements_of stock_id (db w1) ->
  eval (_save_financials_from_df stock_id df ptype) w2 = r /\
  db (exec (_save_financials_from_df stock_id df ptype) w2) = db w2.
Proof.
  unfold _save_financials_from_df, eval, exec. intros Hrun Hview.
  destruct (df_empty df); [inversion Hrun; split; reflexivity |].
  destruct (bind_inv _ _ _ _ _ Hrun) as [(wx & [] & Hloop & Hprint) | (e & Hloop & ->)].
  - inversion Hprint as [[Hw1 Hr]]. rewrite <- Hw1 in Hview. cbn [db] in Hview.
    unfold bind. rewrite (save_rows_again _ _ _ _ Hloop w2 Hview).
    split; reflexivity.
  - unfold bind. rewrite (save_rows_again _ _ _ _ Hloop w2 Hview).
    split; reflexivity.
Qed.

End StatementLoopAgain.

(** X22.  The statement merge is idempotent for a stored stock and a
    non-empty period type: after one call with a frame, a second call
    with the same frame for the same stock ends as the first call ended
    and leaves the database as the first call left it, consistent and
    with the stock.  A row whose sanitizing raised the first time, or
    whose insert was refused, is reached again, no key of an earlier
    row being missing, and ends the same way again. *)
Theorem save_financials_idempotent (stock_id : nat)
  (df : DataFrame string Timestamp) (ptype : string) (w : world) :
  String.eqb ptype "" = false ->
  holds_stock stock_id (db w) ->
  let w1 := exec (_save_financials_from_df stock_id df ptype) w in
  holds_stock stock_id (db w1) /\
  eval (_save_financials_from_df stock_id df ptype) w1
  = eval (_save_financials_from_df stock_id df ptype) w /\
  db (exec (_save_financials_from_df stock_id df ptype) w1) = db w1.
Proof.
  intros Hne Hholds. cbv zeta. split.
  - pose proof (save_financials_triple stock_id df ptype w Hholds) as H.
    unfold exec.
    destruct (_save_financials_from_df stock_id df ptype w) as [w1 r] eqn:Hrun.
    cbn [fst].
    destruct (keeps_run _ _ _ _ _
                (save_financials_keeps_stocks_prices (stocks (db w))
                   (daily_stock_prices (db w)) stock_id df ptype)
                Hrun (conj eq_refl eq_refl)) as [Hstocks _].
    split; [destruct r; [exact (proj1 H) | exact H] |].
    unfold stock_ids. rewrite Hstocks. exact (proj2 Hholds).
  - apply (save_financials_again stock_id ptype Hne df w
             (exec (_save_financials_from_df stock_id df ptype) w)
             (exec (_save_financials_from_df stock_id df ptype) w));
      [| reflexivity].
    unfold exec, eval.
    now destruct (_save_financials_from_df stock_id df ptype w).
Qed.

(** What the steps after the upsert leave alone. *)
Lemma save_financials_keeps_prices (L : list DailyStockPrice) (stock_id : nat)
  (df : DataFrame string Timestamp) (ptype : string) :
  keeps (fun d => daily_stock_prices d = L)
        (_save_financials_from_df stock_id df ptype).
Proof.
  unfold _save_financials_from_df, save_statement_row, create_financial_statement.
  repeat keeps_step; auto.
Qed.

Lemma ingest_stored_keeps_stocks (L : list Stock) (ticker : Ticker) (s : Stock) :
  keeps (fun d => stocks d = L) (ingest_stored ticker s).
Proof.
  unfold ingest_stored, merge_prices, add_daily_prices,
    _save_financials_from_df, save_statement_row, create_financial_statement.
  repeat keeps_step; auto.
Qed.

(** After the steps that follow the upsert, however they ended, the same
    steps in a database that shows the same two histories of the stock
    end the same way and write nothing. *)
Lemma ingest_stored_again (ticker : Ticker) (s : Stock) (w w1 w2 : world)
  (r : result (option Stock)) :
  ingest_stored ticker s w = (w1, r) ->
  prices_of (Stock_id s) (db w2) = prices_of (Stock_id s) (db w1) ->
  statements_of (Stock_id s) (db w2) = statements_of (Stock_id s) (db w1) ->
  eval (ingest_stored ticker s) w2 = r /\
  db (exec (ingest_stored ticker s) w2) = db w2.
Proof.
  unfold ingest_stored. intros Hrun Hp Hs.
  (* the history *)
  destruct (ticker_history ticker) as [hist | e].
  2:{ cbn in Hrun. inversion Hrun. split; reflexivity. }
  rewrite (bind_run (lift (Ok hist)) _ w w hist eq_refl) in Hrun.
  apply (again_step _ _ w2 hist); [reflexivity | reflexivity |].
  intros w3 H3. rewrite <- H3 in Hp, Hs. clear w2 H3.
  (* the price merge *)
  destruct (bind_inv _ _ _ _ _ Hrun) as [(wb & [] & Hmp & Hrest) | (e & Hmp & ->)].
  2:{ destruct (merge_prices_again _ _ _ _ w3 _ Hmp Hp) as [He Hd].
      now apply again_stop. }
  assert (Hpb : prices_of (Stock_id s) (db w3) = prices_of (Stock_id s) (db wb)).
  { rewrite Hp. unfold prices_of. f_equal.
    refine (keeps_run (fun d => daily_stock_prices d = daily_stock_prices (db wb))
              _ _ _ _ _ Hrest eq_refl).
    repeat keeps_step; auto; apply save_financials_keeps_prices. }
  destruct (merge_prices_again _ _ _ _ w3 _ Hmp Hpb) as [He Hd].
  apply (again_step _ _ w3 tt _ He Hd).
  intros w4 H4. rewrite <- H4 in Hp, Hs. clear w3 H4 Hpb He Hd.
  clear Hmp Hp.
  (* the annual statements *)
  destruct (ticker_financials ticker) as [annual | e].
  2:{ cbn in Hrest. inversion Hrest. split; reflexivity. }
  rewrite (bind_run (lift (Ok annual)) _ wb wb annual eq_refl) in Hrest.
  apply (again_step _ _ w4 annual); [reflexivity | reflexivity |].
  intros w5 H5. rewrite <- H5 in Hs. clear w4 H5.
  destruct (bind_inv _ _ _ _ _ Hrest) as [(wc & [] & Hsa & Hrest') | (e & Hsa & ->)].
  2:{ destruct (save_financials_again (Stock_id s) "annual" eq_refl
                  _ _ _ w5 _ Hsa Hs) as [He Hd].
      now apply again_stop. }
  destruct (save_financials_settled (Stock_id s) "annual" eq_refl
              annual wb wc w5 Hsa) as [He Hd].
  { intros pend Hex. rewrite (statement_exists_view _ _ _ _ _ Hs).
    refine (stored_key_stays _ _ _ _ wc w1 r _ Hrest' Hex).
    intros L. repeat keeps_step; auto; apply save_financials_appends. }
  apply (again_step _ _ w5 tt _ He Hd).
  intros w6 H6. rewrite <- H6 in Hs. clear w5 H6 He Hd. clear Hsa.
  (* the quarterly statements *)
  destruct (ticker_quarterly_financials ticker) as [quarterly | e].
  2:{ cbn in Hrest'. inversion Hrest'. split; reflexivity. }
  rewrite (bind_run (lift (Ok quarterly)) _ wc wc quarterly eq_refl) in Hrest'.
  apply (again_step _ _ w6 quarterly); [reflexivity | reflexivity |].
  intros w7 H7. rewrite <- H7 in Hs. clear w6 H7.
  destruct (bind_inv _ _ _ _ _ Hrest') as [(wd & [] & Hsq & Hret) | (e & Hsq & ->)].
  2:{ destruct (save_financials_again (Stock_id s) "quarterly" eq_refl
                  _ _ _ w7 _ Hsq Hs) as [He Hd].
      now apply again_stop. }
  inversion Hret as [[Hw1 Hr]]. subst wd.
  destruct (save_financials_again (Stock_id s) "quarterly" eq_refl
              _ _ _ w7 _ Hsq Hs) as [He Hd].
  apply (again_step _ _ w7 tt _ He Hd).
  intros w8 H8. split; reflexivity.
Qed.

(** The ingestion, from the upsert on. *)
Lemma fetch_and_save_from_upsert (yf_Ticker : string -> Ticker)
  (ticker_symbol : string) (info : Info) (md : StockCreate) (w : world) :
  ticker_info (yf_Ticker ticker_symbol) = Ok (Some info) ->
  info_unusable (Some info) = false ->
  stock_data_of_info ticker_symbol info = Ok (as_dict md) ->
  fetch_and_save_yfinance_data yf_Ticker ticker_symbol w =
  (print (Debug_fetch_called ticker_symbol) ;;;
   stock <- upsert_security md ;;
   ingest_stored (yf_Ticker ticker_symbol) stock) w.
Proof. intros Ei Eu Emd. now rewrite (fetch_and_save_steps _ _ info md w Ei Eu Emd). Qed.

(** An ingestion whose upsert the database or the schema refuses ends
    with the exception of the upsert and writes nothing. *)
Lemma fetch_and_save_refused (yf_Ticker : string -> Ticker)
  (ticker_symbol : string) (info : Info) (d : StockData) (e : exn) (w : world) :
  ticker_info (yf_Ticker ticker_symbol) = Ok (Some info) ->
  info_unusable (Some info) = false ->
  stock_data_of_info ticker_symbol info = Ok d ->
  (forall w', upsert_fetched (get_stock_by_code ticker_symbol (db w)) d w'
              = (w', Raise e)) ->
  fetch_and_save_yfinance_data yf_Ticker ticker_symbol w
  = (exec (print (Debug_fetch_called ticker_symbol)) w, Raise e).
Proof.
  intros Ei Eu Emd He. unfold fetch_and_save_yfinance_data. run_monad.
  rewrite Ei, Eu, Emd. cbn [db]. now rewrite He.
Qed.

(** After an ingestion of a symbol, however it ended, the ingestion of
    the symbol in a database that shows the same of the symbol ends the
    same way and writes nothing. *)
Lemma ingest_again (yf_Ticker : string -> Ticker) (ticker_symbol : string)
  (w w1 w2 : world) (r : result (option Stock)) :
  fetch_and_save_yfinance_data yf_Ticker ticker_symbol w = (w1, r) ->
  NoDup (stock_ids (db w2)) ->
  same_view ticker_symbol (db w1) (db w2) ->
  eval (fetch_and_save_yfinance_data yf_Ticker ticker_symbol) w2 = r /\
  db (exec (fetch_and_save_yfinance_data yf_Ticker ticker_symbol) w2) = db w2.
Proof.
  intros Hrun Hnd [Hfind Hrows].
  destruct (ticker_info (yf_Ticker ticker_symbol)) as [[info |] | e] eqn:Ei.
  3:{ unfold eval, exec. revert Hrun.
      unfold fetch_and_save_yfinance_data. run_monad. rewrite Ei.
      intros H. inversion H. split; reflexivity. }
  2:{ unfold eval, exec. revert Hrun.
      unfold fetch_and_save_yfinance_data. run_monad. rewrite Ei. cbn.
      intros H. inversion H. split; reflexivity. }
  destruct (info_unusable (Some info)) eqn:Eu.
  { unfold eval, exec. revert Hrun.
    unfold fetch_and_save_yfinance_data. run_monad. rewrite Ei, Eu.
    intros H. inversion H. split; reflexivity. }
  destruct (stock_data_of_info ticker_symbol info) as [d | e] eqn:Emd.
  2:{ unfold eval, exec. revert Hrun.
      unfold fetch_and_save_yfinance_data. run_monad. rewrite Ei, Eu, Emd.
      intros H. inversion H. split; reflexivity. }
  assert (Hrefused : forall e,
            (forall stock w', upsert_fetched stock d w' = (w', Raise e)) \/
            (forall w', upsert_fetched (get_stock_by_code ticker_symbol (db w))
                          d w' = (w', Raise e)) ->
            eval (fetch_and_save_yfinance_data yf_Ticker ticker_symbol) w2 = r /\
            db (exec (fetch_and_save_yfinance_data yf_Ticker ticker_symbol) w2)
            = db w2).
  { intros e He.
    assert (He1 : forall w', upsert_fetched (get_stock_by_code ticker_symbol (db w))
                               d w' = (w', Raise e))
      by (destruct He as [He | He]; [intros w'; apply He | exact He]).
    rewrite (fetch_and_save_refused _ _ info d e w Ei Eu Emd He1) in Hrun.
    inversion Hrun; subst w1 r. unfold exec, print in Hfind. cbn [db fst] in Hfind.
    unfold eval, exec.
    rewrite (fetch_and_save_refused _ _ info d e w2 Ei Eu Emd);
      [split; reflexivity |].
    rewrite Hfind. exact He1. }
  destruct (stock_data_cases d) as [[md ->] | Hn].
  2:{ destruct (upsert_fetched_nameless
                  (get_stock_by_code ticker_symbol (db w)) d Hn) as [e He].
      apply (Hrefused e). now right. }
  destruct (fits_bigint (market_cap md)) eqn:Hfits.
  2:{ apply (Hrefused DataError). left. intros stock w'.
      now rewrite upsert_fetched_named, Hfits. }
  clear Hrefused.
  pose proof (stock_data_code _ _ _ Emd) as Hcode.
  rewrite (fetch_and_save_from_upsert _ _ info md w Ei Eu Emd) in Hrun.
  unfold eval, exec.
  rewrite (fetch_and_save_from_upsert _ _ info md w2 Ei Eu Emd).
  fold (eval (print (Debug_fetch_called ticker_symbol) ;;;
              stock <- upsert_security md ;;
              ingest_stored (yf_Ticker ticker_symbol) stock) w2).
  fold (exec (print (Debug_fetch_called ticker_symbol) ;;;
              stock <- upsert_security md ;;
              ingest_stored (yf_Ticker ticker_symbol) stock) w2).
  (* the first run *)
  destruct (bind_inv _ _ _ _ _ Hrun) as [(wp & [] & Hprint & Hrun1) | (e & F & _)];
    [| discriminate].
  destruct (upsert_security_stored wp md Hfits) as [s (He & Hf & Hl & _)].
  unfold eval, exec in He, Hl.
  destruct (bind_inv _ _ _ _ _ Hrun1) as [(wa & s' & Hup & Hrest) | (e & Hup & _)].
  2:{ rewrite Hup in He. discriminate. }
  rewrite Hup in He, Hl. cbn [fst snd] in He, Hl. inversion He; subst s'.
  assert (Hstocks : stocks (db w1) = stocks (db wa))
    by exact (keeps_run _ _ _ _ _ (ingest_stored_keeps_stocks _ _ _) Hrest eq_refl).
  assert (Hfound1 : get_stock_by_code ticker_symbol (db w1) = Some s).
  { unfold get_stock_by_code in *. now rewrite Hstocks, <- Hcode. }
  destruct (Hrows s Hfound1) as [Hp Hs]. rewrite Hfound1 in Hfind.
  (* the second run *)
  apply (again_step _ _ w2 tt); [reflexivity | reflexivity |].
  intros w3 H3. rewrite <- H3 in Hnd, Hfind, Hp, Hs. clear Hrows H3.
  assert (Hup2 : upsert_security md w3 = (w3, Ok s)).
  { rewrite <- Hcode in Hfind.
    rewrite (upsert_security_existing w3 md s Hfits Hfind).
    assert (Hsame : mkStock (Stock_id s) md = s)
      by (destruct s; cbn in *; now subst).
    rewrite Hsame, update_stock_row_same; [now destruct w3 | exact Hnd |].
    unfold get_stock_by_code in Hfind. now apply find_some in Hfind. }
  apply (again_step _ _ w3 s).
  - unfold eval. now rewrite Hup2.
  - unfold exec. now rewrite Hup2.
  - intros w4 H4. rewrite <- H4 in Hp, Hs.
    exact (ingest_stored_again _ _ _ _ _ _ Hrest Hp Hs).
Qed.

Lemma same_view_refl (c : string) (d : database) : same_view c d d.
Proof. split; [reflexivity | intros s _; split; reflexivity]. Qed.

(** X15.  Ingesting a symbol a second time, the provider answering as it did
    the first time, ends as the first ingestion ended, with the same
    Security when it returned one, and leaves the database as the first
    ingestion left it: the upsert rewrites the row with the values it
    holds, every price is at or before the latest stored date, every
    statement key written is stored, and a step that failed fails
    again. *)
Theorem ingestion_idempotent (yf_Ticker : string -> Ticker)
  (ticker_symbol : string) (w : world) :
  consistent (db w) = true ->
  let w1 := exec (fetch_and_save_yfinance_data yf_Ticker ticker_symbol) w in
  eval (fetch_and_save_yfinance_data yf_Ticker ticker_symbol) w1
  = eval (fetch_and_save_yfinance_data yf_Ticker ticker_symbol) w /\
  db (exec (fetch_and_save_yfinance_data yf_Ticker ticker_symbol) w1) = db w1.
Proof.
  intros Hcons. cbv zeta.
  pose proof (triple_exec _ _ w
                (fetch_and_save_triple yf_Ticker ticker_symbol) Hcons) as Hcons1.
  apply consistent_spec in Hcons1 as [Hnd _].
  pose proof (fun r H =>
                ingest_again yf_Ticker ticker_symbol w
                  (exec (fetch_and_save_yfinance_data yf_Ticker ticker_symbol) w)
                  (exec (fetch_and_save_yfinance_data yf_Ticker ticker_symbol) w)
                  r H Hnd (same_view_refl _ _)) as Hagain.
  apply Hagain. unfold exec, eval.
  now destruct (fetch_and_save_yfinance_data yf_Ticker ticker_symbol w).
Qed.

Lemma ingestion_idempotent_witness :
  consistent (db initial_world) = true /\
  db (exec (fetch_and_save_yfinance_data test_yf "TEST") world_after_test)
  = db world_after_test.
Proof.
  split; [reflexivity |].
  exact (proj2 (ingestion_idempotent test_yf "TEST" initial_world eq_refl)).
Defined.

(* ================================================================== *)
(** * The security upsert *)
(* ================================================================== *)

Lemma metadata_of_info_dict (ticker_symbol : string) (info : Info)
  (md : StockCreate) :
  metadata_of_info ticker_symbol info md ->
  stock_data_of_info ticker_symbol info = Ok (as_dict md).
Proof.
  unfold metadata_of_info, stock_data_of_info, as_dict.
  intros (Hc & Hn & Hi & Hs & Hco & Hex & Hcu & Hm & Hw).
  rewrite Hm. cbn [rbind]. rewrite Hc, Hi, Hs, Hco, Hex, Hcu, Hw.
  do 2 f_equal.
  destruct (info_longName info) as [| | n]; cbn [info_get];
    [| contradiction | now rewrite Hn].
  destruct (info_shortName info) as [| | n]; cbn [info_get];
    [now rewrite Hn | contradiction | now rewrite Hn].
Qed.

(** The ingestion stores the metadata of [info] under the symbol,
    whatever was stored and however the merges end. *)
Lemma fetch_stores_metadata (yf_Ticker : string -> Ticker)
  (ticker_symbol : string) (info : Info) (md : StockCreate) (w : world) :
  ticker_info (yf_Ticker ticker_symbol) = Ok (Some info) ->
  info_unusable (Some info) = false ->
  stock_data_of_info ticker_symbol info = Ok (as_dict md) ->
  fits_bigint (market_cap md) = true ->
  exists s,
    get_stock_by_code ticker_symbol
      (db (exec (fetch_and_save_yfinance_data yf_Ticker ticker_symbol) w))
    = Some s /\
    Stock_fields s = md /\
    (forall s0, get_stock_by_code ticker_symbol (db w) = Some s0 ->
                Stock_id s = Stock_id s0).
Proof.
  intros Ei Eu Emd Hfits. unfold exec.
  pose proof (stock_data_code _ _ _ Emd) as Hcode.
  destruct (fetch_and_save_yfinance_data yf_Ticker ticker_symbol w)
    as [w1 r] eqn:Hrun. cbn [fst].
  rewrite (fetch_and_save_from_upsert _ _ info md w Ei Eu Emd) in Hrun.
  destruct (bind_inv _ _ _ _ _ Hrun) as [(wp & [] & Hprint & Hrun1) | (e & F & _)];
    [| discriminate].
  inversion Hprint as [Hwp].
  destruct (upsert_security_stored wp md Hfits) as [s (He & Hf & Hl & Hid)].
  unfold eval, exec in He, Hl.
  destruct (bind_inv _ _ _ _ _ Hrun1) as [(wa & s' & Hup & Hrest) | (e & Hup & _)].
  2:{ rewrite Hup in He. discriminate. }
  rewrite Hup in He, Hl. cbn [fst snd] in He, Hl. inversion He; subst s'.
  assert (Hstocks : stocks (db w1) = stocks (db wa))
    by exact (keeps_run _ _ _ _ _ (ingest_stored_keeps_stocks _ _ _) Hrest eq_refl).
  exists s. split; [| split; [exact Hf |]].
  - unfold get_stock_by_code in *. now rewrite Hstocks, <- Hcode.
  - intros s0 H0. apply Hid. rewrite Hcode, <- Hwp. exact H0.
Qed.

(** C4.  The security upsert is last-write-wins, for metadata whose
    market capitalisation the 64-bit column holds.  In a consistent
    database: the upsert returns a record that carries exactly the
    supplied metadata and that the lookup by code finds afterwards; when
    a security of that code existed, the record keeps its primary key,
    replaces the old one and every other security is as before; when
    none existed, the record is appended and has an empty price and
    statement history; a second upsert of the same code leaves only the
    second metadata in the stored record; and a fetch of the symbol
    whose [info] gives this metadata (the name not null) leaves under
    the symbol a record with exactly this metadata, whatever an earlier
    fetch had stored and however the merges of the fetch end. *)
Theorem upsert_security_last_write_wins (w : world) (md : StockCreate) :
  consistent (db w) = true ->
  fits_bigint (market_cap md) = true ->
  exists s',
    let w' := exec (upsert_security md) w in
    eval (upsert_security md) w = Ok s' /\
    Stock_fields s' = md /\
    get_stock_by_code (code md) (db w') = Some s' /\
    match get_stock_by_code (code md) (db w) with
    | Some s =>
        Stock_id s' = Stock_id s /\
        (forall x, In x (stocks (db w')) <->
                   x = s' \/ (In x (stocks (db w)) /\ Stock_id x <> Stock_id s))
    | None =>
        stocks (db w') = (stocks (db w) ++ [s'])%list /\
        get_daily_prices (Stock_id s') None None (db w') = [] /\
        get_financial_statements (Stock_id s') None None (db w') = []
    end /\
    (forall md2, code md2 = code md -> fits_bigint (market_cap md2) = true ->
       exists s2,
         eval (upsert_security md2) w' = Ok s2 /\
         Stock_id s2 = Stock_id s' /\
         Stock_fields s2 = md2 /\
         get_stock_by_code (code md)
           (db (exec (upsert_security md2) w')) = Some s2) /\
    (forall (yf_Ticker : string -> Ticker) (info : Info),
       ticker_info (yf_Ticker (code md)) = Ok (Some info) ->
       info_unusable (Some info) = false ->
       metadata_of_info (code md) info md ->
       exists s,
         get_stock_by_code (code md)
           (db (exec (fetch_and_save_yfinance_data yf_Ticker (code md)) w))
         = Some s /\
         Stock_fields s = md /\
         (forall s0, get_stock_by_code (code md) (db w) = Some s0 ->
                     Stock_id s = Stock_id s0)).
Proof.
  intros Hc Hfits.
  destruct (upsert_security_stored w md Hfits) as [s' [Hev [Hf [Hl Hid]]]].
  exists s'. cbv zeta.
  split; [exact Hev |]. split; [exact Hf |]. split; [exact Hl |].
  split; [| split].
  - destruct (get_stock_by_code (code md) (db w)) as [s |] eqn:E.
    + split; [now apply Hid |].
      intros x. unfold exec. rewrite (upsert_security_existing w md s Hfits E).
      unfold eval in Hev. rewrite (upsert_security_existing w md s Hfits E) in Hev.
      cbn in Hev. inversion Hev; subst s'. cbn.
      apply (in_update_rows (stocks (db w)) s (mkStock (Stock_id s) md) x).
      unfold get_stock_by_code in E. now apply find_some in E.
    + unfold exec. rewrite (upsert_security_new w md Hfits E).
      unfold eval in Hev. rewrite (upsert_security_new w md Hfits E) in Hev.
      cbn in Hev. inversion Hev; subst s'. cbn.
      split; [reflexivity |].
      apply no_rows_no_history.
      * apply (no_history_of_unknown_id (db w)
                 (next_id (stock_ids (db w))) Hc (next_id_fresh _)).
      * apply (no_history_of_unknown_id (db w)
                 (next_id (stock_ids (db w))) Hc (next_id_fresh _)).
  - intros md2 Hcode Hfits2.
    destruct (upsert_security_stored (exec (upsert_security md) w) md2 Hfits2)
      as [s2 [Hev2 [Hf2 [Hl2 Hid2]]]].
    exists s2. rewrite <- Hcode. repeat split; try assumption.
    apply Hid2. now rewrite Hcode.
  - intros yf_Ticker info Ei Eu Hmd.
    apply (fetch_stores_metadata yf_Ticker (code md) info md w Ei Eu);
      [now apply metadata_of_info_dict | exact Hfits].
Qed.

(** The claim C4 fails for metadata the stocks table cannot hold.  With
    a market capitalisation of 2^63 the upsert raises: for the stored
    code ["TEST"] the record is not overwritten, and for a code that is
    not stored no record is created.  A fetch whose [info] has a null
    long name raises as well, the stored record staying as the first
    fetch left it. *)
Lemma upsert_security_refuses_large_market_cap :
  (code large_cap_metadata = "TEST" /\
   eval (upsert_security large_cap_metadata) world_after_test
   = Raise DataError /\
   exec (upsert_security large_cap_metadata) world_after_test
   = world_after_test) /\
  (get_stock_by_code "BIG" (db world_after_test) = None /\
   eval (upsert_security large_cap_new) world_after_test = Raise DataError /\
   exec (upsert_security large_cap_new) world_after_test = world_after_test) /\
  (eval (fetch_and_save_yfinance_data nameless_yf "TEST") world_after_test
   = Raise IntegrityError /\
   db (exec (fetch_and_save_yfinance_data nameless_yf "TEST") world_after_test)
   = db world_after_test).
Proof. vm_compute. repeat split. Qed.

(** C4 at the test data: ["TEST"] is upserted with changed metadata, and
    fetched with an [info] that gives the changed metadata. *)
Lemma upsert_security_last_write_wins_witness :
  consistent (db world_after_test) = true /\
  fits_bigint (market_cap renamed_metadata) = true /\
  (exists s',
     eval (upsert_security renamed_metadata) world_after_test = Ok s' /\
     Stock_fields s' = renamed_metadata /\
     get_stock_by_code "TEST"
       (db (exec (upsert_security renamed_metadata) world_after_test))
     = Some s') /\
  (exists s,
     get_stock_by_code "TEST"
       (db (exec (fetch_and_save_yfinance_data renamed_yf "TEST")
                 world_after_test)) = Some s /\
     Stock_fields s = renamed_metadata).
Proof.
  split; [vm_compute; reflexivity |]. split; [reflexivity |].
  destruct (upsert_security_last_write_wins world_after_test renamed_metadata)
    as (s' & Hev & Hf & Hl & _ & _ & Hfetch).
  - vm_compute. reflexivity.
  - reflexivity.
  - split; [exists s'; split; [exact Hev |]; split; [exact Hf | exact Hl] |].
    destruct (Hfetch renamed_yf renamed_info eq_refl eq_refl) as (s & Hs & Hfs & _).
    + unfold metadata_of_info. cbn. repeat split.
    + exists s. split; [exact Hs | exact Hfs].
Defined.

(* ================================================================== *)
(** * Ingesting another symbol *)
(* ================================================================== *)

Lemma keeps_of_runs {A : Type} (P : database -> Prop) (m : M A) :
  (forall w w1 r, m w = (w1, r) -> P (db w) -> P (db w1)) -> keeps P m.
Proof.
  intros H w HP. destruct (m w) as [w1 [a | e]] eqn:E; exact (H _ _ _ E HP).
Qed.

Lemma stock_of_id (l : list Stock) (a b : Stock) :
  NoDup (map Stock_id l) -> In a l -> In b l -> Stock_id a = Stock_id b -> a = b.
Proof.
  induction l as [| x l IH]; [intros _ [] |].
  cbn [map]. intros Hnd Ha Hb E. apply NoDup_cons_iff in Hnd as [Hx Hl].
  destruct Ha as [-> | Ha], Hb as [-> | Hb]; auto.
  - exfalso. apply Hx. rewrite E. now apply in_map.
  - exfalso. apply Hx. rewrite <- E. now apply in_map.
Qed.

Lemma find_snoc_other {A : Type} (f : A -> bool) (l : list A) (x : A) :
  f x = false -> find f (l ++ [x]) = find f l.
Proof.
  intros H. induction l as [| y l IH]; cbn; [now rewrite H |].
  destruct (f y); [reflexivity | exact IH].
Qed.

Lemma find_map_other {A : Type} (f : A -> bool) (g : A -> A) (l : list A) :
  (forall x, In x l -> f x = true -> g x = x) ->
  (forall x, In x l -> f x = false -> f (g x) = false) ->
  find f (map g l) = find f l.
Proof.
  induction l as [| y l IH]; intros H1 H2; [reflexivity |]. cbn.
  destruct (f y) eqn:E.
  - rewrite (H1 y (or_introl eq_refl) E), E. reflexivity.
  - rewrite (H2 y (or_introl eq_refl) E). apply IH.
    + intros x Hx. apply H1. now right.
    + intros x Hx. apply H2. now right.
Qed.

Lemma found_by_code (c : string) (d : database) (s : Stock) :
  get_stock_by_code c d = Some s -> In s (stocks d) /\ code (Stock_fields s) = c.
Proof.
  unfold get_stock_by_code. intros H. apply find_some in H as [Hin Hc].
  split; [exact Hin | now apply String.eqb_eq].
Qed.

Section OtherSymbol.
Variable c : string.
Variable d0 : database.

(** The four commits of the service, on a stock under another code. *)
Lemma view_insert_stock (row : Stock) (d : database) :
  code (Stock_fields row) <> c ->
  same_view c d0 d -> same_view c d0 (insert_stock row d).
Proof.
  intros Hne [Hf Hr]. split; [| exact Hr].
  rewrite <- Hf. unfold get_stock_by_code, insert_stock. cbn [stocks].
  apply find_snoc_other. now apply String.eqb_neq.
Qed.

Lemma view_update_stock (row : Stock) (d : database) :
  code (Stock_fields row) <> c ->
  (forall x, In x (stocks d) -> Stock_id x = Stock_id row ->
             code (Stock_fields x) <> c) ->
  same_view c d0 d -> same_view c d0 (update_stock_row row d).
Proof.
  intros Hne Hrows [Hf Hr]. split; [| exact Hr].
  rewrite <- Hf. unfold get_stock_by_code, update_stock_row. cbn [stocks].
  apply find_map_other; intros x Hx E;
    destruct (Nat.eqb (Stock_id x) (Stock_id row)) eqn:Eid; try reflexivity.
  - apply Nat.eqb_eq in Eid. apply String.eqb_eq in E.
    now destruct (Hrows x Hx Eid).
  - now apply String.eqb_neq.
  - exact E.
Qed.

Lemma view_insert_prices (stock_id : nat) (ps : list DailyStockPriceCreate)
  (d : database) :
  (forall s, get_stock_by_code c d0 = Some s -> Stock_id s <> stock_id) ->
  same_view c d0 d -> same_view c d0 (insert_prices stock_id ps d).
Proof.
  intros Hother [Hf Hr]. split; [exact Hf |].
  intros s Hs. destruct (Hr s Hs) as [Hp Hst]. split; [| exact Hst].
  rewrite <- Hp. unfold prices_of, insert_prices. cbn [daily_stock_prices].
  rewrite filter_app.
  rewrite (filter_none _ (number_prices _ stock_id ps)); [apply app_nil_r |].
  intros p Hp'. apply number_prices_stock_id in Hp'. apply Nat.eqb_neq.
  rewrite Hp'. intros E. exact (Hother s Hs (eq_sym E)).
Qed.

Lemma view_insert_statement (i stock_id : nat) (st : FinancialStatementCreate)
  (d : database) :
  (forall s, get_stock_by_code c d0 = Some s -> Stock_id s <> stock_id) ->
  same_view c d0 d ->
  same_view c d0 (insert_statement (mkFinancialStatement i stock_id st) d).
Proof.
  intros Hother [Hf Hr]. split; [exact Hf |].
  intros s Hs. destruct (Hr s Hs) as [Hp Hst]. split; [exact Hp |].
  rewrite <- Hst. unfold statements_of, insert_statement.
  cbn [financial_statements]. rewrite filter_app. cbn [filter Stmt_stock_id].
  destruct (Nat.eqb stock_id (Stock_id s)) eqn:E; [| apply app_nil_r].
  apply Nat.eqb_eq in E. now destruct (Hother s Hs).
Qed.

(** A stored stock under another code has another primary key. *)
Lemma other_code_other_id (d : database) (r : Stock) :
  NoDup (stock_ids d) -> same_view c d0 d ->
  In r (stocks d) -> code (Stock_fields r) <> c ->
  forall s, get_stock_by_code c d0 = Some s -> Stock_id s <> Stock_id r.
Proof.
  intros Hnd [Hf _] Hr Hne s Hs E. rewrite <- Hf in Hs.
  apply found_by_code in Hs as [Hin Hc].
  apply Hne. now rewrite <- (stock_of_id _ _ _ Hnd Hin Hr E).
Qed.

(** The upsert of another code. *)
Lemma upsert_security_view (md : StockCreate) (w wa : world) (s : Stock) :
  code md <> c ->
  consistent (db w) = true -> same_view c d0 (db w) ->
  upsert_security md w = (wa, Ok s) ->
  holds_stock (Stock_id s) (db wa) /\ same_view c d0 (db wa) /\
  forall x, get_stock_by_code c d0 = Some x -> Stock_id x <> Stock_id s.
Proof.
  intros Hne Hc Hv Hup.
  pose proof (proj1 (consistent_spec _) Hc) as (Hnd & _).
  destruct (fits_bigint (market_cap md)) eqn:Hfits;
    [| rewrite (upsert_security_refused w md Hfits) in Hup; discriminate].
  destruct (get_stock_by_code (code md) (db w)) as [s0 |] eqn:E.
  - rewrite (upsert_security_existing w md s0 Hfits E) in Hup.
    inversion Hup as [[Hwa Hs]]. cbn [db Stock_id].
    pose proof (found_by_code _ _ _ E) as [Hin0 Hcode0].
    assert (Hother : forall x, get_stock_by_code c d0 = Some x ->
                               Stock_id x <> Stock_id s0).
    { apply (other_code_other_id (db w) s0 Hnd Hv Hin0). now rewrite Hcode0. }
    split; [now apply consistent_update_stock |]. split; [| exact Hother].
    apply view_update_stock; [exact Hne | | exact Hv].
    intros x Hx Eid. cbn [Stock_id] in Eid.
    rewrite (stock_of_id _ _ _ Hnd Hx Hin0 Eid), Hcode0. exact Hne.
  - rewrite (upsert_security_new w md Hfits E) in Hup.
    inversion Hup as [[Hwa Hs]]. cbn [db Stock_id].
    pose proof (consistent_insert_stock (db w) md Hc (code_taken_none _ _ E))
      as Hholds.
    split; [exact Hholds |].
    assert (Hv' : same_view c d0
                    (insert_stock (mkStock (next_id (stock_ids (db w))) md) (db w)))
      by (apply view_insert_stock; [exact Hne | exact Hv]).
    split; [exact Hv' |].
    apply (other_code_other_id
             (insert_stock (mkStock (next_id (stock_ids (db w))) md) (db w))
             (mkStock (next_id (stock_ids (db w))) md)).
    + destruct Hholds as [Hc' _]. now apply consistent_spec in Hc' as [Hnd' _].
    + exact Hv'.
    + cbn. apply in_or_app. right. now left.
    + exact Hne.
Qed.

(** The steps after the upsert, for a stock under another code. *)
Lemma ingest_stored_view (ticker : Ticker) (s : Stock) :
  (forall x, get_stock_by_code c d0 = Some x -> Stock_id x <> Stock_id s) ->
  keeps (fun d => holds_stock (Stock_id s) d /\ same_view c d0 d)
        (ingest_stored ticker s).
Proof.
  intros Hother.
  unfold ingest_stored, merge_prices, add_daily_prices,
    _save_financials_from_df, save_statement_row, create_financial_statement.
  repeat keeps_step; auto; intros d [Hh Hv]; split;
    solve [ now apply consistent_insert_prices
          | now apply view_insert_prices
          | now apply consistent_insert_statement
          | now apply view_insert_statement ].
Qed.

(** The ingestion of a symbol leaves what the database shows of another
    symbol, and keeps the database consistent. *)
Lemma ingest_keeps_view (yf_Ticker : string -> Ticker) (ticker_symbol : string) :
  ticker_symbol <> c ->
  keeps (fun d => consistent d = true /\ same_view c d0 d)
        (fetch_and_save_yfinance_data yf_Ticker ticker_symbol).
Proof.
  intros Hne. apply keeps_of_runs. intros w w1 r Hrun [Hc Hv].
  destruct (ticker_info (yf_Ticker ticker_symbol)) as [[info |] | e] eqn:Ei.
  3:{ revert Hrun. unfold fetch_and_save_yfinance_data. run_monad. rewrite Ei.
      intros H. inversion H. cbn [db]. auto. }
  2:{ revert Hrun. unfold fetch_and_save_yfinance_data. run_monad. rewrite Ei.
      cbn. intros H. inversion H. cbn [db]. auto. }
  destruct (info_unusable (Some info)) eqn:Eu.
  { revert Hrun. unfold fetch_and_save_yfinance_data. run_monad. rewrite Ei, Eu.
    intros H. inversion H. cbn [db]. auto. }
  destruct (stock_data_of_info ticker_symbol info) as [d | e] eqn:Emd.
  2:{ revert Hrun. unfold fetch_and_save_yfinance_data. run_monad.
      rewrite Ei, Eu, Emd. intros H. inversion H. cbn [db]. auto. }
  assert (Hrefused : forall e,
            (forall stock w', upsert_fetched stock d w' = (w', Raise e)) ->
            consistent (db w1) = true /\ same_view c d0 (db w1)).
  { intros e He.
    rewrite (fetch_and_save_refused _ _ info d e w Ei Eu Emd) in Hrun;
      [| intros w'; apply He].
    inversion Hrun. cbn [db]. auto. }
  destruct (stock_data_cases d) as [[md ->] | Hn].
  2:{ destruct (upsert_fetched_nameless
                  (get_stock_by_code ticker_symbol (db w)) d Hn) as [e He].
      rewrite (fetch_and_save_refused _ _ info d e w Ei Eu Emd He) in Hrun.
      inversion Hrun. cbn [db]. auto. }
  destruct (fits_bigint (market_cap md)) eqn:Hfits.
  2:{ apply (Hrefused DataError). intros stock w'.
      now rewrite upsert_fetched_named, Hfits. }
  clear Hrefused.
  pose proof (stock_data_code _ _ _ Emd) as Hcode.
  rewrite (fetch_and_save_from_upsert _ _ info md w Ei Eu Emd) in Hrun.
  destruct (bind_inv _ _ _ _ _ Hrun) as [(wp & [] & Hprint & Hrun1) | (e & F & _)];
    [| discriminate].
  inversion Hprint as [Hwp].
  destruct (upsert_security_stored wp md Hfits) as [s (He & _)]. unfold eval in He.
  destruct (bind_inv _ _ _ _ _ Hrun1) as [(wa & s' & Hup & Hrest) | (e & Hup & _)].
  2:{ rewrite Hup in He. discriminate. }
  destruct (upsert_security_view md wp wa s') as (Hh & Hva & Hother).
  - now rewrite Hcode.
  - now rewrite <- Hwp.
  - now rewrite <- Hwp.
  - exact Hup.
  - destruct (keeps_run _ _ _ _ _ (ingest_stored_view _ s' Hother) Hrest
                (conj Hh Hva)) as [[Hc1 _] Hv1].
    auto.
Qed.

End OtherSymbol.

(* ================================================================== *)
(** * The bulk job, run again *)
(* ================================================================== *)

(** On a failed session the ingestion ends the same way in every
    world. *)
Lemma failed_session_eval (yf_Ticker : string -> Ticker) (ticker_symbol : string)
  (w w' : world) :
  eval (fetch_and_save_on_failed_session yf_Ticker ticker_symbol) w
  = eval (fetch_and_save_on_failed_session yf_Ticker ticker_symbol) w'.
Proof.
  unfold fetch_and_save_on_failed_session. run_monad.
  destruct (ticker_info (yf_Ticker ticker_symbol)) as [info | e]; [| reflexivity].
  destruct (info_unusable info); reflexivity.
Qed.

(** What an ingestion left of its symbol is still there after the
    ingestions that follow on a session, of this symbol or of others. *)
Lemma ingest_in_turn_view (yf_Ticker : string -> Ticker) (t : string)
  (w wa : world) (r : result (option Stock)) :
  fetch_and_save_yfinance_data yf_Ticker t w = (wa, r) ->
  forall (rest : list string) (usable : bool) (wcur : world),
  consistent (db wcur) = true -> same_view t (db wa) (db wcur) ->
  consistent (db (ingest_in_turn yf_Ticker rest usable wcur)) = true /\
  same_view t (db wa) (db (ingest_in_turn yf_Ticker rest usable wcur)).
Proof.
  intros Hrun. induction rest as [| u rest IH]; intros usable wcur Hc Hv; [auto |].
  cbn [ingest_in_turn]. destruct usable.
  2:{ change (job_ingestion false yf_Ticker u)
        with (fetch_and_save_on_failed_session yf_Ticker u).
      apply IH; now rewrite failed_session_run. }
  change (job_ingestion true yf_Ticker u)
    with (fetch_and_save_yfinance_data yf_Ticker u).
  destruct (String.eqb u t) eqn:E.
  - apply String.eqb_eq in E. subst u.
    pose proof (proj1 (consistent_spec _) Hc) as (Hnd & _).
    destruct (ingest_again _ _ _ _ wcur _ Hrun Hnd Hv) as [_ Hdb].
    apply IH; now rewrite Hdb.
  - apply String.eqb_neq in E.
    destruct (keeps_exec _ _ wcur
                (ingest_keeps_view t (db wa) yf_Ticker u E) (conj Hc Hv))
      as [Hc' Hv'].
    now apply IH.
Qed.

(** After the ingestions of a list of symbols on a session, and of
    whatever followed on it, the same ingestions on a session in the
    same state, in a database that is the one they left, end the same
    way and write nothing. *)
Lemma ingest_in_turn_again (yf_Ticker : string -> Ticker)
  (tickers : list string) :
  forall (usable : bool) (w : world), consistent (db w) = true ->
  forall (later : list string) (w2 : world),
  db w2 = db (ingest_in_turn yf_Ticker later
                (session_in_turn yf_Ticker tickers usable w)
                (ingest_in_turn yf_Ticker tickers usable w)) ->
  db (ingest_in_turn yf_Ticker tickers usable w2) = db w2 /\
  session_in_turn yf_Ticker tickers usable w2
  = session_in_turn yf_Ticker tickers usable w.
Proof.
  induction tickers as [| t rest IH]; intros usable w Hc later w2 H2;
    [split; reflexivity |].
  cbn [ingest_in_turn session_in_turn] in *. destruct usable.
  2:{ (* the session is unusable *)
      change (job_ingestion false yf_Ticker t)
        with (fetch_and_save_on_failed_session yf_Ticker t) in *.
      rewrite (failed_session_eval yf_Ticker t w2 w).
      destruct (IH (usable_after false
                      (eval (fetch_and_save_on_failed_session yf_Ticker t) w))
                   (exec (fetch_and_save_on_failed_session yf_Ticker t) w))
        with (later := later)
             (w2 := exec (fetch_and_save_on_failed_session yf_Ticker t) w2)
        as [Hdb Hs].
      - now rewrite failed_session_run.
      - now rewrite failed_session_run.
      - split; [| exact Hs]. rewrite Hdb. apply failed_session_run. }
  change (job_ingestion true yf_Ticker t)
    with (fetch_and_save_yfinance_data yf_Ticker t) in *.
  pose proof (triple_exec _ _ w (fetch_and_save_triple yf_Ticker t) Hc) as Hc1.
  unfold exec, eval in H2, Hc1 |- *.
  destruct (fetch_and_save_yfinance_data yf_Ticker t w) as [wa r] eqn:Hrun.
  cbn [fst snd] in H2, Hc1 |- *.
  destruct (ingest_in_turn_view _ _ _ _ _ Hrun rest (usable_after true r) wa Hc1
              (same_view_refl _ _)) as [Hcrest Hvrest].
  destruct (ingest_in_turn_view _ _ _ _ _ Hrun later
              (session_in_turn yf_Ticker rest (usable_after true r) wa)
              _ Hcrest Hvrest) as [Hcend Hvend].
  rewrite <- H2 in Hcend, Hvend.
  pose proof (proj1 (consistent_spec _) Hcend) as (Hnd & _).
  destruct (ingest_again _ _ _ _ w2 _ Hrun Hnd Hvend) as [He Hd].
  unfold eval, exec in He, Hd.
  destruct (fetch_and_save_yfinance_data yf_Ticker t w2) as [w3 r3].
  cbn [fst snd] in He, Hd |- *. subst r3.
  destruct (IH (usable_after true r) wa Hc1 later w3) as [Hdb Hs].
  - now rewrite Hd.
  - split; [now rewrite Hdb | exact Hs].
Qed.

Lemma run_bulk_db (yf_Ticker : string -> Ticker) (tickers : list string)
  (w : world) :
  db (exec (run_bulk_fetch_job yf_Ticker tickers) w)
  = db (ingest_in_turn yf_Ticker tickers true w).
Proof.
  rewrite <- (bulk_loop_in_turn yf_Ticker tickers 0%nat 0%nat true
               (exec (print (Debug_bulk_received tickers) ;;;
                      print (Starting_bulk (List.length tickers))) w) w eq_refl).
  unfold run_bulk_fetch_job, exec. run_monad.
  destruct (bulk_loop yf_Ticker tickers (0%nat, 0%nat, true) _)
    as [w1 [[[s f] u] | e]]; reflexivity.
Qed.

(** X16.  The ingestion of a symbol leaves what is stored for another symbol:
    the stock under the other code, its prices and its statements are
    as they were, and [GET /stocks/{code}] for the other code answers
    as before. *)
Theorem ingestion_leaves_other_symbols (yf_Ticker : string -> Ticker)
  (ticker_symbol other : string) (w : world) :
  consistent (db w) = true ->
  ticker_symbol <> other ->
  let w' := exec (fetch_and_save_yfinance_data yf_Ticker ticker_symbol) w in
  same_view other (db w) (db w') /\
  eval (router.get_stock other) w' = eval (router.get_stock other) w.
Proof.
  intros Hc Hne. cbv zeta.
  destruct (keeps_exec _ _ w
              (ingest_keeps_view other (db w) yf_Ticker ticker_symbol Hne)
              (conj Hc (same_view_refl _ _))) as [_ Hv].
  split; [exact Hv |].
  unfold eval. rewrite !route_get_stock_run. destruct Hv as [Hf Hrows].
  rewrite Hf.
  destruct (get_stock_by_code other (db w)) as [s |] eqn:E; [| reflexivity].
  destruct (Hrows s eq_refl) as [Hp Hs]. cbn [snd]. now rewrite Hp, Hs.
Qed.

Lemma ingestion_leaves_other_symbols_witness :
  consistent (db world_after_test) = true /\
  eval (router.get_stock "TEST")
       (exec (fetch_and_save_yfinance_data history_failing_yf "OTHER")
             world_after_test)
  = eval (router.get_stock "TEST") world_after_test.
Proof.
  split; [reflexivity |].
  apply (ingestion_leaves_other_symbols history_failing_yf "OTHER" "TEST"
           world_after_test); [reflexivity | discriminate].
Defined.

(** X18.  The bulk job run a second time on the same symbols, the provider
    answering as it did the first time, leaves the database as the
    first run left it, whatever symbols failed and wherever. *)
Theorem run_bulk_fetch_job_idempotent (yf_Ticker : string -> Ticker)
  (tickers : list string) (w : world) :
  consistent (db w) = true ->
  let w1 := exec (run_bulk_fetch_job yf_Ticker tickers) w in
  db (exec (run_bulk_fetch_job yf_Ticker tickers) w1) = db w1.
Proof.
  intros Hc. cbv zeta. rewrite (run_bulk_db yf_Ticker tickers (exec _ w)).
  apply (ingest_in_turn_again yf_Ticker tickers true w Hc []).
  cbn [ingest_in_turn]. apply run_bulk_db.
Qed.

Lemma run_bulk_fetch_job_idempotent_witness :
  consistent (db world_after_test) = true /\
  db (exec (run_bulk_fetch_job test_yf ["TEST"; "ERR"; "NONE"; "TEST"])
        (exec (run_bulk_fetch_job test_yf ["TEST"; "ERR"; "NONE"; "TEST"])
              world_after_test))
  = db (exec (run_bulk_fetch_job test_yf ["TEST"; "ERR"; "NONE"; "TEST"])
             world_after_test).
Proof.
  split; [reflexivity |].
  apply (run_bulk_fetch_job_idempotent test_yf ["TEST"; "ERR"; "NONE"; "TEST"]
           world_after_test).
  reflexivity.
Defined.

(* ================================================================== *)
(** * Failures before the first write *)
(* ================================================================== *)

(** X14.  An ingestion that fails before the upsert writes nothing: when the
    provider fails on [info] the failure is passed on, and a market
    capitalisation that is an int beyond the range of a double raises
    [OverflowError] in the sanitizer; in both cases the database is as
    it was. *)
Theorem ingestion_fails_before_writing (yf_Ticker : string -> Ticker)
  (ticker_symbol : string) (e : exn) (w : world) :
  ticker_info (yf_Ticker ticker_symbol) = Raise e \/
  (exists info z,
     ticker_info (yf_Ticker ticker_symbol) = Ok (Some info) /\
     info_unusable (Some info) = false /\
     info_marketCap info = VInt z /\
     float_overflow_bound <= Z.abs z /\
     e = OverflowError) ->
  eval (fetch_and_save_yfinance_data yf_Ticker ticker_symbol) w = Raise e /\
  db (exec (fetch_and_save_yfinance_data yf_Ticker ticker_symbol) w) = db w.
Proof.
  intros [Ei | (info & z & Ei & Eu & Ecap & Hz & ->)];
    unfold fetch_and_save_yfinance_data; run_monad; rewrite Ei.
  - split; reflexivity.
  - rewrite Eu. unfold stock_data_of_info.
    rewrite Ecap, (clean_int_out_of_range z Hz). split; reflexivity.
Qed.

Lemma ingestion_fails_before_writing_witness :
  eval (fetch_and_save_yfinance_data test_yf "ERR") world_after_test
  = Raise (ProviderError "timeout") /\
  db (exec (fetch_and_save_yfinance_data test_yf "ERR") world_after_test)
  = db world_after_test.
Proof.
  apply (ingestion_fails_before_writing test_yf "ERR").
  left. reflexivity.
Defined.

(* ================================================================== *)
(** * The reading routes *)
(* ================================================================== *)

(** X10.  The four [GET] routes write nothing and print nothing.  The three
    routes by code answer 404 exactly when no stock has the code, and
    otherwise agree on the stock: the prices route without bounds
    returns the prices [GET /stocks/{code}] loads, ordered by date, and
    the statements route without filters returns the statements that
    route loads, latest end date first. *)
Theorem read_routes (c : string) (w : world) :
  (forall skip limit, exec (router.get_all_stocks skip limit) w = w) /\
  exec (router.get_stock c) w = w /\
  (forall a b, exec (router.get_prices_for_stock c a b) w = w) /\
  (forall t e, exec (router.get_financial_statements_for_stock c t e) w = w) /\
  (get_stock_by_code c (db w) = None ->
     eval (router.get_stock c) w = Raise (router.stock_not_found c) /\
     (forall a b, eval (router.get_prices_for_stock c a b) w
                  = Raise (router.stock_not_found c)) /\
     (forall t e, eval (router.get_financial_statements_for_stock c t e) w
                  = Raise (router.stock_not_found c))) /\
  (forall s, get_stock_by_code c (db w) = Some s ->
     exists prices statements,
       eval (router.get_stock c) w = Ok (s, prices, statements) /\
       (exists sorted,
          eval (router.get_prices_for_stock c None None) w = Ok sorted /\
          Permutation sorted prices /\
          StronglySorted (fun p q => Price_date p <= Price_date q) sorted) /\
       (exists sorted,
          eval (router.get_financial_statements_for_stock c None None) w
          = Ok sorted /\
          Permutation sorted statements /\
          StronglySorted
            (fun f g => Stmt_period_end_date g <= Stmt_period_end_date f)
            sorted)).
Proof.
  unfold router.get_all_stocks, router.get_stock, router.get_prices_for_stock,
    router.get_financial_statements_for_stock.
  run_monad.
  split; [reflexivity |].
  split; [destruct (get_stock_by_code c (db w)); reflexivity |].
  split; [intros a b; destruct (get_stock_by_code c (db w)); reflexivity |].
  split; [intros t e; destruct (get_stock_by_code c (db w)); reflexivity |].
  split.
  - intros ->. repeat split; reflexivity.
  - intros s ->. do 2 eexists. split; [reflexivity |]. split.
    + eexists. split; [reflexivity |]. split.
      * apply order_by_perm.
      * apply order_by_asc_sorted.
    + eexists. split; [reflexivity |]. split.
      * apply order_by_perm.
      * apply order_by_desc_sorted.
Qed.

(* ================================================================== *)
(** * Bulk insertion of prices *)
(* ================================================================== *)

Lemma number_prices_ids (i stock_id : nat) (ps : list DailyStockPriceCreate) :
  map Price_id (number_prices i stock_id ps) = seq i (List.length ps).
Proof.
  revert i. induction ps as [| p ps IH]; intros i; [reflexivity |].
  rewrite number_prices_cons. cbn [map Price_id List.length seq]. now rewrite IH.
Qed.

Lemma list_max_bound (l : list nat) (x : nat) :
  In x l -> (x <= list_max l)%nat.
Proof.
  intros H.
  assert (F : Forall (fun k => (k <= list_max l)%nat) l)
    by (apply list_max_le; lia).
  rewrite Forall_forall in F. now apply F.
Qed.

(** X7.  [add_daily_prices] for a stored stock, in a consistent database.
    A batch whose volumes are all of 64 bits is stored whole, in its
    order, without a look at what is stored: the stock's history is the
    old one followed by the batch, the histories of other stocks, the
    stocks and the statements are as they were, the database stays
    consistent and distinct row ids stay distinct; an unbounded query
    for the stock then returns the old rows and the batch, ordered by
    date.  A batch with a volume outside the 64 bits of the column is
    refused whole: the insert raises and the world stays as it is. *)
Theorem add_daily_prices_stores_batch (stock_id : nat)
  (prices : list DailyStockPriceCreate) (w : world) :
  consistent (db w) = true ->
  In stock_id (stock_ids (db w)) ->
  let w' := exec (add_daily_prices stock_id prices) w in
  if forallb (fun p => fits_bigint (volume p)) prices
  then
    eval (add_daily_prices stock_id prices) w = Ok tt /\
    consistent (db w') = true /\
    map Price_fields (prices_of stock_id (db w'))
    = (map Price_fields (prices_of stock_id (db w)) ++ prices)%list /\
    (forall other, other <> stock_id ->
       prices_of other (db w') = prices_of other (db w)) /\
    stocks (db w') = stocks (db w) /\
    financial_statements (db w') = financial_statements (db w) /\
    (NoDup (map Price_id (daily_stock_prices (db w))) ->
     NoDup (map Price_id (daily_stock_prices (db w')))) /\
    Permutation
      (map Price_fields (get_daily_prices stock_id None None (db w')))
      (map Price_fields (get_daily_prices stock_id None None (db w)) ++ prices)
  else
    eval (add_daily_prices stock_id prices) w = Raise DataError /\
    w' = w.
Proof.
  intros Hcons Hstored.
  cbv zeta. unfold add_daily_prices, eval, exec.
  destruct (forallb (fun p => fits_bigint (volume p)) prices);
    [| split; reflexivity].
  unfold commit. cbn [fst snd db].
  split; [reflexivity |].
  split; [exact (proj1 (consistent_insert_prices (db w) stock_id prices
                          (conj Hcons Hstored))) |].
  assert (Hfields :
            map Price_fields (prices_of stock_id (insert_prices stock_id prices (db w)))
            = (map Price_fields (prices_of stock_id (db w)) ++ prices)%list).
  { now rewrite prices_of_insert, map_app, number_prices_fields. }
  split; [exact Hfields |].
  split.
  { intros other Hother. unfold prices_of, insert_prices. cbn.
    rewrite filter_app.
    rewrite (filter_none _ (number_prices _ stock_id prices));
      [apply app_nil_r |].
    intros p Hp.
    apply number_prices_stock_id in Hp. apply Nat.eqb_neq. congruence. }
  split; [reflexivity |]. split; [reflexivity |].
  split.
  { intros Hnd. unfold insert_prices. cbn. rewrite map_app, number_prices_ids.
    apply NoDup_app; [exact Hnd | apply seq_NoDup |].
    intros x Hx Hs. apply in_seq in Hs. apply list_max_bound in Hx.
    unfold next_id in Hs. lia. }
  unfold get_daily_prices.
  eapply Permutation_trans;
    [apply Permutation_map, order_by_perm |].
  fold (prices_of stock_id (insert_prices stock_id prices (db w))).
  rewrite Hfields. apply Permutation_app_tail.
  apply Permutation_map, Permutation_sym, order_by_perm.
Qed.

(* ================================================================== *)
(** * The invariants, on the test data *)
(* ================================================================== *)

Lemma reachable_consistent_witness :
  consistent
    (db (serve (POST_financials "TEST" fs_payload)
           (serve (POST_yfinance test_yf "TEST") initial_world))) = true.
Proof.
  apply (reachable_consistent
           (serve (POST_financials "TEST" fs_payload)
              (serve (POST_yfinance test_yf "TEST") initial_world))).
  apply reachable_serve, reachable_serve, reachable_initial.
Defined.

Lemma merging_requests_keep_keys_unique_witness :
  keys_unique (db (serve (POST_yfinance test_yf "TEST") initial_world)).
Proof.
  apply (merging_requests_keep_keys_unique
           (POST_yfinance test_yf "TEST") initial_world).
  - intros hist H. vm_compute in H. inversion H; subst hist.
    unfold fetched_days. cbn.
    repeat constructor; cbn; intros F;
      repeat (destruct F as [F | F]; [discriminate F |]); exact F.
  - split; constructor.
Defined.

Lemma merge_prices_stale_series_witness :
  latest_persisted_date 1 (db world_after_test) = Some d_2023_01_01 /\
  db (exec (merge_prices 1 test_hist) world_after_test) = db world_after_test.
Proof.
  split; [reflexivity |].
  refine (proj2 (merge_prices_stale_series 1 test_hist world_after_test
                   d_2023_01_01 eq_refl _)).
  intros day0 H. vm_compute in H.
  repeat (destruct H as [H | H]; [subst day0; vm_compute; discriminate |]).
  destruct H.
Defined.

Lemma add_daily_prices_stores_batch_witness :
  consistent (db world_after_test) = true /\
  In 1%nat (stock_ids (db world_after_test)) /\
  map Price_fields
    (prices_of 1
       (db (exec (add_daily_prices 1 (map Price_fields
                                        (prices_of 1 (db world_after_test))))
                 world_after_test)))
  = (map Price_fields (prices_of 1 (db world_after_test))
     ++ map Price_fields (prices_of 1 (db world_after_test)))%list.
Proof.
  split; [reflexivity |]. split; [left; reflexivity |].
  pose proof (add_daily_prices_stores_batch 1
                (map Price_fields (prices_of 1 (db world_after_test)))
                world_after_test eq_refl (or_introl eq_refl)) as H.
  cbv zeta in H.
  change (forallb (fun p => fits_bigint (volume p))
            (map Price_fields (prices_of 1 (db world_after_test))))
    with true in H.
  exact (proj1 (proj2 (proj2 H))).
Defined.

Lemma save_financials_idempotent_witness :
  holds_stock 1 (db (serve (POST_stock fin_stock) initial_world)) /\
  db (exec (_save_financials_from_df 1 test_financials "annual")
        (exec (_save_financials_from_df 1 test_financials "annual")
              (serve (POST_stock fin_stock) initial_world)))
  = db (exec (_save_financials_from_df 1 test_financials "annual")
             (serve (POST_stock fin_stock) initial_world)).
Proof.
  assert (H : holds_stock 1 (db (serve (POST_stock fin_stock) initial_world)))
    by (split; [reflexivity | left; reflexivity]).
  split; [exact H |].
  exact (proj2 (proj2 (save_financials_idempotent 1 test_financials "annual"
                         (serve (POST_stock fin_stock) initial_world)
                         eq_refl H))).
Defined.
